(** * ServerSecureChannelLayer: the server side of an OPC-UA secure channel

    A shallow embedding of [lib/server/ServerSecureChannelLayer.js].

    The JavaScript object [self] becomes the record [Channel]; every method
    and every [this]-bound helper of the file becomes a computation in the
    monad [M], which threads the channel, records the calls made to the
    collaborators of the file (message builder, message chunker, transport,
    crypto provider, event listeners) as a list of [Event]s, and models a
    thrown exception ([assert], property access on [null]) as the outcome
    [Thrown], keeping the mutations made before the throw.

    Collaborators whose code lives in other files of the repository
    ([crypto_utils], [split_der], [fromURI], the chunker, the random source,
    the getter [expired] of the token class) are the fields of [Externals].

    Numbers: identifiers, handles, lengths and millisecond values are JavaScript
    numbers holding integers far below 2^53, where the arithmetic used here
    (+1, comparison, min) is exact; they are modelled in [Z].  The delay handed to
    [setTimeout] is the quotient [revisedLifeTime * 120 / 100] and is kept as a
    rational.

    The statistics of a transaction are modelled apart, on the fields of the
    channel they read and write.  Left out are the debug traces, the optional hook
    [_on_response], and the getters and setters that only hand over what the
    socket, the session table or the message builder hold. *)

From Stdlib Require Import ZArith QArith List Sorted String Ascii Bool Lia.
From Stdlib Require Import Strings.Byte.
From Stdlib Require Import DecimalString DecimalZ.
Import ListNotations.
Local Open Scope string_scope.
Local Open Scope list_scope.
Local Open Scope Z_scope.

(** ** Buffers *)

Definition Buffer := list byte.

Definition hex_digits : list ascii :=
  ["0"; "1"; "2"; "3"; "4"; "5"; "6"; "7"; "8"; "9"; "a"; "b"; "c"; "d"; "e"; "f"]%char.

Definition hex_digit (n : N) : ascii := nth (N.to_nat n) hex_digits "0"%char.

(** [buffer.toString("hex")]: two lowercase digits per byte. *)
Fixpoint toString_hex (b : Buffer) : string :=
  match b with
  | [] => EmptyString
  | x :: r =>
      String (hex_digit (N.div (Byte.to_N x) 16))
        (String (hex_digit (N.modulo (Byte.to_N x) 16)) (toString_hex r))
  end.

(** JavaScript truthiness of a value that is [null]/[undefined] or an object:
    every object is truthy, a zero-length [Buffer] included. *)
Definition truthy {A : Type} (v : option A) : bool :=
  match v with Some _ => true | None => false end.

(** [x || d] on a number option of the constructor: [undefined], and [0], give [d]. *)
Definition or_default (x : option Z) (d : Z) : Z :=
  match x with
  | Some v => if v =? 0 then d else v
  | None => d
  end.

(** ** Enumerations of the data model *)

Inductive MessageSecurityMode := INVALID | NONE | SIGN | SIGNANDENCRYPT.

Definition MessageSecurityMode_eqb (a b : MessageSecurityMode) : bool :=
  match a, b with
  | INVALID, INVALID | NONE, NONE | SIGN, SIGN | SIGNANDENCRYPT, SIGNANDENCRYPT => true
  | _, _ => false
  end.

Inductive SecurityTokenRequestType := ISSUE | RENEW | InvalidRequestType.

Inductive MsgType := OPN | MSG | CLO.

Definition MsgType_eqb (a b : MsgType) : bool :=
  match a, b with
  | OPN, OPN | MSG, MSG | CLO, CLO => true
  | _, _ => false
  end.

(** The members of [SecurityPolicy] that [isValidSecurityPolicy] accepts; every
    other member of the enumeration is [OtherPolicy]. *)
Inductive SecurityPolicy := Policy_None | Basic128Rsa15 | Basic256 | OtherPolicy.

Inductive StatusCode :=
| Good
| BadCommunicationError
| BadSecurityPolicyRejected
| BadSecurityModeRejected
| BadCertificateInvalid
| BadCertificateTimeInvalid
| BadSecurityChecksFailed.

Definition StatusCode_eqb (a b : StatusCode) : bool :=
  match a, b with
  | Good, Good
  | BadCommunicationError, BadCommunicationError
  | BadSecurityPolicyRejected, BadSecurityPolicyRejected
  | BadSecurityModeRejected, BadSecurityModeRejected
  | BadCertificateInvalid, BadCertificateInvalid
  | BadCertificateTimeInvalid, BadCertificateTimeInvalid
  | BadSecurityChecksFailed, BadSecurityChecksFailed => true
  | _, _ => false
  end.

(** ** Structures *)

Definition PublicKey := Buffer.
Definition Keys := Buffer.

Record DerivedKeys := {
  derivedClientKeys : Keys;
  derivedServerKeys : Keys
}.

(** The crypto strategy the message builder selects for the security policy. *)
Record CryptoFactory := {
  symmetricKeyLength : nat;
  blockPaddingSize : Z;
  compute_derived_keys : Buffer -> Buffer -> DerivedKeys
}.

Record AsymmetricAlgorithmSecurityHeader := {
  securityPolicyUri : string;
  senderCertificate : option Buffer;
  receiverCertificateThumbprint : option Buffer
}.

Definition SecurityPolicy_None_uri : string :=
  "http://opcfoundation.org/UA/SecurityPolicy#None".

(** [createdAt] and [revisedLifeTime] are absent from the object literal the
    constructor installs before the first token is issued. *)
Record ChannelSecurityToken := {
  tok_secureChannelId : Z;
  tokenId : Z;
  createdAt : option Z;
  tok_revisedLifeTime : option Z
}.

Record OpenSecureChannelRequest := {
  osc_requestHandle : Z;
  osc_securityMode : MessageSecurityMode;
  osc_clientNonce : option Buffer;
  requestedLifetime : Z;
  requestType : SecurityTokenRequestType
}.

Inductive Request :=
| OpenSecureChannelRequest_ (r : OpenSecureChannelRequest)
| CloseSecureChannelRequest (handle : Z)
| ServiceRequest (schema_name : string) (handle : Z).

(** [request.requestHeader.requestHandle] *)
Definition requestHandle (r : Request) : Z :=
  match r with
  | OpenSecureChannelRequest_ o => osc_requestHandle o
  | CloseSecureChannelRequest h => h
  | ServiceRequest _ h => h
  end.

Record ResponseHeader := {
  serviceResult : StatusCode;
  rh_requestHandle : Z
}.

Inductive ResponseBody :=
| OpenSecureChannelResponse (serverProtocolVersion : Z)
    (token : option ChannelSecurityToken) (nonce : option Buffer)
| ServiceFault (description : option string)
| ServiceResponse (schema_name : string).

Record Response := {
  responseHeader : ResponseHeader;
  body : ResponseBody
}.

Definition set_requestHandle (h : Z) (r : Response) : Response :=
  {| responseHeader := {| serviceResult := serviceResult (responseHeader r);
                          rh_requestHandle := h |};
     body := body r |}.

Definition set_serviceResult (s : StatusCode) (r : Response) : Response :=
  {| responseHeader := {| serviceResult := s;
                          rh_requestHandle := rh_requestHandle (responseHeader r) |};
     body := body r |}.

(** The object handed around as [message]: the request, the asymmetric header the
    builder read (absent on the messages built by [_on_common_message]) and the
    request id of the sequence header. *)
Record Message := {
  request : Request;
  msg_securityHeader : option AsymmetricAlgorithmSecurityHeader;
  requestId : Z
}.

Record Certificate := {
  notBefore : Z;
  notAfter : Z;
  publicKeyLength : Z
}.

Definition EndpointDescription := string.

Record OPCUAServerEndPoint := {
  certificateChain : Buffer;
  _privateKey : Buffer;
  getEndpointDescription : MessageSecurityMode -> SecurityPolicy -> option EndpointDescription
}.

Inductive SecurityOptions :=
| no_security_options
| asymmetric_options (signatureLength plainBlockSize cipherBlockSize : Z)
| symmetric_options (mode : MessageSecurityMode) (keys : Keys).

Record ChunkOptions := {
  opt_requestId : Z;
  opt_secureChannelId : Z;
  opt_tokenId : Z;
  chunkSize : Z;
  security_options : SecurityOptions
}.

Inductive MessageListener := no_listener | initial_listener | common_listener.

(** What the channel reads from, and writes to, its [MessageBuilder]. *)
Record MessageBuilder := {
  mb_privateKey : option Buffer;
  mb_securityMode : MessageSecurityMode;
  cryptoFactory : option CryptoFactory;
  mb_securityHeader : option AsymmetricAlgorithmSecurityHeader;
  sequenceHeader_requestId : Z;
  listener : MessageListener
}.

Record ServerTCP_transport := {
  receiveBufferSize : Z
}.

(** A pending [setTimeout]: when it was armed and the delay it was given
    ([None]: the delay expression was [NaN]). *)
Record Timer := {
  armedAt : Z;
  delay : option Q
}.

(** ** Collaborators defined in other files *)

Record Externals := {
  makeSHA1Thumbprint : Buffer -> Buffer;
  exploreCertificate : Buffer -> option Certificate;
  extractPublicKeyFromCertificate : Buffer -> option PublicKey;
  rsa_length : PublicKey -> Z;
  split_der : Buffer -> list Buffer;
  fromURI : string -> SecurityPolicy;
  entropy : nat -> byte;
  chunks_of : MsgType -> ChunkOptions -> Response -> list Buffer;
  (** the getter [expired] of the token class, read when the clock shows the given time *)
  expired : ChannelSecurityToken -> Z -> bool
}.

(** ** Observable calls *)

Inductive Event :=
| console_log (what : string)
| compute_derived_keys_call (serverNonce clientNonce : Buffer)
| pushNewToken (t : option ChannelSecurityToken) (k : option Keys)
| messageChunker_update (h : AsymmetricAlgorithmSecurityHeader) (k : option Keys)
| chunkSecureMessage (t : MsgType) (o : ChunkOptions) (r : Response)
| transport_write (chunk : Buffer)
| transport_disconnect
| emit_transaction_done
| emit_abort
| emit_message (m : Message)
| init_callback (err : option string).

(** ** The channel *)

Record Channel := {
  parent : option OPCUAServerEndPoint;
  protocolVersion : Z;
  lastTokenId : Z;
  timeout : Z;
  defaultSecureTokenLifetime : Z;
  securityToken : option ChannelSecurityToken;
  serverNonce : option Buffer;
  messageBuilder : MessageBuilder;
  securityHeader : option AsymmetricAlgorithmSecurityHeader;
  secureChannelId : Z;
  securityMode : MessageSecurityMode;
  timeoutId : option Z;
  _transactionsCount : Z;
  transport : option ServerTCP_transport;
  clientNonce : option Buffer;
  revisedLifeTime : option Z;
  derivedKeys : option DerivedKeys;
  clientSecurityHeader : option AsymmetricAlgorithmSecurityHeader;
  receiverCertificate : option Buffer;
  receiverPublicKey : option PublicKey;
  receiverPublicKeyLength : Z;
  clientCertificate : option Buffer;
  _securityTokenTimeout : option Timer;
  _abort_has_been_called : bool;
  msgType : option MsgType;
  (* the wall clock read by [new Date()] and the position in the random source *)
  clock : Z;
  entropyCursor : nat
}.

Definition set_lastTokenId (v : Z) (c : Channel) : Channel :=
  {| parent := parent c; protocolVersion := protocolVersion c; lastTokenId := v; timeout := timeout c;
  defaultSecureTokenLifetime := defaultSecureTokenLifetime c; securityToken := securityToken c; serverNonce :=
  serverNonce c; messageBuilder := messageBuilder c; securityHeader := securityHeader c; secureChannelId :=
  secureChannelId c; securityMode := securityMode c; timeoutId := timeoutId c; _transactionsCount :=
  _transactionsCount c; transport := transport c; clientNonce := clientNonce c; revisedLifeTime :=
  revisedLifeTime c; derivedKeys := derivedKeys c; clientSecurityHeader := clientSecurityHeader c;
  receiverCertificate := receiverCertificate c; receiverPublicKey := receiverPublicKey c;
  receiverPublicKeyLength := receiverPublicKeyLength c; clientCertificate := clientCertificate c;
  _securityTokenTimeout := _securityTokenTimeout c; _abort_has_been_called := _abort_has_been_called c;
  msgType := msgType c; clock := clock c; entropyCursor := entropyCursor c |}.
Definition set_securityToken (v : option ChannelSecurityToken) (c : Channel) : Channel :=
  {| parent := parent c; protocolVersion := protocolVersion c; lastTokenId := lastTokenId c; timeout :=
  timeout c; defaultSecureTokenLifetime := defaultSecureTokenLifetime c; securityToken := v; serverNonce :=
  serverNonce c; messageBuilder := messageBuilder c; securityHeader := securityHeader c; secureChannelId :=
  secureChannelId c; securityMode := securityMode c; timeoutId := timeoutId c; _transactionsCount :=
  _transactionsCount c; transport := transport c; clientNonce := clientNonce c; revisedLifeTime :=
  revisedLifeTime c; derivedKeys := derivedKeys c; clientSecurityHeader := clientSecurityHeader c;
  receiverCertificate := receiverCertificate c; receiverPublicKey := receiverPublicKey c;
  receiverPublicKeyLength := receiverPublicKeyLength c; clientCertificate := clientCertificate c;
  _securityTokenTimeout := _securityTokenTimeout c; _abort_has_been_called := _abort_has_been_called c;
  msgType := msgType c; clock := clock c; entropyCursor := entropyCursor c |}.
Definition set_serverNonce (v : option Buffer) (c : Channel) : Channel :=
  {| parent := parent c; protocolVersion := protocolVersion c; lastTokenId := lastTokenId c; timeout :=
  timeout c; defaultSecureTokenLifetime := defaultSecureTokenLifetime c; securityToken := securityToken c;
  serverNonce := v; messageBuilder := messageBuilder c; securityHeader := securityHeader c; secureChannelId :=
  secureChannelId c; securityMode := securityMode c; timeoutId := timeoutId c; _transactionsCount :=
  _transactionsCount c; transport := transport c; clientNonce := clientNonce c; revisedLifeTime :=
  revisedLifeTime c; derivedKeys := derivedKeys c; clientSecurityHeader := clientSecurityHeader c;
  receiverCertificate := receiverCertificate c; receiverPublicKey := receiverPublicKey c;
  receiverPublicKeyLength := receiverPublicKeyLength c; clientCertificate := clientCertificate c;
  _securityTokenTimeout := _securityTokenTimeout c; _abort_has_been_called := _abort_has_been_called c;
  msgType := msgType c; clock := clock c; entropyCursor := entropyCursor c |}.
Definition set_messageBuilder (v : MessageBuilder) (c : Channel) : Channel :=
  {| parent := parent c; protocolVersion := protocolVersion c; lastTokenId := lastTokenId c; timeout :=
  timeout c; defaultSecureTokenLifetime := defaultSecureTokenLifetime c; securityToken := securityToken c;
  serverNonce := serverNonce c; messageBuilder := v; securityHeader := securityHeader c; secureChannelId :=
  secureChannelId c; securityMode := securityMode c; timeoutId := timeoutId c; _transactionsCount :=
  _transactionsCount c; transport := transport c; clientNonce := clientNonce c; revisedLifeTime :=
  revisedLifeTime c; derivedKeys := derivedKeys c; clientSecurityHeader := clientSecurityHeader c;
  receiverCertificate := receiverCertificate c; receiverPublicKey := receiverPublicKey c;
  receiverPublicKeyLength := receiverPublicKeyLength c; clientCertificate := clientCertificate c;
  _securityTokenTimeout := _securityTokenTimeout c; _abort_has_been_called := _abort_has_been_called c;
  msgType := msgType c; clock := clock c; entropyCursor := entropyCursor c |}.
Definition set_securityHeader (v : option AsymmetricAlgorithmSecurityHeader) (c : Channel) : Channel :=
  {| parent := parent c; protocolVersion := protocolVersion c; lastTokenId := lastTokenId c; timeout :=
  timeout c; defaultSecureTokenLifetime := defaultSecureTokenLifetime c; securityToken := securityToken c;
  serverNonce := serverNonce c; messageBuilder := messageBuilder c; securityHeader := v; secureChannelId :=
  secureChannelId c; securityMode := securityMode c; timeoutId := timeoutId c; _transactionsCount :=
  _transactionsCount c; transport := transport c; clientNonce := clientNonce c; revisedLifeTime :=
  revisedLifeTime c; derivedKeys := derivedKeys c; clientSecurityHeader := clientSecurityHeader c;
  receiverCertificate := receiverCertificate c; receiverPublicKey := receiverPublicKey c;
  receiverPublicKeyLength := receiverPublicKeyLength c; clientCertificate := clientCertificate c;
  _securityTokenTimeout := _securityTokenTimeout c; _abort_has_been_called := _abort_has_been_called c;
  msgType := msgType c; clock := clock c; entropyCursor := entropyCursor c |}.
Definition set_securityMode (v : MessageSecurityMode) (c : Channel) : Channel :=
  {| parent := parent c; protocolVersion := protocolVersion c; lastTokenId := lastTokenId c; timeout :=
  timeout c; defaultSecureTokenLifetime := defaultSecureTokenLifetime c; securityToken := securityToken c;
  serverNonce := serverNonce c; messageBuilder := messageBuilder c; securityHeader := securityHeader c;
  secureChannelId := secureChannelId c; securityMode := v; timeoutId := timeoutId c; _transactionsCount :=
  _transactionsCount c; transport := transport c; clientNonce := clientNonce c; revisedLifeTime :=
  revisedLifeTime c; derivedKeys := derivedKeys c; clientSecurityHeader := clientSecurityHeader c;
  receiverCertificate := receiverCertificate c; receiverPublicKey := receiverPublicKey c;
  receiverPublicKeyLength := receiverPublicKeyLength c; clientCertificate := clientCertificate c;
  _securityTokenTimeout := _securityTokenTimeout c; _abort_has_been_called := _abort_has_been_called c;
  msgType := msgType c; clock := clock c; entropyCursor := entropyCursor c |}.
Definition set_timeoutId (v : option Z) (c : Channel) : Channel :=
  {| parent := parent c; protocolVersion := protocolVersion c; lastTokenId := lastTokenId c; timeout :=
  timeout c; defaultSecureTokenLifetime := defaultSecureTokenLifetime c; securityToken := securityToken c;
  serverNonce := serverNonce c; messageBuilder := messageBuilder c; securityHeader := securityHeader c;
  secureChannelId := secureChannelId c; securityMode := securityMode c; timeoutId := v; _transactionsCount :=
  _transactionsCount c; transport := transport c; clientNonce := clientNonce c; revisedLifeTime :=
  revisedLifeTime c; derivedKeys := derivedKeys c; clientSecurityHeader := clientSecurityHeader c;
  receiverCertificate := receiverCertificate c; receiverPublicKey := receiverPublicKey c;
  receiverPublicKeyLength := receiverPublicKeyLength c; clientCertificate := clientCertificate c;
  _securityTokenTimeout := _securityTokenTimeout c; _abort_has_been_called := _abort_has_been_called c;
  msgType := msgType c; clock := clock c; entropyCursor := entropyCursor c |}.
Definition set__transactionsCount (v : Z) (c : Channel) : Channel :=
  {| parent := parent c; protocolVersion := protocolVersion c; lastTokenId := lastTokenId c; timeout :=
  timeout c; defaultSecureTokenLifetime := defaultSecureTokenLifetime c; securityToken := securityToken c;
  serverNonce := serverNonce c; messageBuilder := messageBuilder c; securityHeader := securityHeader c;
  secureChannelId := secureChannelId c; securityMode := securityMode c; timeoutId := timeoutId c;
  _transactionsCount := v; transport := transport c; clientNonce := clientNonce c; revisedLifeTime :=
  revisedLifeTime c; derivedKeys := derivedKeys c; clientSecurityHeader := clientSecurityHeader c;
  receiverCertificate := receiverCertificate c; receiverPublicKey := receiverPublicKey c;
  receiverPublicKeyLength := receiverPublicKeyLength c; clientCertificate := clientCertificate c;
  _securityTokenTimeout := _securityTokenTimeout c; _abort_has_been_called := _abort_has_been_called c;
  msgType := msgType c; clock := clock c; entropyCursor := entropyCursor c |}.
Definition set_transport (v : option ServerTCP_transport) (c : Channel) : Channel :=
  {| parent := parent c; protocolVersion := protocolVersion c; lastTokenId := lastTokenId c; timeout :=
  timeout c; defaultSecureTokenLifetime := defaultSecureTokenLifetime c; securityToken := securityToken c;
  serverNonce := serverNonce c; messageBuilder := messageBuilder c; securityHeader := securityHeader c;
  secureChannelId := secureChannelId c; securityMode := securityMode c; timeoutId := timeoutId c;
  _transactionsCount := _transactionsCount c; transport := v; clientNonce := clientNonce c; revisedLifeTime :=
  revisedLifeTime c; derivedKeys := derivedKeys c; clientSecurityHeader := clientSecurityHeader c;
  receiverCertificate := receiverCertificate c; receiverPublicKey := receiverPublicKey c;
  receiverPublicKeyLength := receiverPublicKeyLength c; clientCertificate := clientCertificate c;
  _securityTokenTimeout := _securityTokenTimeout c; _abort_has_been_called := _abort_has_been_called c;
  msgType := msgType c; clock := clock c; entropyCursor := entropyCursor c |}.
Definition set_clientNonce (v : option Buffer) (c : Channel) : Channel :=
  {| parent := parent c; protocolVersion := protocolVersion c; lastTokenId := lastTokenId c; timeout :=
  timeout c; defaultSecureTokenLifetime := defaultSecureTokenLifetime c; securityToken := securityToken c;
  serverNonce := serverNonce c; messageBuilder := messageBuilder c; securityHeader := securityHeader c;
  secureChannelId := secureChannelId c; securityMode := securityMode c; timeoutId := timeoutId c;
  _transactionsCount := _transactionsCount c; transport := transport c; clientNonce := v; revisedLifeTime :=
  revisedLifeTime c; derivedKeys := derivedKeys c; clientSecurityHeader := clientSecurityHeader c;
  receiverCertificate := receiverCertificate c; receiverPublicKey := receiverPublicKey c;
  receiverPublicKeyLength := receiverPublicKeyLength c; clientCertificate := clientCertificate c;
  _securityTokenTimeout := _securityTokenTimeout c; _abort_has_been_called := _abort_has_been_called c;
  msgType := msgType c; clock := clock c; entropyCursor := entropyCursor c |}.
Definition set_revisedLifeTime (v : option Z) (c : Channel) : Channel :=
  {| parent := parent c; protocolVersion := protocolVersion c; lastTokenId := lastTokenId c; timeout :=
  timeout c; defaultSecureTokenLifetime := defaultSecureTokenLifetime c; securityToken := securityToken c;
  serverNonce := serverNonce c; messageBuilder := messageBuilder c; securityHeader := securityHeader c;
  secureChannelId := secureChannelId c; securityMode := securityMode c; timeoutId := timeoutId c;
  _transactionsCount := _transactionsCount c; transport := transport c; clientNonce := clientNonce c;
  revisedLifeTime := v; derivedKeys := derivedKeys c; clientSecurityHeader := clientSecurityHeader c;
  receiverCertificate := receiverCertificate c; receiverPublicKey := receiverPublicKey c;
  receiverPublicKeyLength := receiverPublicKeyLength c; clientCertificate := clientCertificate c;
  _securityTokenTimeout := _securityTokenTimeout c; _abort_has_been_called := _abort_has_been_called c;
  msgType := msgType c; clock := clock c; entropyCursor := entropyCursor c |}.
Definition set_derivedKeys (v : option DerivedKeys) (c : Channel) : Channel :=
  {| parent := parent c; protocolVersion := protocolVersion c; lastTokenId := lastTokenId c; timeout :=
  timeout c; defaultSecureTokenLifetime := defaultSecureTokenLifetime c; securityToken := securityToken c;
  serverNonce := serverNonce c; messageBuilder := messageBuilder c; securityHeader := securityHeader c;
  secureChannelId := secureChannelId c; securityMode := securityMode c; timeoutId := timeoutId c;
  _transactionsCount := _transactionsCount c; transport := transport c; clientNonce := clientNonce c;
  revisedLifeTime := revisedLifeTime c; derivedKeys := v; clientSecurityHeader := clientSecurityHeader c;
  receiverCertificate := receiverCertificate c; receiverPublicKey := receiverPublicKey c;
  receiverPublicKeyLength := receiverPublicKeyLength c; clientCertificate := clientCertificate c;
  _securityTokenTimeout := _securityTokenTimeout c; _abort_has_been_called := _abort_has_been_called c;
  msgType := msgType c; clock := clock c; entropyCursor := entropyCursor c |}.
Definition set_clientSecurityHeader (v : option AsymmetricAlgorithmSecurityHeader) (c : Channel) : Channel :=
  {| parent := parent c; protocolVersion := protocolVersion c; lastTokenId := lastTokenId c; timeout :=
  timeout c; defaultSecureTokenLifetime := defaultSecureTokenLifetime c; securityToken := securityToken c;
  serverNonce := serverNonce c; messageBuilder := messageBuilder c; securityHeader := securityHeader c;
  secureChannelId := secureChannelId c; securityMode := securityMode c; timeoutId := timeoutId c;
  _transactionsCount := _transactionsCount c; transport := transport c; clientNonce := clientNonce c;
  revisedLifeTime := revisedLifeTime c; derivedKeys := derivedKeys c; clientSecurityHeader := v;
  receiverCertificate := receiverCertificate c; receiverPublicKey := receiverPublicKey c;
  receiverPublicKeyLength := receiverPublicKeyLength c; clientCertificate := clientCertificate c;
  _securityTokenTimeout := _securityTokenTimeout c; _abort_has_been_called := _abort_has_been_called c;
  msgType := msgType c; clock := clock c; entropyCursor := entropyCursor c |}.
Definition set_receiverCertificate (v : option Buffer) (c : Channel) : Channel :=
  {| parent := parent c; protocolVersion := protocolVersion c; lastTokenId := lastTokenId c; timeout :=
  timeout c; defaultSecureTokenLifetime := defaultSecureTokenLifetime c; securityToken := securityToken c;
  serverNonce := serverNonce c; messageBuilder := messageBuilder c; securityHeader := securityHeader c;
  secureChannelId := secureChannelId c; securityMode := securityMode c; timeoutId := timeoutId c;
  _transactionsCount := _transactionsCount c; transport := transport c; clientNonce := clientNonce c;
  revisedLifeTime := revisedLifeTime c; derivedKeys := derivedKeys c; clientSecurityHeader :=
  clientSecurityHeader c; receiverCertificate := v; receiverPublicKey := receiverPublicKey c;
  receiverPublicKeyLength := receiverPublicKeyLength c; clientCertificate := clientCertificate c;
  _securityTokenTimeout := _securityTokenTimeout c; _abort_has_been_called := _abort_has_been_called c;
  msgType := msgType c; clock := clock c; entropyCursor := entropyCursor c |}.
Definition set_receiverPublicKey (v : option PublicKey) (c : Channel) : Channel :=
  {| parent := parent c; protocolVersion := protocolVersion c; lastTokenId := lastTokenId c; timeout :=
  timeout c; defaultSecureTokenLifetime := defaultSecureTokenLifetime c; securityToken := securityToken c;
  serverNonce := serverNonce c; messageBuilder := messageBuilder c; securityHeader := securityHeader c;
  secureChannelId := secureChannelId c; securityMode := securityMode c; timeoutId := timeoutId c;
  _transactionsCount := _transactionsCount c; transport := transport c; clientNonce := clientNonce c;
  revisedLifeTime := revisedLifeTime c; derivedKeys := derivedKeys c; clientSecurityHeader :=
  clientSecurityHeader c; receiverCertificate := receiverCertificate c; receiverPublicKey := v;
  receiverPublicKeyLength := receiverPublicKeyLength c; clientCertificate := clientCertificate c;
  _securityTokenTimeout := _securityTokenTimeout c; _abort_has_been_called := _abort_has_been_called c;
  msgType := msgType c; clock := clock c; entropyCursor := entropyCursor c |}.
Definition set_receiverPublicKeyLength (v : Z) (c : Channel) : Channel :=
  {| parent := parent c; protocolVersion := protocolVersion c; lastTokenId := lastTokenId c; timeout :=
  timeout c; defaultSecureTokenLifetime := defaultSecureTokenLifetime c; securityToken := securityToken c;
  serverNonce := serverNonce c; messageBuilder := messageBuilder c; securityHeader := securityHeader c;
  secureChannelId := secureChannelId c; securityMode := securityMode c; timeoutId := timeoutId c;
  _transactionsCount := _transactionsCount c; transport := transport c; clientNonce := clientNonce c;
  revisedLifeTime := revisedLifeTime c; derivedKeys := derivedKeys c; clientSecurityHeader :=
  clientSecurityHeader c; receiverCertificate := receiverCertificate c; receiverPublicKey := receiverPublicKey
  c; receiverPublicKeyLength := v; clientCertificate := clientCertificate c; _securityTokenTimeout :=
  _securityTokenTimeout c; _abort_has_been_called := _abort_has_been_called c; msgType := msgType c; clock :=
  clock c; entropyCursor := entropyCursor c |}.
Definition set_clientCertificate (v : option Buffer) (c : Channel) : Channel :=
  {| parent := parent c; protocolVersion := protocolVersion c; lastTokenId := lastTokenId c; timeout :=
  timeout c; defaultSecureTokenLifetime := defaultSecureTokenLifetime c; securityToken := securityToken c;
  serverNonce := serverNonce c; messageBuilder := messageBuilder c; securityHeader := securityHeader c;
  secureChannelId := secureChannelId c; securityMode := securityMode c; timeoutId := timeoutId c;
  _transactionsCount := _transactionsCount c; transport := transport c; clientNonce := clientNonce c;
  revisedLifeTime := revisedLifeTime c; derivedKeys := derivedKeys c; clientSecurityHeader :=
  clientSecurityHeader c; receiverCertificate := receiverCertificate c; receiverPublicKey := receiverPublicKey
  c; receiverPublicKeyLength := receiverPublicKeyLength c; clientCertificate := v; _securityTokenTimeout :=
  _securityTokenTimeout c; _abort_has_been_called := _abort_has_been_called c; msgType := msgType c; clock :=
  clock c; entropyCursor := entropyCursor c |}.
Definition set__securityTokenTimeout (v : option Timer) (c : Channel) : Channel :=
  {| parent := parent c; protocolVersion := protocolVersion c; lastTokenId := lastTokenId c; timeout :=
  timeout c; defaultSecureTokenLifetime := defaultSecureTokenLifetime c; securityToken := securityToken c;
  serverNonce := serverNonce c; messageBuilder := messageBuilder c; securityHeader := securityHeader c;
  secureChannelId := secureChannelId c; securityMode := securityMode c; timeoutId := timeoutId c;
  _transactionsCount := _transactionsCount c; transport := transport c; clientNonce := clientNonce c;
  revisedLifeTime := revisedLifeTime c; derivedKeys := derivedKeys c; clientSecurityHeader :=
  clientSecurityHeader c; receiverCertificate := receiverCertificate c; receiverPublicKey := receiverPublicKey
  c; receiverPublicKeyLength := receiverPublicKeyLength c; clientCertificate := clientCertificate c;
  _securityTokenTimeout := v; _abort_has_been_called := _abort_has_been_called c; msgType := msgType c; clock
  := clock c; entropyCursor := entropyCursor c |}.
Definition set__abort_has_been_called (v : bool) (c : Channel) : Channel :=
  {| parent := parent c; protocolVersion := protocolVersion c; lastTokenId := lastTokenId c; timeout :=
  timeout c; defaultSecureTokenLifetime := defaultSecureTokenLifetime c; securityToken := securityToken c;
  serverNonce := serverNonce c; messageBuilder := messageBuilder c; securityHeader := securityHeader c;
  secureChannelId := secureChannelId c; securityMode := securityMode c; timeoutId := timeoutId c;
  _transactionsCount := _transactionsCount c; transport := transport c; clientNonce := clientNonce c;
  revisedLifeTime := revisedLifeTime c; derivedKeys := derivedKeys c; clientSecurityHeader :=
  clientSecurityHeader c; receiverCertificate := receiverCertificate c; receiverPublicKey := receiverPublicKey
  c; receiverPublicKeyLength := receiverPublicKeyLength c; clientCertificate := clientCertificate c;
  _securityTokenTimeout := _securityTokenTimeout c; _abort_has_been_called := v; msgType := msgType c; clock
  := clock c; entropyCursor := entropyCursor c |}.
Definition set_msgType (v : option MsgType) (c : Channel) : Channel :=
  {| parent := parent c; protocolVersion := protocolVersion c; lastTokenId := lastTokenId c; timeout :=
  timeout c; defaultSecureTokenLifetime := defaultSecureTokenLifetime c; securityToken := securityToken c;
  serverNonce := serverNonce c; messageBuilder := messageBuilder c; securityHeader := securityHeader c;
  secureChannelId := secureChannelId c; securityMode := securityMode c; timeoutId := timeoutId c;
  _transactionsCount := _transactionsCount c; transport := transport c; clientNonce := clientNonce c;
  revisedLifeTime := revisedLifeTime c; derivedKeys := derivedKeys c; clientSecurityHeader :=
  clientSecurityHeader c; receiverCertificate := receiverCertificate c; receiverPublicKey := receiverPublicKey
  c; receiverPublicKeyLength := receiverPublicKeyLength c; clientCertificate := clientCertificate c;
  _securityTokenTimeout := _securityTokenTimeout c; _abort_has_been_called := _abort_has_been_called c;
  msgType := v; clock := clock c; entropyCursor := entropyCursor c |}.
Definition set_clock (v : Z) (c : Channel) : Channel :=
  {| parent := parent c; protocolVersion := protocolVersion c; lastTokenId := lastTokenId c; timeout :=
  timeout c; defaultSecureTokenLifetime := defaultSecureTokenLifetime c; securityToken := securityToken c;
  serverNonce := serverNonce c; messageBuilder := messageBuilder c; securityHeader := securityHeader c;
  secureChannelId := secureChannelId c; securityMode := securityMode c; timeoutId := timeoutId c;
  _transactionsCount := _transactionsCount c; transport := transport c; clientNonce := clientNonce c;
  revisedLifeTime := revisedLifeTime c; derivedKeys := derivedKeys c; clientSecurityHeader :=
  clientSecurityHeader c; receiverCertificate := receiverCertificate c; receiverPublicKey := receiverPublicKey
  c; receiverPublicKeyLength := receiverPublicKeyLength c; clientCertificate := clientCertificate c;
  _securityTokenTimeout := _securityTokenTimeout c; _abort_has_been_called := _abort_has_been_called c;
  msgType := msgType c; clock := v; entropyCursor := entropyCursor c |}.
Definition set_entropyCursor (v : nat) (c : Channel) : Channel :=
  {| parent := parent c; protocolVersion := protocolVersion c; lastTokenId := lastTokenId c; timeout :=
  timeout c; defaultSecureTokenLifetime := defaultSecureTokenLifetime c; securityToken := securityToken c;
  serverNonce := serverNonce c; messageBuilder := messageBuilder c; securityHeader := securityHeader c;
  secureChannelId := secureChannelId c; securityMode := securityMode c; timeoutId := timeoutId c;
  _transactionsCount := _transactionsCount c; transport := transport c; clientNonce := clientNonce c;
  revisedLifeTime := revisedLifeTime c; derivedKeys := derivedKeys c; clientSecurityHeader :=
  clientSecurityHeader c; receiverCertificate := receiverCertificate c; receiverPublicKey := receiverPublicKey
  c; receiverPublicKeyLength := receiverPublicKeyLength c; clientCertificate := clientCertificate c;
  _securityTokenTimeout := _securityTokenTimeout c; _abort_has_been_called := _abort_has_been_called c;
  msgType := msgType c; clock := clock c; entropyCursor := v |}.

(** ** Computations on the channel *)

Inductive Exception :=
| AssertionError (what : string)
| TypeError (what : string).

Inductive Outcome (A : Type) :=
| Returned (a : A)
| Thrown (e : Exception).

Arguments Returned {A} a.
Arguments Thrown {A} e.

(** A computation takes the channel and gives its outcome, the channel as it has
    left it, and the calls it has made, oldest first. *)
Definition M (A : Type) : Type := Channel -> Outcome A * Channel * list Event.

Definition ret {A : Type} (a : A) : M A := fun c => (Returned a, c, []).

Definition bind {A B : Type} (m : M A) (f : A -> M B) : M B :=
  fun c =>
    match m c with
    | (Returned a, c1, e1) =>
        match f a c1 with
        | (o, c2, e2) => (o, c2, e1 ++ e2)
        end
    | (Thrown e, c1, e1) => (Thrown e, c1, e1)
    end.

Declare Scope chan_scope.
Delimit Scope chan_scope with chan.
Notation "x <- m ;; k" := (bind m (fun x => k))
  (at level 61, m at next level, right associativity) : chan_scope.
Notation "m ;; k" := (bind m (fun _ => k))
  (at level 61, right associativity) : chan_scope.
Local Open Scope chan_scope.

Definition get : M Channel := fun c => (Returned c, c, []).
Definition modify (f : Channel -> Channel) : M unit := fun c => (Returned tt, f c, []).
Definition emit (e : Event) : M unit := fun c => (Returned tt, c, [e]).
Definition throw {A : Type} (e : Exception) : M A := fun c => (Thrown e, c, []).

Definition assert (b : bool) (what : string) : M unit :=
  if b then ret tt else throw (AssertionError what).

Definition call (k : option (M unit)) : M unit :=
  match k with
  | Some f => f
  | None => ret tt
  end.

Definition outcome {A : Type} (r : Outcome A * Channel * list Event) : Outcome A := fst (fst r).
Definition final {A : Type} (r : Outcome A * Channel * list Event) : Channel := snd (fst r).
Definition events {A : Type} (r : Outcome A * Channel * list Event) : list Event := snd r.

(** ** Construction *)

Record Options := {
  options_parent : option OPCUAServerEndPoint;
  options_timeout : option Z;
  options_defaultSecureTokenLifetime : option Z
}.

(** The module-level counter [last_channel_id] is passed in and handed back. *)
Definition getNextChannelId (last_channel_id : Z) : Z * Z :=
  (last_channel_id + 1, last_channel_id + 1).

Definition initial_securityHeader : AsymmetricAlgorithmSecurityHeader :=
  {| securityPolicyUri := SecurityPolicy_None_uri;
     senderCertificate := None;
     receiverCertificateThumbprint := None |}.

Definition constructor (options : Options) (last_channel_id : Z) (now : Z) : Channel * Z :=
  let '(id, next) := getNextChannelId last_channel_id in
  ({| parent := options_parent options;
      protocolVersion := 0;
      lastTokenId := 0;
      timeout := or_default (options_timeout options) 10000;
      defaultSecureTokenLifetime :=
        or_default (options_defaultSecureTokenLifetime options) 600000;
      securityToken := Some {| tok_secureChannelId := 0; tokenId := 0;
                               createdAt := None; tok_revisedLifeTime := None |};
      serverNonce := None;
      messageBuilder :=
        {| mb_privateKey := option_map _privateKey (options_parent options);
           mb_securityMode := INVALID;
           cryptoFactory := None;
           mb_securityHeader := None;
           sequenceHeader_requestId := 0;
           listener := no_listener |};
      securityHeader := Some initial_securityHeader;
      secureChannelId := id;
      securityMode := INVALID;
      timeoutId := None;
      _transactionsCount := 0;
      transport := None;
      clientNonce := None;
      revisedLifeTime := None;
      derivedKeys := None;
      clientSecurityHeader := None;
      receiverCertificate := None;
      receiverPublicKey := None;
      receiverPublicKeyLength := 0;
      clientCertificate := None;
      _securityTokenTimeout := None;
      _abort_has_been_called := false;
      msgType := None;
      clock := now;
      entropyCursor := 0 |}, next).

(** ** Getters *)

Definition securityTokenCount (self : Channel) : Z := lastTokenId self.

Definition transactionsCount (self : Channel) : Z := _transactionsCount self.

(** [isOpened] returns the cached client certificate itself. *)
Definition isOpened (self : Channel) : option Buffer := clientCertificate self.

Definition getPrivateKey (self : Channel) : option Buffer :=
  option_map _privateKey (parent self).

Definition getCertificateChain : M Buffer :=
  self <- get ;;
  match parent self with
  | Some p => ret (certificateChain p)
  | None => throw (AssertionError "expecting a valid parent")
  end.

Section WithExternals.

Variable X : Externals.

(** [crypto.randomBytes(n)] *)
Definition randomBytes (n : nat) : M Buffer :=
  self <- get ;;
  modify (set_entropyCursor (entropyCursor self + n)%nat) ;;
  ret (map (entropy X) (seq (entropyCursor self) n)).

Definition getSignatureLength : M Z :=
  chain <- getCertificateChain ;;
  match split_der X chain with
  | s :: _ =>
      match exploreCertificate X s with
      | Some cert => ret (publicKeyLength cert)
      | None => throw (TypeError "exploreCertificate")
      end
  | [] => throw (TypeError "exploreCertificate")
  end.

(** ** Token manager *)

Definition _stop_security_token_watch_dog : M unit :=
  self <- get ;;
  if truthy (_securityTokenTimeout self)
  then modify (set__securityTokenTimeout None)
  else ret tt.

Definition _start_security_token_watch_dog : M unit :=
  self <- get ;;
  match securityToken self with
  | Some token =>
      modify (set__securityTokenTimeout
                (Some {| armedAt := clock self;
                         delay := option_map (fun l => inject_Z l * 120 / 100)%Q
                                    (tok_revisedLifeTime token) |}))
  | None => throw (TypeError "self.securityToken.revisedLifeTime")
  end.

(** The body of the watchdog's callback. *)
Definition security_token_watch_dog_callback : M unit :=
  emit (console_log " Security token has really expired and shall be discarded !!!!") ;;
  emit (console_log " Server will now refuse message with token ") ;;
  modify (set__securityTokenTimeout None).

(** The timer fires only while it is pending. *)
Definition security_token_watch_dog_fires : M unit :=
  self <- get ;;
  if truthy (_securityTokenTimeout self)
  then security_token_watch_dog_callback
  else ret tt.

(** The token class is defined elsewhere: what its getter [expired] answers for the
    token just created is asked of [X]. *)
Definition _add_new_security_token : M unit :=
  _stop_security_token_watch_dog ;;
  modify (fun self => set_lastTokenId (lastTokenId self + 1) self) ;;
  self <- get ;;
  let token := {| tok_secureChannelId := secureChannelId self;
                  tokenId := lastTokenId self;
                  createdAt := Some (clock self);
                  tok_revisedLifeTime := revisedLifeTime self |} in
  assert (negb (expired X token (clock self))) "!securityToken.expired" ;;
  assert (truthy (tok_revisedLifeTime token)) "_.isFinite(securityToken.revisedLifeTime)" ;;
  modify (set_securityToken (Some token)) ;;
  _start_security_token_watch_dog.

Definition _prepare_security_token (openSecureChannelRequest : OpenSecureChannelRequest)
  : M unit :=
  modify (set_securityToken None) ;;
  match requestType openSecureChannelRequest with
  | RENEW => _stop_security_token_watch_dog
  | ISSUE => ret tt
  | InvalidRequestType => ret tt
  end ;;
  _add_new_security_token.

Definition _set_lifetime (requestedLifetime : Z) : M unit :=
  modify (set_revisedLifeTime (Some requestedLifetime)) ;;
  self <- get ;;
  if (requestedLifetime =? 0)%Z
  then modify (set_revisedLifeTime (Some (defaultSecureTokenLifetime self)))
  else modify (set_revisedLifeTime
                 (Some (Z.min (defaultSecureTokenLifetime self) requestedLifetime))).

(** ** Timers and termination *)

Definition _stop_open_channel_watch_dog : M unit :=
  self <- get ;;
  if truthy (timeoutId self) then modify (set_timeoutId None) else ret tt.

Definition _cleanup_pending_timers : M unit :=
  _stop_security_token_watch_dog ;;
  _stop_open_channel_watch_dog.

Definition _abort : M unit :=
  self <- get ;;
  if _abort_has_been_called self then ret tt
  else
    modify (set__abort_has_been_called true) ;;
    _cleanup_pending_timers ;;
    emit emit_abort.

(** [transport.disconnect] is taken to call back at once. *)
Definition close (callback : option (M unit)) : M unit :=
  self <- get ;;
  match transport self with
  | Some _ =>
      emit transport_disconnect ;;
      _abort ;;
      call callback
  | None => throw (TypeError "self.transport.disconnect")
  end.

Definition _cancel_wait_for_open_secure_channel_request_timeout : M unit :=
  modify (set_timeoutId None).

Definition _install_wait_for_open_secure_channel_request_timeout (timeout : Z) : M unit :=
  modify (set_timeoutId (Some timeout)).

(** The body of the initial-request timer. *)
Definition open_channel_timeout_fires : M unit :=
  self <- get ;;
  if truthy (timeoutId self)
  then
    modify (set_timeoutId None) ;;
    close (Some (emit (init_callback (Some "Timeout waiting for OpenChannelRequest"))))
  else ret tt.


(** ** Send path *)

Definition _get_security_options_for_OPN : M SecurityOptions :=
  self <- get ;;
  match securityMode self with
  | SIGN | SIGNANDENCRYPT =>
      match cryptoFactory (messageBuilder self) with
      | Some factory =>
          signatureLength <- getSignatureLength ;;
          assert (0 <=? receiverPublicKeyLength self) "self.receiverPublicKeyLength >= 0" ;;
          ret (asymmetric_options signatureLength
                 (receiverPublicKeyLength self - blockPaddingSize factory)
                 (receiverPublicKeyLength self))
      | None => throw (AssertionError "ServerSecureChannelLayer must have a crypto strategy")
      end
  | _ => ret no_security_options
  end.

Definition _get_security_options_for_MSG : M SecurityOptions :=
  self <- get ;;
  match securityMode self with
  | NONE => ret no_security_options
  | mode =>
      match cryptoFactory (messageBuilder self) with
      | None => ret no_security_options
      | Some _ =>
          match derivedKeys self with
          | Some keys => ret (symmetric_options mode (derivedServerKeys keys))
          | None => throw (TypeError "self.derivedKeys.derivedServerKeys")
          end
      end
  end.

(** [setImmediate(callback)] lets the callback run once the function is over. *)
Definition _send_chunk (callback : option (M unit)) (messageChunk : option Buffer) : M unit :=
  match messageChunk with
  | Some chunk => emit (transport_write chunk)
  | None =>
      emit emit_transaction_done ;;
      call callback
  end.

(** The chunker calls back once per chunk and a last time with [null]. *)
Fixpoint chunker_calls_back (callback : option (M unit)) (chunks : list Buffer) : M unit :=
  match chunks with
  | chunk :: rest => _send_chunk callback (Some chunk) ;; chunker_calls_back callback rest
  | [] => _send_chunk callback None
  end.

(** The optional hook [_on_response] and the debug-only bookkeeping are left out. *)
Definition send_response (msgType : MsgType) (response : Response) (message : Message)
    (callback : option (M unit)) : M unit :=
  assert (0 <? requestId message) "requestId && requestId > 0" ;;
  modify (set_msgType (Some msgType)) ;;
  self <- get ;;
  match securityToken self with
  | None => throw (AssertionError "self.securityToken")
  | Some token =>
      match transport self with
      | None => throw (TypeError "self.transport.receiveBufferSize")
      | Some tcp =>
          security <- (if MsgType_eqb msgType OPN
                       then _get_security_options_for_OPN
                       else _get_security_options_for_MSG) ;;
          let options := {| opt_requestId := requestId message;
                            opt_secureChannelId := tok_secureChannelId token;
                            opt_tokenId := tokenId token;
                            chunkSize := receiveBufferSize tcp;
                            security_options := security |} in
          let response := set_requestHandle (requestHandle (request message)) response in
          modify (fun self => set__transactionsCount (_transactionsCount self + 1) self) ;;
          emit (chunkSecureMessage msgType options response) ;;
          chunker_calls_back callback (chunks_of X msgType options response)
      end
  end.

Definition send_error_and_abort (statusCode : StatusCode) (description : string)
    (message : Message) (callback : M unit) : M unit :=
  assert (0 <? requestId message) "message.requestId && message.requestId > 0" ;;
  let response := {| responseHeader := {| serviceResult := statusCode; rh_requestHandle := 0 |};
                     body := ServiceFault (Some description) |} in
  send_response MSG response message (Some (close (Some callback))).

(** ** Certificates *)

Definition _process_certificates (message : Message) (callback : M unit) : M unit :=
  modify (set_receiverPublicKey None) ;;
  modify (set_receiverPublicKeyLength 0) ;;
  modify (set_receiverCertificate
            match msg_securityHeader message with
            | Some header => senderCertificate header
            | None => None
            end) ;;
  self <- get ;;
  match receiverCertificate self with
  | Some [] => modify (set_receiverCertificate None)
  | _ => ret tt
  end ;;
  self <- get ;;
  match receiverCertificate self with
  | Some certificate =>
      match extractPublicKeyFromCertificate X certificate with
      | Some key =>
          modify (set_receiverPublicKey (Some key)) ;;
          modify (set_receiverPublicKeyLength (rsa_length X key))
      | None => ret tt
      end ;;
      callback
  | None =>
      modify (set_receiverPublicKey None) ;;
      callback
  end.

Definition _check_receiverCertificateThumbprint
    (clientSecurityHeader : AsymmetricAlgorithmSecurityHeader) : M bool :=
  match receiverCertificateThumbprint clientSecurityHeader with
  | Some thumbprint =>
      serverCertificateChain <- getCertificateChain ;;
      (* [serverCertificate = split_der(serverCertificateChain)[0]] is not used *)
      let myCertificateThumbPrint := makeSHA1Thumbprint X serverCertificateChain in
      ret (String.eqb (toString_hex myCertificateThumbPrint) (toString_hex thumbprint))
  | None => ret true
  end.

Definition _check_certificate_validity (certificate : option Buffer) : M StatusCode :=
  match certificate with
  | None => ret BadSecurityChecksFailed
  | Some der =>
      match exploreCertificate X der with
      | None => throw (TypeError "exploreCertificate")
      | Some cert =>
          self <- get ;;
          let now := clock self in
          if now <? notBefore cert then
            emit (console_log " Sender certificate is invalid : certificate is not active yet !") ;;
            ret BadCertificateTimeInvalid
          else if notAfter cert <=? now then
            emit (console_log " Sender certificate is invalid : certificate has expired !") ;;
            ret BadCertificateTimeInvalid
          else ret Good
      end
  end.

Definition isValidSecurityPolicy (securityPolicy : SecurityPolicy) : StatusCode :=
  match securityPolicy with
  | Policy_None | Basic128Rsa15 | Basic256 => Good
  | OtherPolicy => BadSecurityPolicyRejected
  end.

Definition has_endpoint_for_security_mode_and_policy
    (securityMode : MessageSecurityMode) (securityPolicy : SecurityPolicy) : M bool :=
  self <- get ;;
  match parent self with
  | None => ret true
  | Some endpoints => ret (truthy (getEndpointDescription endpoints securityMode securityPolicy))
  end.

(** ** Handshake *)

Definition _prepare_security_header (request : OpenSecureChannelRequest) (message : Message)
  : M (option AsymmetricAlgorithmSecurityHeader) :=
  match osc_securityMode request with
  | NONE =>
      assert (match msg_securityHeader message with
              | Some header => String.eqb (securityPolicyUri header) SecurityPolicy_None_uri
              | None => true
              end) "securityPolicyUri is SecurityPolicy#None" ;;
      ret (Some {| securityPolicyUri := SecurityPolicy_None_uri;
                   senderCertificate := None;
                   receiverCertificateThumbprint := None |})
  | SIGN | SIGNANDENCRYPT =>
      self <- get ;;
      let thumbprint := option_map (makeSHA1Thumbprint X) (receiverCertificate self) in
      match clientSecurityHeader self with
      | None => throw (TypeError "self.clientSecurityHeader.securityPolicyUri")
      | Some header =>
          chain <- getCertificateChain ;;
          ret (Some {| securityPolicyUri := securityPolicyUri header;
                       senderCertificate := Some chain;
                       receiverCertificateThumbprint := thumbprint |})
      end
  | INVALID => ret None
  end.

Definition _handle_OpenSecureChannelRequest (message : Message)
    (callback : option string -> M unit) : M unit :=
  match request message with
  | OpenSecureChannelRequest_ request =>
      assert (0 <? requestId message) "requestId && requestId > 0" ;;
      modify (set_clientNonce (osc_clientNonce request)) ;;
      _set_lifetime (requestedLifetime request) ;;
      _prepare_security_token request ;;
      self <- get ;;
      result <-
        match cryptoFactory (messageBuilder self) with
        | Some factory =>
            nonce <- randomBytes (symmetricKeyLength factory) ;;
            modify (set_serverNonce (Some nonce)) ;;
            self <- get ;;
            match clientNonce self with
            | None => throw (TypeError "self.clientNonce.length")
            | Some client =>
                result <-
                  (if negb (List.length client =? List.length nonce)%nat
                   then emit (console_log "warning client Nonce length doesn't match server nonce length") ;;
                        ret BadSecurityModeRejected
                   else ret Good) ;;
                emit (compute_derived_keys_call nonce client) ;;
                modify (set_derivedKeys (Some (compute_derived_keys factory nonce client))) ;;
                ret result
            end
        | None => ret Good
        end ;;
      self <- get ;;
      emit (pushNewToken (securityToken self)
              (option_map derivedClientKeys (derivedKeys self))) ;;
      header <- _prepare_security_header request message ;;
      modify (set_securityHeader header) ;;
      match header with
      | None => throw (AssertionError "self.securityHeader")
      | Some securityHeader =>
          emit (messageChunker_update securityHeader
                  (option_map derivedServerKeys (derivedKeys self))) ;;
          let response :=
            {| responseHeader := {| serviceResult := result; rh_requestHandle := 0 |};
               body := OpenSecureChannelResponse (protocolVersion self) (securityToken self)
                         (serverNonce self) |} in
          modify (set_clientCertificate
                    match msg_securityHeader message with
                    | Some h => senderCertificate h
                    | None => None
                    end) ;;
          self <- get ;;
          response <-
            (if negb (MessageSecurityMode_eqb (securityMode self) NONE) then
               match clientSecurityHeader self with
               | None => throw (TypeError "clientSecurityHeader.receiverCertificateThumbprint")
               | Some client =>
                   matches <- _check_receiverCertificateThumbprint client ;;
                   if matches then ret response
                   else
                     emit (console_log "Server#OpenSecureChannelRequest : Invalid receiver certificate thumbprint : the thumbprint doesn't match server certificate !") ;;
                     ret (set_serviceResult BadCertificateInvalid response)
               end
             else ret response) ;;
          response <-
            (if truthy (clientCertificate self) then
               certificate_status <- _check_certificate_validity (clientCertificate self) ;;
               if negb (StatusCode_eqb Good certificate_status) then
                 emit (console_log "Sender Certificate Error") ;;
                 ret {| responseHeader := {| serviceResult := certificate_status;
                                             rh_requestHandle := 0 |};
                        body := ServiceFault None |}
               else ret response
             else ret response) ;;
          send_response OPN response message
            (Some ((if negb (StatusCode_eqb (serviceResult (responseHeader response)) Good)
                    then close None
                    else ret tt) ;;
                   callback None))
      end
  | _ => throw (AssertionError "request._schema.name === OpenSecureChannelRequest")
  end.

Definition _send_error (statusCode : StatusCode) (description : string) (message : Message)
    (callback : option string -> M unit) : M unit :=
  modify (set_securityMode NONE) ;;
  send_error_and_abort statusCode description message (callback (Some description)).

Definition set_mb_securityMode (v : MessageSecurityMode) (b : MessageBuilder) : MessageBuilder :=
  {| mb_privateKey := mb_privateKey b; mb_securityMode := v; cryptoFactory := cryptoFactory b;
     mb_securityHeader := mb_securityHeader b;
     sequenceHeader_requestId := sequenceHeader_requestId b; listener := listener b |}.

Definition set_listener (v : MessageListener) (b : MessageBuilder) : MessageBuilder :=
  {| mb_privateKey := mb_privateKey b; mb_securityMode := mb_securityMode b;
     cryptoFactory := cryptoFactory b; mb_securityHeader := mb_securityHeader b;
     sequenceHeader_requestId := sequenceHeader_requestId b; listener := v |}.

Definition _on_initial_OpenSecureChannelRequest (message : Message)
    (callback : option string -> M unit) : M unit :=
  assert (0 <? requestId message) "requestId > 0" ;;
  match request message with
  | OpenSecureChannelRequest_ request =>
      match msg_securityHeader message with
      | None => throw (TypeError "message.securityHeader.securityPolicyUri")
      | Some header =>
          let securityPolicy := fromURI X (securityPolicyUri header) in
          let check_security_policy := isValidSecurityPolicy securityPolicy in
          if negb (StatusCode_eqb check_security_policy Good) then
            _send_error check_security_policy " Unsupported securityPolicyUri" message callback
          else
            modify (set_securityMode (osc_securityMode request)) ;;
            modify (fun self => set_messageBuilder
                                  (set_mb_securityMode (securityMode self) (messageBuilder self))
                                  self) ;;
            self <- get ;;
            has_endpoint <-
              has_endpoint_for_security_mode_and_policy (securityMode self) securityPolicy ;;
            if negb has_endpoint then
              _send_error BadSecurityPolicyRejected " This server doesn't not support" message
                callback
            else
              modify (fun self => set_messageBuilder
                                    (set_listener common_listener (messageBuilder self)) self) ;;
              _process_certificates message
                (_handle_OpenSecureChannelRequest message callback)
      end
  | _ =>
      emit (console_log "BadCommunicationError: expecting a OpenChannelRequest as first communication message") ;;
      _send_error BadCommunicationError "Expecting OpenSecureChannelRequest" message callback
  end.

Definition _on_initial_open_secure_channel_request (callback : option string -> M unit)
    (request : Request) (msgType : MsgType) : M unit :=
  _cancel_wait_for_open_secure_channel_request_timeout ;;
  self <- get ;;
  let requestId := sequenceHeader_requestId (messageBuilder self) in
  assert (0 <? requestId) "requestId > 0" ;;
  let message := {| request := request;
                    msg_securityHeader := mb_securityHeader (messageBuilder self);
                    requestId := requestId |} in
  modify (set_clientSecurityHeader (msg_securityHeader message)) ;;
  _on_initial_OpenSecureChannelRequest message callback.

Definition _wait_for_open_secure_channel_request (timeout : Z) : M unit :=
  _install_wait_for_open_secure_channel_request_timeout timeout ;;
  modify (fun self => set_messageBuilder
                        (set_listener initial_listener (messageBuilder self)) self).

(** [init]: the transport either reports an error or is bound to the builder. *)
Definition init (tcp : ServerTCP_transport) (err : option string) : M unit :=
  modify (set_transport (Some tcp)) ;;
  match err with
  | Some e => emit (init_callback (Some e))
  | None =>
      self <- get ;;
      _wait_for_open_secure_channel_request (timeout self)
  end.

Definition _on_common_message (request : Request) (msgType : MsgType) : M unit :=
  self <- get ;;
  let message := {| request := request;
                    msg_securityHeader := None;
                    requestId := sequenceHeader_requestId (messageBuilder self) |} in
  match msgType, request with
  | CLO, CloseSecureChannelRequest _ => close None
  | OPN, OpenSecureChannelRequest_ _ =>
      _handle_OpenSecureChannelRequest message (fun _ => ret tt)
  | _, CloseSecureChannelRequest _ =>
      emit (console_log "WARNING : RECEIVED a CloseSecureChannelRequest") ;;
      close None
  | _, _ => emit (emit_message message)
  end.

(** ** Delivery of a decoded message by the message builder

    Before it emits ["message"] the builder has stored the headers it has read and,
    for an OPN chunk, the crypto strategy of the security policy.  A listener
    registered with [once] is removed when it is called. *)

Record Incoming := {
  in_request : Request;
  in_msgType : MsgType;
  in_requestId : Z;
  in_securityHeader : option AsymmetricAlgorithmSecurityHeader;
  in_cryptoFactory : option CryptoFactory
}.

Definition messageBuilder_read (i : Incoming) (b : MessageBuilder) : MessageBuilder :=
  {| mb_privateKey := mb_privateKey b; mb_securityMode := mb_securityMode b;
     cryptoFactory := in_cryptoFactory i; mb_securityHeader := in_securityHeader i;
     sequenceHeader_requestId := in_requestId i; listener := listener b |}.

Definition messageBuilder_emits_message (i : Incoming) : M unit :=
  modify (fun self => set_messageBuilder (messageBuilder_read i (messageBuilder self)) self) ;;
  self <- get ;;
  match listener (messageBuilder self) with
  | initial_listener =>
      modify (fun self => set_messageBuilder
                            (set_listener no_listener (messageBuilder self)) self) ;;
      _on_initial_open_secure_channel_request (fun err => emit (init_callback err))
        (in_request i) (in_msgType i)
  | common_listener => _on_common_message (in_request i) (in_msgType i)
  | no_listener => ret tt
  end.

End WithExternals.

(** ** The token manager over the life of a channel *)

(** One operation of the token manager, when the wall clock reads [now]: the
    lifetime is revised and a token is installed.  It returns the token. *)
Definition issue_or_renew (X : Externals) (now : Z) (request : OpenSecureChannelRequest)
  : M (option ChannelSecurityToken) :=
  modify (set_clock now) ;;
  _set_lifetime (requestedLifetime request) ;;
  _prepare_security_token X request ;;
  self <- get ;;
  ret (securityToken self).

(** The tokens installed by a sequence of operations, oldest first. *)
Fixpoint issued_tokens (X : Externals) (requests : list (Z * OpenSecureChannelRequest))
    (self : Channel) : list ChannelSecurityToken :=
  match requests with
  | [] => []
  | (now, request) :: rest =>
      let r := issue_or_renew X now request self in
      match outcome r with
      | Returned (Some token) => token :: issued_tokens X rest (final r)
      | _ => issued_tokens X rest (final r)
      end
  end.

(** The responses handed to the chunker, oldest first. *)
Fixpoint sent_responses (evs : list Event) : list Response :=
  match evs with
  | [] => []
  | chunkSecureMessage _ _ r :: rest => r :: sent_responses rest
  | _ :: rest => sent_responses rest
  end.

(** An event that is not a call to the chunker, or is one whose response carries
    the request handle [h]. *)
Definition answers_handle (h : Z) (e : Event) : Prop :=
  match e with
  | chunkSecureMessage _ _ r => rh_requestHandle (responseHeader r) = h
  | _ => True
  end.

(** The response [r] is handed to the chunker, its chunks are written, and the next
    thing the channel does is to disconnect the transport. *)
Definition sent_then_closed (evs : list Event) (r : Response) : Prop :=
  exists pre t o chunks post,
    evs = pre ++ chunkSecureMessage t o r :: map transport_write chunks
              ++ emit_transaction_done :: transport_disconnect :: post.

(** * Vocabulary of the properties *)

Section Vocabulary.

Variable X : Externals.

Fixpoint position (a : ascii) (digits : list ascii) : option N :=
  match digits with
  | [] => None
  | d :: rest => if Ascii.eqb a d then Some 0%N else option_map N.succ (position a rest)
  end.

Definition unhex_byte (hi lo : ascii) : option byte :=
  match position hi hex_digits, position lo hex_digits with
  | Some h, Some l => Byte.of_N (16 * h + l)
  | _, _ => None
  end.

(** The token installed by [_add_new_security_token] on [self]. *)
Definition new_token (self : Channel) : ChannelSecurityToken :=
  {| tok_secureChannelId := secureChannelId self;
     tokenId := lastTokenId self + 1;
     createdAt := Some (clock self);
     tok_revisedLifeTime := revisedLifeTime self |}.

Definition new_watch_dog (self : Channel) : Timer :=
  {| armedAt := clock self;
     delay := option_map (fun l => inject_Z l * 120 / 100)%Q (revisedLifeTime self) |}.

Definition sendfree (evs : list Event) : Prop :=
  forall t o r, ~ In (chunkSecureMessage t o r) evs.

(** A callback that only reports to its caller: it leaves the channel as it is. *)
Definition observer (k : option string -> M unit) : Prop :=
  forall err c, exists e, k err c = (Returned tt, c, e) /\ sendfree e.

Definition abort_state (self : Channel) : Channel :=
  if _abort_has_been_called self then self
  else
    let c1 := set__abort_has_been_called true self in
    let c2 := if truthy (_securityTokenTimeout c1)
              then set__securityTokenTimeout None c1 else c1 in
    if truthy (timeoutId c2) then set_timeoutId None c2 else c2.

Definition abort_events (self : Channel) : list Event :=
  if _abort_has_been_called self then [] else [emit_abort].

(** The channel as [send_response] leaves it when it calls the chunker. *)
Definition counted (t : MsgType) (self : Channel) : Channel :=
  set__transactionsCount (_transactionsCount self + 1) (set_msgType (Some t) self).

Definition answered (message : Message) (response : Response) : Response :=
  set_requestHandle (requestHandle (request message)) response.

(** [message.securityHeader ? message.securityHeader.senderCertificate : null] *)
Definition sender (message : Message) : option Buffer :=
  match msg_securityHeader message with
  | Some h => senderCertificate h
  | None => None
  end.

(** The channel once the lifetime is revised and the token installed. *)
Definition prepared (request : OpenSecureChannelRequest) (self : Channel) : Channel :=
  let c :=
    set_revisedLifeTime
      (Some (if requestedLifetime request =? 0 then defaultSecureTokenLifetime self
             else Z.min (defaultSecureTokenLifetime self) (requestedLifetime request)))
      (set_revisedLifeTime (Some (requestedLifetime request))
         (set_clientNonce (osc_clientNonce request) self)) in
  set__securityTokenTimeout (Some (new_watch_dog c))
    (set_securityToken (Some (new_token c)) (set_lastTokenId (lastTokenId c + 1) c)).

(** The channel when the assertion on the new token fails: the lifetime is revised,
    the token deleted, its watchdog stopped and the identifier taken. *)
Definition unprepared (request : OpenSecureChannelRequest) (self : Channel) : Channel :=
  let c :=
    set_revisedLifeTime
      (Some (if requestedLifetime request =? 0 then defaultSecureTokenLifetime self
             else Z.min (defaultSecureTokenLifetime self) (requestedLifetime request)))
      (set_revisedLifeTime (Some (requestedLifetime request))
         (set_clientNonce (osc_clientNonce request) self)) in
  set_lastTokenId (lastTokenId c + 1)
    (set__securityTokenTimeout None (set_securityToken None c)).

(** Server nonce and derived keys: the block [if (cryptoFactory) { ... }]. *)
Definition nonce_block (self : Channel) : M StatusCode :=
  match cryptoFactory (messageBuilder self) with
  | Some factory =>
      nonce <- randomBytes X (symmetricKeyLength factory) ;;
      modify (set_serverNonce (Some nonce)) ;;
      self <- get ;;
      match clientNonce self with
      | None => throw (TypeError "self.clientNonce.length")
      | Some client =>
          result <-
            (if negb (List.length client =? List.length nonce)%nat
             then emit (console_log "warning client Nonce length doesn't match server nonce length") ;;
                  ret BadSecurityModeRejected
             else ret Good) ;;
          emit (compute_derived_keys_call nonce client) ;;
          modify (set_derivedKeys (Some (compute_derived_keys factory nonce client))) ;;
          ret result
      end
  | None => ret Good
  end.

Definition opn_response (result : StatusCode) (self : Channel) : Response :=
  {| responseHeader := {| serviceResult := result; rh_requestHandle := 0 |};
     body := OpenSecureChannelResponse (protocolVersion self) (securityToken self)
               (serverNonce self) |}.

Definition fault (status : StatusCode) : Response :=
  {| responseHeader := {| serviceResult := status; rh_requestHandle := 0 |};
     body := ServiceFault None |}.

(** Verification of the receiver certificate thumbprint. *)
Definition thumbprint_block (self : Channel) (response : Response) : M Response :=
  if negb (MessageSecurityMode_eqb (securityMode self) NONE) then
    match clientSecurityHeader self with
    | None => throw (TypeError "clientSecurityHeader.receiverCertificateThumbprint")
    | Some client =>
        matches <- _check_receiverCertificateThumbprint X client ;;
        if matches then ret response
        else
          emit (console_log "Server#OpenSecureChannelRequest : Invalid receiver certificate thumbprint : the thumbprint doesn't match server certificate !") ;;
          ret (set_serviceResult BadCertificateInvalid response)
    end
  else ret response.

(** Validity of the client certificate. *)
Definition certificate_block (self : Channel) (response : Response) : M Response :=
  if truthy (clientCertificate self) then
    certificate_status <- _check_certificate_validity X (clientCertificate self) ;;
    if negb (StatusCode_eqb Good certificate_status) then
      emit (console_log "Sender Certificate Error") ;;
      ret (fault certificate_status)
    else ret response
  else ret response.

(** The callback given to [send_response]. *)
Definition closing_callback (callback : option string -> M unit) (response : Response)
  : M unit :=
  (if negb (StatusCode_eqb (serviceResult (responseHeader response)) Good)
   then close None
   else ret tt) ;;
  callback None.

Definition after_header (message : Message) (callback : option string -> M unit)
    (result : StatusCode) (self : Channel) (header : AsymmetricAlgorithmSecurityHeader)
  : M unit :=
  emit (messageChunker_update header (option_map derivedServerKeys (derivedKeys self))) ;;
  modify (set_clientCertificate (sender message)) ;;
  self' <- get ;;
  response1 <- thumbprint_block self' (opn_response result self) ;;
  response2 <- certificate_block self' response1 ;;
  send_response X OPN response2 message (Some (closing_callback callback response2)).

Definition after_nonce (message : Message) (callback : option string -> M unit)
    (request : OpenSecureChannelRequest) (result : StatusCode) : M unit :=
  self <- get ;;
  emit (pushNewToken (securityToken self) (option_map derivedClientKeys (derivedKeys self))) ;;
  header <- _prepare_security_header X request message ;;
  modify (set_securityHeader header) ;;
  match header with
  | None => throw (AssertionError "self.securityHeader")
  | Some securityHeader => after_header message callback result self securityHeader
  end.

(** The nonce block, case by case. *)
Definition server_nonce_of (factory : CryptoFactory) (self : Channel) : Buffer :=
  map (entropy X) (seq (entropyCursor self) (symmetricKeyLength factory)).

Definition with_nonce (factory : CryptoFactory) (self : Channel) : Channel :=
  set_serverNonce (Some (server_nonce_of factory self))
    (set_entropyCursor (entropyCursor self + symmetricKeyLength factory)%nat self).

Definition thumbprint_log : Event :=
  console_log "Server#OpenSecureChannelRequest : Invalid receiver certificate thumbprint : the thumbprint doesn't match server certificate !".

(** The status [_check_certificate_validity] gives a certificate it can read. *)
Definition validity (cert : Certificate) (now : Z) : StatusCode :=
  if now <? notBefore cert then BadCertificateTimeInvalid
  else if notAfter cert <=? now then BadCertificateTimeInvalid
  else Good.

(** What follows the last chunk of a handshake response. *)
Definition is_bad (response : Response) : bool :=
  negb (StatusCode_eqb (serviceResult (responseHeader response)) Good).

Definition settled (message : Message) (header : AsymmetricAlgorithmSecurityHeader)
    (c : Channel) : Channel :=
  set_clientCertificate (sender message) (set_securityHeader (Some header) c).

(** The run [r] of the handler on [message] and [self] has handed [response],
    completed with the request handle, to the chunker. *)
Definition answered_run (message : Message) (self : Channel)
    (r : Outcome unit * Channel * list Event) (options : ChunkOptions) (response : Response)
  : Prop :=
  exists osc result c1 e1 header response1 e2 e3 tcp e4,
    request message = OpenSecureChannelRequest_ osc /\
    (0 <? requestId message) = true /\
    nonce_block (prepared osc self) (prepared osc self) = (Returned result, c1, e1) /\
    _prepare_security_header X osc message c1 = (Returned (Some header), c1, []) /\
    thumbprint_block (settled message header c1) (opn_response result c1)
      (settled message header c1) = (Returned response1, settled message header c1, e2) /\
    certificate_block (settled message header c1) response1 (settled message header c1)
      = (Returned response, settled message header c1, e3) /\
    transport c1 = Some tcp /\
    sendfree e1 /\ sendfree e2 /\ sendfree e3 /\ sendfree e4 /\
    r = (Returned tt,
         (if is_bad response then abort_state (counted OPN (settled message header c1))
          else counted OPN (settled message header c1)),
         e1 ++ pushNewToken (securityToken c1) (option_map derivedClientKeys (derivedKeys c1))
            :: messageChunker_update header (option_map derivedServerKeys (derivedKeys c1))
            :: e2 ++ e3
            ++ chunkSecureMessage OPN options (answered message response)
            :: map transport_write (chunks_of X OPN options (answered message response))
            ++ emit_transaction_done
            :: (if is_bad response
                then transport_disconnect
                       :: abort_events (counted OPN (settled message header c1))
                else [])
            ++ e4).

(** The run [r] has sent exactly one response: it carries the request handle [h], and
    when its service result is not [Good] the transport is disconnected once the last
    chunk is written and the channel ends aborted. *)
Definition one_response (h : Z) (r : Outcome unit * Channel * list Event) : Prop :=
  exists pre t options response chunks tail,
    sendfree pre /\ sendfree tail /\
    rh_requestHandle (responseHeader response) = h /\
    events r = pre ++ chunkSecureMessage t options response
                   :: map transport_write chunks ++ emit_transaction_done :: tail /\
    (serviceResult (responseHeader response) <> Good ->
     (exists post, tail = transport_disconnect :: post) /\
     _abort_has_been_called (final r) = true).

Definition error_fault (status : StatusCode) (description : string) : Response :=
  {| responseHeader := {| serviceResult := status; rh_requestHandle := 0 |};
     body := ServiceFault (Some description) |}.

(** The channel as [_process_certificates] hands it to its callback. *)
Definition certificates_processed (message : Message) (c : Channel) : Channel :=
  let c1 := set_receiverCertificate (sender message)
              (set_receiverPublicKeyLength 0 (set_receiverPublicKey None c)) in
  match sender message with
  | Some [] => set_receiverPublicKey None (set_receiverCertificate None c1)
  | Some der =>
      match extractPublicKeyFromCertificate X der with
      | Some key => set_receiverPublicKeyLength (rsa_length X key)
                      (set_receiverPublicKey (Some key) c1)
      | None => c1
      end
  | None => set_receiverPublicKey None c1
  end.

(** A computation that sends nothing, and one that sends at most the one response. *)
Definition quiet {A : Type} (m : M A) : Prop := forall c, sendfree (events (m c)).

(** The run [r] has stopped on an exception before anything was sent. *)
Definition failed {A : Type} (r : Outcome A * Channel * list Event) : Prop :=
  (exists x, outcome r = Thrown x) /\ sendfree (events r).

(** A computation that either stops on an exception before it sends anything, or
    returns having sent the one response. *)
Definition settles (h : Z) (m : M unit) : Prop :=
  forall c, failed (m c) \/ (outcome (m c) = Returned tt /\ one_response h (m c)).

Definition mild (h : Z) (m : M unit) : Prop :=
  forall c, sendfree (events (m c)) \/ one_response h (m c).

End Vocabulary.

(** * A test bench

    Stand-ins for the collaborators, small enough to run: a certificate is three
    bytes (not-before, not-after, key length), a chain is a sequence of such
    certificates, and the digest is a two-byte checksum. *)

Module Sample.

Definition byte_val (b : byte) : Z := Z.of_N (Byte.to_N b).

Definition byte_of (n : N) : byte :=
  match Byte.of_N (n mod 256) with
  | Some b => b
  | None => x00
  end.

Definition digest (b : Buffer) : Buffer :=
  [byte_of (fold_right (fun x acc => Byte.to_N x + acc)%N 0%N b);
   byte_of (N.of_nat (List.length b))].

Definition explore (b : Buffer) : option Certificate :=
  match b with
  | nb :: na :: len :: _ =>
      Some {| notBefore := byte_val nb; notAfter := byte_val na; publicKeyLength := byte_val len |}
  | _ => None
  end.

Fixpoint split (b : Buffer) : list Buffer :=
  match b with
  | x :: y :: z :: rest => [x; y; z] :: split rest
  | _ => []
  end.

Definition Basic128Rsa15_uri : string := "http://opcfoundation.org/UA/SecurityPolicy#Basic128Rsa15".
Definition Basic256_uri : string := "http://opcfoundation.org/UA/SecurityPolicy#Basic256".

Definition policy_of_uri (uri : string) : SecurityPolicy :=
  if String.eqb uri SecurityPolicy_None_uri then Policy_None
  else if String.eqb uri Basic128Rsa15_uri then Basic128Rsa15
  else if String.eqb uri Basic256_uri then Basic256
  else OtherPolicy.

(** On the bench a token is expired once the clock has passed its creation by more
    than 1.6 times its lifetime; a comparison with a missing number is false. *)
Definition token_expired (token : ChannelSecurityToken) (now : Z) : bool :=
  match createdAt token, tok_revisedLifeTime token with
  | Some created, Some lifetime => 10 * created + 16 * lifetime <? 10 * now
  | _, _ => false
  end.

Definition externals : Externals :=
  {| makeSHA1Thumbprint := digest;
     exploreCertificate := explore;
     extractPublicKeyFromCertificate := fun cert => option_map (fun _ => skipn 2 cert) (explore cert);
     rsa_length := fun key => match key with len :: _ => byte_val len | [] => 0 end;
     split_der := split;
     fromURI := policy_of_uri;
     entropy := fun n => byte_of (N.of_nat n);
     chunks_of := fun _ _ _ => [[x01]];
     expired := token_expired |}.

Definition factory16 : CryptoFactory :=
  {| symmetricKeyLength := 16;
     blockPaddingSize := 11;
     compute_derived_keys := fun server client =>
       {| derivedClientKeys := server ++ client; derivedServerKeys := client ++ server |} |}.

(** Valid from 10 to 200, 128-byte key. *)
Definition server_certificate : Buffer := [x0a; xc8; x80].
Definition issuer_certificate : Buffer := [x01; xff; x80].
Definition client_certificate : Buffer := [x0a; xc8; x40].
Definition expired_client_certificate : Buffer := [x0a; x14; x40].

Definition endpoint (chain : Buffer) : OPCUAServerEndPoint :=
  {| certificateChain := chain;
     _privateKey := [x07];
     getEndpointDescription := fun _ _ => Some "endpoint" |}.

Definition tcp : ServerTCP_transport := {| receiveBufferSize := 8192 |}.

(** A channel of a server with the given chain, created at time 100 and waiting
    for its first request. *)
Definition listening (chain : Buffer) : Channel :=
  final (init tcp None
           (fst (constructor {| options_parent := Some (endpoint chain);
                                options_timeout := None;
                                options_defaultSecureTokenLifetime := None |} 0 100))).

Definition open_request (mode : MessageSecurityMode) (nonce : option Buffer) (lifetime : Z)
    (type : SecurityTokenRequestType) : Request :=
  OpenSecureChannelRequest_
    {| osc_requestHandle := 77; osc_securityMode := mode; osc_clientNonce := nonce;
       requestedLifetime := lifetime; requestType := type |}.

Definition opn_none (lifetime : Z) (type : SecurityTokenRequestType) : Incoming :=
  {| in_request := open_request NONE None lifetime type;
     in_msgType := OPN;
     in_requestId := 1;
     in_securityHeader := Some initial_securityHeader;
     in_cryptoFactory := None |}.

Definition opn_sign (certificate thumbprint : option Buffer) (nonce : Buffer)
    (type : SecurityTokenRequestType) : Incoming :=
  {| in_request := open_request SIGN (Some nonce) 0 type;
     in_msgType := OPN;
     in_requestId := 1;
     in_securityHeader := Some {| securityPolicyUri := Basic128Rsa15_uri;
                                  senderCertificate := certificate;
                                  receiverCertificateThumbprint := thumbprint |};
     in_cryptoFactory := Some factory16 |}.

Definition nonce16 : Buffer := repeat x55 16.
Definition nonce8 : Buffer := repeat x55 8.

Definition run (i : Incoming) (self : Channel) := messageBuilder_emits_message externals i self.

End Sample.

(** * Scenarios on the test bench *)

Module Scenarios.

Import Sample.

Definition init_callback_ : option string -> M unit := fun err => emit (init_callback err).

(** The message built from what the builder has read. *)
Definition message_of (i : Incoming) : Message :=
  {| request := in_request i;
     msg_securityHeader := in_securityHeader i;
     requestId := in_requestId i |}.

(** The channel as the first request, an OpenSecureChannelRequest of mode [mode] that
    passes the policy and endpoint checks, reaches the handler. *)
Definition handshaking (mode : MessageSecurityMode) (i : Incoming) (c : Channel) : Channel :=
  let c1 := set_messageBuilder
              (set_listener no_listener (messageBuilder_read i (messageBuilder c))) c in
  let c2 := set_securityMode mode
              (set_clientSecurityHeader (in_securityHeader i) (set_timeoutId None c1)) in
  let c3 := set_messageBuilder
              (set_listener common_listener (set_mb_securityMode mode (messageBuilder c2))) c2 in
  certificates_processed externals (message_of i) c3.

Definition server : Channel := listening server_certificate.

(** The channel once the builder has read [i] and removed the listener it is about to
    call. *)
Definition delivered (i : Incoming) (c : Channel) : Channel :=
  set_messageBuilder (set_listener no_listener (messageBuilder_read i (messageBuilder c))) c.

Definition good_thumbprint : option Buffer := Some (digest server_certificate).
Definition wrong_thumbprint : Buffer := [xaa; xaa].

Definition first_none : Incoming := opn_none 0 ISSUE.
Definition first_sign : Incoming :=
  opn_sign (Some client_certificate) good_thumbprint nonce16 ISSUE.
Definition short_nonce : Incoming :=
  opn_sign (Some client_certificate) good_thumbprint nonce8 ISSUE.
Definition short_nonce_wrong_thumbprint : Incoming :=
  opn_sign (Some client_certificate) (Some wrong_thumbprint) nonce8 ISSUE.
Definition bad_thumbprint : Incoming :=
  opn_sign (Some client_certificate) (Some wrong_thumbprint) nonce16 ISSUE.
Definition bad_thumbprint_expired : Incoming :=
  opn_sign (Some expired_client_certificate) (Some wrong_thumbprint) nonce16 ISSUE.
Definition no_thumbprint : Incoming :=
  opn_sign (Some client_certificate) None nonce16 ISSUE.

Definition renewal : Incoming :=
  {| in_request := open_request SIGN (Some nonce16) 0 RENEW;
     in_msgType := OPN;
     in_requestId := 2;
     in_securityHeader := in_securityHeader first_sign;
     in_cryptoFactory := Some factory16 |}.

Definition read_request : Incoming :=
  {| in_request := ServiceRequest "ReadRequest" 78;
     in_msgType := MSG;
     in_requestId := 2;
     in_securityHeader := None;
     in_cryptoFactory := None |}.

Definition server_nonce (from : nat) : Buffer := map (entropy externals) (seq from 16).

Definition token (id now : Z) : ChannelSecurityToken :=
  {| tok_secureChannelId := 1; tokenId := id; createdAt := Some now;
     tok_revisedLifeTime := Some 600000 |}.

Definition results (evs : list Event) : list StatusCode :=
  map (fun r => serviceResult (responseHeader r)) (sent_responses evs).

Definition is_fault (r : Response) : bool :=
  match body r with ServiceFault _ => true | _ => false end.

Definition degraded_options : ChunkOptions :=
  {| opt_requestId := 1; opt_secureChannelId := 1; opt_tokenId := 1; chunkSize := 8192;
     security_options := asymmetric_options 128 53 64 |}.

Definition degraded_response : Response :=
  {| responseHeader := {| serviceResult := BadSecurityModeRejected; rh_requestHandle := 77 |};
     body := OpenSecureChannelResponse 0 (Some (token 1 100)) (Some (server_nonce 0)) |}.

Definition plain_options : ChunkOptions :=
  {| opt_requestId := 1; opt_secureChannelId := 1; opt_tokenId := 1; chunkSize := 8192;
     security_options := no_security_options |}.

Definition plain_response : Response :=
  {| responseHeader := {| serviceResult := Good; rh_requestHandle := 77 |};
     body := OpenSecureChannelResponse 0 (Some (token 1 100)) None |}.

Definition sign_request (nonce : Buffer) : OpenSecureChannelRequest :=
  {| osc_requestHandle := 77; osc_securityMode := SIGN; osc_clientNonce := Some nonce;
     requestedLifetime := 0; requestType := ISSUE |}.

Definition client_header (thumbprint : option Buffer) : AsymmetricAlgorithmSecurityHeader :=
  {| securityPolicyUri := Basic128Rsa15_uri;
     senderCertificate := Some client_certificate;
     receiverCertificateThumbprint := thumbprint |}.

End Scenarios.

(** * The listeners the channel registers, and its life

    The constructor registers a listener for the ["error"] event of the message
    builder, and [init] one for the ["socket_closed"] event of the transport. *)

Definition messageBuilder_emits_error : M unit := close None.

Definition transport_emits_socket_closed : M unit := _abort.

(** What happens to a channel: the calls its environment makes on it, one at a time.
    The upper layer answers through [send_response] and [send_error_and_abort]; the
    optional callback of the former is left out and that of the latter does nothing. *)
Inductive Action :=
| init_called (tcp : ServerTCP_transport) (err : option string)
| message_emitted (i : Incoming)
| error_emitted
| socket_closed
| security_token_timer
| open_channel_timer
| clock_reads (now : Z)
| send_response_called (t : MsgType) (response : Response) (message : Message)
| send_error_and_abort_called (statusCode : StatusCode) (description : string)
    (message : Message)
| close_called.

Definition perform (X : Externals) (a : Action) : M unit :=
  match a with
  | init_called tcp err => init tcp err
  | message_emitted i => messageBuilder_emits_message X i
  | error_emitted => messageBuilder_emits_error
  | socket_closed => transport_emits_socket_closed
  | security_token_timer => security_token_watch_dog_fires
  | open_channel_timer => open_channel_timeout_fires
  | clock_reads now => modify (set_clock now)
  | send_response_called t response message => send_response X t response message None
  | send_error_and_abort_called statusCode description message =>
      send_error_and_abort X statusCode description message (ret tt)
  | close_called => close None
  end.

(** An exception thrown by one call leaves the channel as that call has left it; the
    next call finds it so. *)
Fixpoint life (X : Externals) (actions : list Action) (c : Channel) : Channel * list Event :=
  match actions with
  | [] => (c, [])
  | a :: rest =>
      let r := perform X a c in
      let '(c', e') := life X rest (final r) in
      (c', events r ++ e')
  end.

(** ** Relations between the channel before a computation, the calls the
    computation makes and the channel after it *)

Definition Relation : Type := Channel -> list Event -> Channel -> Prop.

Record Monoidal (R : Relation) : Prop := {
  idle : forall c, R c [] c;
  chained : forall c e1 c1 e2 c2, R c e1 c1 -> R c1 e2 c2 -> R c (e1 ++ e2) c2
}.

Definition respects (R : Relation) {A : Type} (m : M A) : Prop :=
  forall c, R c (events (m c)) (final (m c)).

(** The number of ["abort"] notifications in a trace. *)
Fixpoint aborts (evs : list Event) : Z :=
  match evs with
  | [] => 0
  | emit_abort :: rest => 1 + aborts rest
  | _ :: rest => aborts rest
  end.

Definition abort_once : Relation :=
  fun c e c' =>
    Z.b2z (_abort_has_been_called c') = Z.b2z (_abort_has_been_called c) + aborts e.

Definition tallied : Relation :=
  fun c e c' =>
    _transactionsCount c' = _transactionsCount c + Z.of_nat (List.length (sent_responses e)).

Definition same_configuration : Relation :=
  fun c _ c' =>
    secureChannelId c' = secureChannelId c /\
    parent c' = parent c /\
    timeout c' = timeout c /\
    defaultSecureTokenLifetime c' = defaultSecureTokenLifetime c /\
    protocolVersion c' = protocolVersion c.

Definition no_open_channel_timer : Relation :=
  fun c _ c' => timeoutId c = None -> timeoutId c' = None.

(** The options [send_response] builds for the chunker. *)
Definition chunk_options (message : Message) (token : ChannelSecurityToken)
    (tcp : ServerTCP_transport) (security : SecurityOptions) : ChunkOptions :=
  {| opt_requestId := requestId message;
     opt_secureChannelId := tok_secureChannelId token;
     opt_tokenId := tokenId token;
     chunkSize := receiveBufferSize tcp;
     security_options := security |}.

(** The security options of a response of type [t], read on the channel [self]. *)
Definition security_of (X : Externals) (t : MsgType) : M SecurityOptions :=
  if MsgType_eqb t OPN then _get_security_options_for_OPN X
  else _get_security_options_for_MSG.

(** The token an OpenSecureChannelRequest makes the channel [self] install. *)
Definition issued_token (request : OpenSecureChannelRequest) (self : Channel)
  : ChannelSecurityToken :=
  {| tok_secureChannelId := secureChannelId self;
     tokenId := lastTokenId self + 1;
     createdAt := Some (clock self);
     tok_revisedLifeTime :=
       Some (if requestedLifetime request =? 0 then defaultSecureTokenLifetime self
             else Z.min (defaultSecureTokenLifetime self) (requestedLifetime request)) |}.

(** [message.request] when it is an OpenSecureChannelRequest. *)
Definition request_of (message : Message) : option OpenSecureChannelRequest :=
  match request message with
  | OpenSecureChannelRequest_ request => Some request
  | _ => None
  end.

(** The message [_on_initial_open_secure_channel_request] builds for [request] from
    what the message builder of [self] has read. *)
Definition first_message (request : Request) (self : Channel) : Message :=
  {| request := request;
     msg_securityHeader := mb_securityHeader (messageBuilder self);
     requestId := sequenceHeader_requestId (messageBuilder self) |}.

(** The ServiceFault [send_error_and_abort] sends in answer to [request]. *)
Definition service_fault (statusCode : StatusCode) (description : string) (request : Request)
  : Response :=
  {| responseHeader := {| serviceResult := statusCode;
                          rh_requestHandle := requestHandle request |};
     body := ServiceFault (Some description) |}.

(** No token is handed to the message builder. *)
Definition tokenfree (evs : list Event) : Prop :=
  forall t k, ~ In (pushNewToken t k) evs.

(** ** The key of a channel, and the counter of channel identifiers *)

(** [n.toString()] for an integer: its decimal digits, after a minus sign when it is
    negative. *)
Definition Number_toString (n : Z) : string := NilZero.string_of_int (Z.to_int n).

Definition hashKey (self : Channel) : Outcome string :=
  match securityToken self with
  | Some token => Returned (Number_toString (tok_secureChannelId token))
  | None => Thrown (TypeError "self.securityToken.secureChannelId")
  end.

(** Channels created one after the other; [last_channel_id] is the counter of the
    module, which every call of the constructor advances. *)
Fixpoint constructed (calls : list (Options * Z)) (last_channel_id : Z) : list Channel :=
  match calls with
  | [] => []
  | (options, now) :: rest =>
      let '(self, next) := constructor options last_channel_id now in
      self :: constructed rest next
  end.

(** ** Statistics of a transaction

    The fields of the channel that [_record_transaction_statistics] reads and
    writes.  A field that has never been assigned is [undefined], here [None].  The
    byte counts are integers and a difference that involves [undefined] is [NaN],
    here [None] as well.  The clock ticks are numbers of the clock of the process;
    their type and the subtraction of two of them, either of which may be
    [undefined], are left open. *)

Section Statistics.

Variable Tick : Type.
Variable lap : option Tick -> option Tick -> Tick.

Record TransactionStats := {
  stats_bytesRead : option Z;
  stats_bytesWritten : option Z;
  lap_reception : Tick;
  lap_processing : Tick;
  lap_emission : Tick
}.

Record Bookkeeping := {
  _bytesRead_before : option Z;
  _byesWritten_before : option Z;
  _bytesWritten_before : option Z;
  _tick0 : option Tick;
  _tick1 : option Tick;
  _tick2 : option Tick;
  _tick3 : option Tick;
  last_transaction_stats : option TransactionStats
}.

(** The constructor sets [_tick0] to 0, given here as [zero], and nothing else. *)
Definition new_bookkeeping (zero : Tick) : Bookkeeping :=
  {| _bytesRead_before := None; _byesWritten_before := None; _bytesWritten_before := None;
     _tick0 := Some zero; _tick1 := None; _tick2 := None; _tick3 := None;
     last_transaction_stats := None |}.

(** [x || 0] on a count. *)
Definition or_zero (x : option Z) : Z :=
  match x with Some v => v | None => 0 end.

(** [a - b] where [a] is a count and [b] a count or [undefined]. *)
Definition less (a : Z) (b : option Z) : option Z := option_map (fun b => a - b) b.

(** [bytesRead] and [bytesWritten] are the getters of the channel: the counters of
    the transport, or 0 without transport. *)
Definition _record_transaction_statistics (bytesRead bytesWritten : Z) (self : Bookkeeping)
  : Bookkeeping :=
  let read_before := Some (or_zero (_bytesRead_before self)) in
  let byes_before := Some (or_zero (_byesWritten_before self)) in
  let stats :=
    {| stats_bytesRead := less bytesRead read_before;
       stats_bytesWritten := less bytesWritten (_bytesWritten_before self);
       lap_reception := lap (_tick1 self) (_tick0 self);
       lap_processing := lap (_tick2 self) (_tick1 self);
       lap_emission := lap (_tick3 self) (_tick2 self) |} in
  {| _bytesRead_before := Some bytesRead;
     _byesWritten_before := byes_before;
     _bytesWritten_before := Some bytesWritten;
     _tick0 := _tick0 self; _tick1 := _tick1 self; _tick2 := _tick2 self;
     _tick3 := _tick3 self;
     last_transaction_stats := Some stats |}.

(** The statistics recorded at the end of each of a series of transactions, given
    the values of the two getters at each end. *)
Fixpoint recorded (counters : list (Z * Z)) (self : Bookkeeping) : list TransactionStats :=
  match counters with
  | [] => []
  | (bytesRead, bytesWritten) :: rest =>
      let self' := _record_transaction_statistics bytesRead bytesWritten self in
      match last_transaction_stats self' with
      | Some stats => stats :: recorded rest self'
      | None => recorded rest self'
      end
  end.

End Statistics.

(** The growth of the two counters from one transaction to the next. *)
Fixpoint differences (previous : Z * Z) (counters : list (Z * Z)) : list (Z * Z) :=
  match counters with
  | [] => []
  | c :: rest => (fst c - fst previous, snd c - snd previous) :: differences c rest
  end.

Arguments stats_bytesRead {Tick} _.
Arguments stats_bytesWritten {Tick} _.
Arguments _bytesRead_before {Tick} _.
Arguments _byesWritten_before {Tick} _.
Arguments _bytesWritten_before {Tick} _.
Arguments last_transaction_stats {Tick} _.

(** The two byte counts of a statistics record. *)
Definition byte_counts {Tick : Type} (s : TransactionStats Tick) : option Z * option Z :=
  (stats_bytesRead s, stats_bytesWritten s).

(** Once the listener of later messages is registered, it stays and the security mode
    of the channel does not change. *)
Definition settled_mode : Relation :=
  fun c _ c' =>
    listener (messageBuilder c) = common_listener ->
    listener (messageBuilder c') = common_listener /\ securityMode c' = securityMode c.

Definition is_init (a : Action) : bool :=
  match a with init_called _ _ => true | _ => false end.

(** ** The keys that protect the responses *)

(** The channel listens for later messages in mode [mode]; its builder holds the
    crypto strategy [factory] and its derived keys are [keys]. *)
Definition keyed (mode : MessageSecurityMode) (factory : CryptoFactory) (keys : DerivedKeys)
    (c : Channel) : Prop :=
  listener (messageBuilder c) = common_listener /\
  securityMode c = mode /\
  cryptoFactory (messageBuilder c) = Some factory /\
  derivedKeys c = Some keys.

(** A message of a type other than OPN is handed to the chunker with the symmetric
    options of [mode] and the server keys of [keys]. *)
Definition protected (mode : MessageSecurityMode) (keys : DerivedKeys) (e : Event) : Prop :=
  match e with
  | chunkSecureMessage t o _ =>
      t <> OPN -> security_options o = symmetric_options mode (derivedServerKeys keys)
  | _ => True
  end.

Definition keeps_keys (mode : MessageSecurityMode) (factory : CryptoFactory)
    (keys : DerivedKeys) : Relation :=
  fun c e c' =>
    keyed mode factory keys c ->
    keyed mode factory keys c' /\ Forall (protected mode keys) e.

(** What happens to the channel neither initialises it again nor renews its token, and
    the builder holds the crypto strategy [factory] when it emits a message. *)
Definition keeping (factory : CryptoFactory) (a : Action) : Prop :=
  match a with
  | init_called _ _ => False
  | message_emitted i =>
      in_cryptoFactory i = Some factory /\
      (in_msgType i = OPN -> forall osc, in_request i <> OpenSecureChannelRequest_ osc)
  | _ => True
  end.

(** ** When a handshake succeeds *)

(** The client nonce has the length of the keys of the policy. *)
Definition nonces_agree (self : Channel) (request : OpenSecureChannelRequest) : Prop :=
  match cryptoFactory (messageBuilder self), osc_clientNonce request with
  | Some factory, Some client => List.length client = symmetricKeyLength factory
  | _, _ => True
  end.

(** The thumbprint the client has sent, if any, is the digest of the chain of the
    endpoint; nothing is asked in mode [NONE]. *)
Definition thumbprint_agrees (X : Externals) (self : Channel) : Prop :=
  securityMode self = NONE \/
  match clientSecurityHeader self, parent self with
  | Some header, Some endpoints =>
      match receiverCertificateThumbprint header with
      | Some thumbprint => thumbprint = makeSHA1Thumbprint X (certificateChain endpoints)
      | None => True
      end
  | Some header, None => receiverCertificateThumbprint header = None
  | None, _ => False
  end.

(** The sender certificate of the message, if any, is in its validity period. *)
Definition certificate_in_date (X : Externals) (message : Message) (self : Channel) : Prop :=
  match sender message with
  | Some der =>
      match exploreCertificate X der with
      | Some cert => notBefore cert <= clock self < notAfter cert
      | None => False
      end
  | None => True
  end.

(** The security header [_prepare_security_header] gives a response. *)
Definition response_header (X : Externals) (request : OpenSecureChannelRequest)
    (self : Channel) : option AsymmetricAlgorithmSecurityHeader :=
  match osc_securityMode request with
  | NONE => Some initial_securityHeader
  | SIGN | SIGNANDENCRYPT =>
      match clientSecurityHeader self, parent self with
      | Some header, Some endpoints =>
          Some {| securityPolicyUri := securityPolicyUri header;
                  senderCertificate := Some (certificateChain endpoints);
                  receiverCertificateThumbprint :=
                    option_map (makeSHA1Thumbprint X) (receiverCertificate self) |}
      | _, _ => None
      end
  | INVALID => None
  end.

(** * The tokens of the inbound path *)








(** * More scenarios on the test bench *)

Module Cases.

Import Sample.
Import Scenarios.

(** The channel once the first request of the bench, in mode [SIGN], is answered,
    and the same at time 5000 when the builder has read the request that renews the
    token. *)
Definition opened : Channel := final (run first_sign server).

Definition renewing : Channel :=
  set_messageBuilder (messageBuilder_read renewal (messageBuilder opened))
    (set_clock 5000 opened).

Definition signed_options (id : Z) : ChunkOptions :=
  {| opt_requestId := id; opt_secureChannelId := 1; opt_tokenId := id; chunkSize := 8192;
     security_options := asymmetric_options 128 53 64 |}.

Definition signed_response : Response :=
  {| responseHeader := {| serviceResult := Good; rh_requestHandle := 77 |};
     body := OpenSecureChannelResponse 0 (Some (token 1 100)) (Some (server_nonce 0)) |}.

Definition renewed_response : Response :=
  {| responseHeader := {| serviceResult := Good; rh_requestHandle := 77 |};
     body := OpenSecureChannelResponse 0 (Some (token 2 5000)) (Some (server_nonce 16)) |}.

Definition expired_fault : Response :=
  {| responseHeader := {| serviceResult := BadCertificateTimeInvalid; rh_requestHandle := 77 |};
     body := ServiceFault None |}.

Definition placeholder : ChannelSecurityToken :=
  {| tok_secureChannelId := 0; tokenId := 0; createdAt := None; tok_revisedLifeTime := None |}.

(** A first request under a policy the server does not know. *)
Definition foreign_header : AsymmetricAlgorithmSecurityHeader :=
  {| securityPolicyUri := "http://opcfoundation.org/UA/SecurityPolicy#Aes128_Sha256_RsaOaep";
     senderCertificate := Some client_certificate;
     receiverCertificateThumbprint := good_thumbprint |}.

Definition foreign_policy : Incoming :=
  {| in_request := open_request SIGN (Some nonce16) 0 ISSUE;
     in_msgType := OPN;
     in_requestId := 1;
     in_securityHeader := Some foreign_header;
     in_cryptoFactory := None |}.

(** A server set up with a negative default lifetime, waiting for its first request. *)
Definition misconfigured : Channel :=
  final (init tcp None
           (fst (constructor {| options_parent := Some (endpoint server_certificate);
                                options_timeout := None;
                                options_defaultSecureTokenLifetime := Some (-1000) |}
                   0 100))).

Definition none_request (lifetime : Z) : OpenSecureChannelRequest :=
  {| osc_requestHandle := 77; osc_securityMode := NONE; osc_clientNonce := None;
     requestedLifetime := lifetime; requestType := ISSUE |}.

End Cases.

(** * Properties *)

Local Open Scope chan_scope.

(** ** Hexadecimal form of a buffer *)

Lemma unhex_byte_hex (x : byte) :
  unhex_byte (hex_digit (N.div (Byte.to_N x) 16)) (hex_digit (N.modulo (Byte.to_N x) 16))
  = Some x.
Proof. destruct x; reflexivity. Qed.

Lemma toString_hex_inj (a b : Buffer) : toString_hex a = toString_hex b -> a = b.
Proof.
  revert b; induction a as [|x a IH]; intros [|y b] H; simpl in H;
    try discriminate; auto.
  injection H as Hhi Hlo Hrest.
  assert (Hxy : Some x = Some y).
  { rewrite <- (unhex_byte_hex x), <- (unhex_byte_hex y), Hhi, Hlo. reflexivity. }
  injection Hxy as ->. f_equal. auto.
Qed.

Lemma toString_hex_eqb (a b : Buffer) :
  String.eqb (toString_hex a) (toString_hex b) = true <-> a = b.
Proof.
  rewrite String.eqb_eq. split; [apply toString_hex_inj | intros ->; reflexivity].
Qed.

(** ** Token manager *)

Lemma set_lifetime_run (requested : Z) (self : Channel) :
  _set_lifetime requested self =
  (Returned tt,
   set_revisedLifeTime
     (Some (if requested =? 0 then defaultSecureTokenLifetime self
            else Z.min (defaultSecureTokenLifetime self) requested))
     (set_revisedLifeTime (Some requested) self),
   []).
Proof.
  unfold _set_lifetime, bind, modify, get. simpl.
  destruct (requested =? 0); reflexivity.
Qed.

Lemma stop_security_token_watch_dog_run (self : Channel) :
  _stop_security_token_watch_dog self =
  (Returned tt,
   if truthy (_securityTokenTimeout self) then set__securityTokenTimeout None self else self,
   []).
Proof.
  unfold _stop_security_token_watch_dog, bind, get, modify, ret. simpl.
  destruct (truthy (_securityTokenTimeout self)); reflexivity.
Qed.

Lemma add_new_security_token_run (X : Externals) (self : Channel) (l : Z) :
  revisedLifeTime self = Some l ->
  expired X (new_token self) (clock self) = false ->
  _add_new_security_token X self =
  (Returned tt,
   set__securityTokenTimeout (Some (new_watch_dog self))
     (set_securityToken (Some (new_token self))
        (set_lastTokenId (lastTokenId self + 1) self)),
   []).
Proof.
  intros Hl He.
  unfold _add_new_security_token, _start_security_token_watch_dog, bind.
  rewrite stop_security_token_watch_dog_run.
  unfold new_token in He. unfold new_token, new_watch_dog, modify, get, assert, ret.
  destruct (truthy (_securityTokenTimeout self)); simpl; rewrite He, Hl; reflexivity.
Qed.

(** The token class holds the new token for expired: the assertion fails when the
    watchdog of the previous token is stopped and the identifier is taken. *)
Lemma add_new_security_token_expired (X : Externals) (self : Channel) :
  expired X (new_token self) (clock self) = true ->
  _add_new_security_token X self =
  (Thrown (AssertionError "!securityToken.expired"),
   set_lastTokenId (lastTokenId self + 1) (set__securityTokenTimeout None self),
   []).
Proof.
  intros He.
  unfold _add_new_security_token, _start_security_token_watch_dog, bind.
  rewrite stop_security_token_watch_dog_run.
  unfold new_token in He. unfold modify, get, assert, ret, throw.
  destruct self as [? ? ? ? ? ? ? ? ? ? ? ? ? ? ? ? ? ? ? ? ? ? [timer|] ? ? ? ?];
    simpl in *; rewrite He; reflexivity.
Qed.

Lemma prepare_security_token_run (X : Externals) (request : OpenSecureChannelRequest)
    (self : Channel) (l : Z) :
  revisedLifeTime self = Some l ->
  expired X (new_token self) (clock self) = false ->
  _prepare_security_token X request self =
  (Returned tt,
   set__securityTokenTimeout (Some (new_watch_dog self))
     (set_securityToken (Some (new_token self))
        (set_lastTokenId (lastTokenId self + 1) self)),
   []).
Proof.
  intros Hl He. unfold _prepare_security_token, bind, modify, ret.
  destruct (requestType request).
  - rewrite (add_new_security_token_run X (set_securityToken None self) l Hl He). reflexivity.
  - rewrite stop_security_token_watch_dog_run. simpl.
    destruct (truthy (_securityTokenTimeout self)).
    + rewrite (add_new_security_token_run X
                 (set__securityTokenTimeout None (set_securityToken None self)) l Hl He).
      reflexivity.
    + rewrite (add_new_security_token_run X (set_securityToken None self) l Hl He).
      reflexivity.
  - rewrite (add_new_security_token_run X (set_securityToken None self) l Hl He). reflexivity.
Qed.

Lemma prepare_security_token_expired (X : Externals) (request : OpenSecureChannelRequest)
    (self : Channel) :
  expired X (new_token self) (clock self) = true ->
  _prepare_security_token X request self =
  (Thrown (AssertionError "!securityToken.expired"),
   set_lastTokenId (lastTokenId self + 1)
     (set__securityTokenTimeout None (set_securityToken None self)),
   []).
Proof.
  intros He. unfold _prepare_security_token, bind, modify, ret.
  destruct (requestType request).
  - rewrite (add_new_security_token_expired X (set_securityToken None self) He). reflexivity.
  - rewrite stop_security_token_watch_dog_run. simpl.
    destruct (truthy (_securityTokenTimeout self)).
    + rewrite (add_new_security_token_expired X
                 (set__securityTokenTimeout None (set_securityToken None self)) He).
      reflexivity.
    + rewrite (add_new_security_token_expired X (set_securityToken None self) He).
      reflexivity.
  - rewrite (add_new_security_token_expired X (set_securityToken None self) He). reflexivity.
Qed.

Lemma issue_or_renew_run (X : Externals) (now : Z) (request : OpenSecureChannelRequest)
    (self : Channel) :
  expired X (issued_token request (set_clock now self)) now = false ->
  exists token self',
    issue_or_renew X now request self = (Returned (Some token), self', []) /\
    securityToken self' = Some token /\
    tokenId token = lastTokenId self + 1 /\
    lastTokenId self' = lastTokenId self + 1.
Proof.
  intros He. unfold issue_or_renew, bind, modify, get, ret.
  rewrite set_lifetime_run.
  match goal with
  | |- context [_prepare_security_token X request ?c] =>
      rewrite (prepare_security_token_run X request c _ eq_refl He)
  end.
  simpl. do 2 eexists. split; [reflexivity|]. simpl. auto.
Qed.

Lemma issue_or_renew_expired (X : Externals) (now : Z) (request : OpenSecureChannelRequest)
    (self : Channel) :
  expired X (issued_token request (set_clock now self)) now = true ->
  exists self',
    issue_or_renew X now request self
    = (Thrown (AssertionError "!securityToken.expired"), self', []) /\
    lastTokenId self' = lastTokenId self + 1.
Proof.
  intros He. unfold issue_or_renew, bind, modify, get, ret.
  rewrite set_lifetime_run.
  match goal with
  | |- context [_prepare_security_token X request ?c] =>
      rewrite (prepare_security_token_expired X request c He)
  end.
  simpl. eexists. split; reflexivity.
Qed.

Lemma constructor_defaultSecureTokenLifetime (options : Options) (id now : Z) :
  defaultSecureTokenLifetime (fst (constructor options id now)) =
  match options_defaultSecureTokenLifetime options with
  | Some 0 | None => 600000
  | Some d => d
  end.
Proof.
  unfold constructor; simpl.
  destruct (options_defaultSecureTokenLifetime options) as [[| |]|]; reflexivity.
Qed.

(** C6: for a request whose [requestedLifetime] is not negative, [_set_lifetime] leaves
    in [revisedLifeTime] the server default [defaultSecureTokenLifetime] when the
    request asks for 0 and the smaller of the default and the requested lifetime
    otherwise; the token installed next, which the token class must not hold for
    expired at its creation, carries that value; with a positive default (600000 when
    the constructor is given none) it lies in (0, default]. *)
Theorem C6_revised_lifetime (X : Externals) (self : Channel)
    (request : OpenSecureChannelRequest) (now : Z) :
  0 <= requestedLifetime request ->
  0 < defaultSecureTokenLifetime self ->
  expired X (issued_token request (set_clock now self)) now = false ->
  exists revised self1 token self2,
    revised = (if requestedLifetime request =? 0 then defaultSecureTokenLifetime self
               else Z.min (defaultSecureTokenLifetime self) (requestedLifetime request)) /\
    _set_lifetime (requestedLifetime request) self = (Returned tt, self1, []) /\
    revisedLifeTime self1 = Some revised /\
    issue_or_renew X now request self = (Returned (Some token), self2, []) /\
    securityToken self2 = Some token /\
    tok_revisedLifeTime token = Some revised /\
    0 < revised <= defaultSecureTokenLifetime self.
Proof.
  intros Hreq Hdef He.
  exists (if requestedLifetime request =? 0 then defaultSecureTokenLifetime self
          else Z.min (defaultSecureTokenLifetime self) (requestedLifetime request)).
  rewrite set_lifetime_run.
  unfold issue_or_renew, bind, modify, get, ret.
  rewrite set_lifetime_run.
  match goal with
  | |- context [_prepare_security_token X request ?c] =>
      rewrite (prepare_security_token_run X request c _ eq_refl He)
  end.
  simpl. do 3 eexists.
  repeat (split; [reflexivity|]).
  destruct (Z.eqb_spec (requestedLifetime request) 0); lia.
Qed.

(** ** Token identifiers *)

(** Whether or not the token is installed, the operation takes the next identifier. *)
Lemma issue_or_renew_cases (X : Externals) (now : Z) (request : OpenSecureChannelRequest)
    (self : Channel) :
  let r := issue_or_renew X now request self in
  lastTokenId (final r) = lastTokenId self + 1 /\
  ((exists token, outcome r = Returned (Some token) /\
                  tokenId token = lastTokenId self + 1) \/
   (exists e, outcome r = Thrown e)).
Proof.
  intros r. subst r.
  destruct (expired X (issued_token request (set_clock now self)) now) eqn:He.
  - destruct (issue_or_renew_expired X now request self He) as (self' & -> & Hlast).
    split; [exact Hlast|]. right. eexists. reflexivity.
  - destruct (issue_or_renew_run X now request self He)
      as (token & self' & -> & _ & Hid & Hlast).
    split; [exact Hlast|]. left. exists token. split; [reflexivity | exact Hid].
Qed.

Lemma issued_tokens_length (X : Externals) (requests : list (Z * OpenSecureChannelRequest)) :
  forall self, (List.length (issued_tokens X requests self) <= List.length requests)%nat.
Proof.
  induction requests as [|[now request] rest IH]; intros self; [reflexivity|].
  cbn [issued_tokens List.length].
  specialize (IH (final (issue_or_renew X now request self))).
  destruct (outcome (issue_or_renew X now request self)) as [[token|]|e];
    cbn [List.length]; lia.
Qed.

Lemma issued_tokens_sorted (X : Externals) (requests : list (Z * OpenSecureChannelRequest)) :
  forall self,
    Forall (fun i => lastTokenId self < i) (map tokenId (issued_tokens X requests self)) /\
    StronglySorted Z.lt (map tokenId (issued_tokens X requests self)).
Proof.
  induction requests as [|[now request] rest IH]; intros self.
  - split; constructor.
  - cbn [issued_tokens].
    destruct (issue_or_renew_cases X now request self) as (Hlast & Hcase).
    destruct (IH (final (issue_or_renew X now request self))) as (Hlow & Hsorted).
    rewrite Hlast in Hlow.
    assert (Hlow' : Forall (fun i => lastTokenId self < i)
                      (map tokenId (issued_tokens X rest
                                      (final (issue_or_renew X now request self))))).
    { eapply Forall_impl; [|exact Hlow]. cbn beta. intros i Hi. lia. }
    destruct Hcase as [(token & -> & Hid)|(e & ->)].
    + cbn [map]. split.
      * constructor; [lia | exact Hlow'].
      * constructor; [exact Hsorted|]. rewrite Hid. exact Hlow.
    + split; assumption.
Qed.

Lemma issued_tokens_ids (X : Externals) (requests : list (Z * OpenSecureChannelRequest)) :
  forall self,
    List.length (issued_tokens X requests self) = List.length requests ->
    map tokenId (issued_tokens X requests self) =
    map (fun k => lastTokenId self + Z.of_nat k) (seq 1 (List.length requests)).
Proof.
  induction requests as [|[now request] rest IH]; intros self Hall; [reflexivity|].
  cbn [issued_tokens] in *.
  destruct (issue_or_renew_cases X now request self) as (Hlast & Hcase).
  pose proof (issued_tokens_length X rest (final (issue_or_renew X now request self)))
    as Hle.
  destruct Hcase as [(token & Hrun & Hid)|(e & Hrun)]; rewrite Hrun in *;
    cbn [List.length] in Hall; [|lia].
  cbn [map List.length seq]. rewrite IH by lia. rewrite Hid, Hlast. f_equal.
  rewrite <- (seq_shift (List.length rest) 1), map_map. apply map_ext. intros k. lia.
Qed.

Lemma shifted_seq_sorted (a : Z) (n start : nat) :
  StronglySorted Z.lt (map (fun k => a + Z.of_nat k) (seq start n)).
Proof.
  revert start; induction n as [|n IH]; intros start; simpl; constructor; auto.
  apply Forall_forall. intros x Hx. apply in_map_iff in Hx.
  destruct Hx as (k & <- & Hk). apply in_seq in Hk. lia.
Qed.

(** C8: on a channel fresh from the constructor, the tokens installed by any sequence
    of issue and renew operations carry identifiers that start at 1 or above and each
    is greater than all those before it; when every operation of the sequence installs
    its token, the identifiers are 1, 2, 3, ... in that order, so that the first is 1. *)
Theorem C8_token_ids_increase (X : Externals) (options : Options) (id now : Z)
    (requests : list (Z * OpenSecureChannelRequest)) :
  let self := fst (constructor options id now) in
  let ids := map tokenId (issued_tokens X requests self) in
  StronglySorted Z.lt ids /\
  Forall (fun i => 1 <= i) ids /\
  (List.length ids = List.length requests ->
   ids = map Z.of_nat (seq 1 (List.length requests))).
Proof.
  intros self ids. subst ids.
  destruct (issued_tokens_sorted X requests self) as (Hlow & Hsorted).
  split; [exact Hsorted|]. split.
  - eapply Forall_impl; [|exact Hlow]. cbn beta. intros i Hi.
    unfold self, constructor in Hi. simpl in Hi. lia.
  - rewrite length_map. intros Hall. rewrite (issued_tokens_ids X requests self Hall).
    apply map_ext. intros k. unfold self, constructor. simpl. reflexivity.
Qed.

(** ** The expiry watchdog *)



(** ** Traces without a response *)

Lemma sendfree_nil : sendfree [].
Proof. intros t o r []. Qed.

Lemma sendfree_app (a b : list Event) : sendfree a -> sendfree b -> sendfree (a ++ b).
Proof.
  intros Ha Hb t o r H. apply in_app_or in H. destruct H; [eapply Ha | eapply Hb]; eauto.
Qed.

Lemma sendfree_cons (e : Event) (evs : list Event) :
  (forall t o r, e <> chunkSecureMessage t o r) -> sendfree evs -> sendfree (e :: evs).
Proof.
  intros He Hs t o r [H|H]; [eapply He | eapply Hs]; eauto.
Qed.

Lemma sendfree_map_write (chunks : list Buffer) : sendfree (map transport_write chunks).
Proof.
  intros t o r H. apply in_map_iff in H. destruct H as (? & ? & _). discriminate.
Qed.

Create HintDb trace.
#[local] Hint Resolve sendfree_nil sendfree_app sendfree_cons sendfree_map_write : trace.
#[local] Hint Extern 1 (_ <> chunkSecureMessage _ _ _) => discriminate : trace.
#[local] Hint Extern 2 (forall t o r, _ <> chunkSecureMessage t o r) =>
  intros; discriminate : trace.

Lemma in_sendfree_app (a b : list Event) (e : Event) :
  sendfree a -> (exists t o r, e = chunkSecureMessage t o r) ->
  In e (a ++ b) -> In e b.
Proof.
  intros Ha (t & o & r & ->) H. apply in_app_or in H. destruct H as [H|H]; auto.
  exfalso. eapply Ha; eauto.
Qed.

Lemma observer_init_callback : observer (fun err => emit (init_callback err)).
Proof.
  intros err c. eexists. split; [reflexivity|]. auto with trace.
Qed.

Lemma observer_noop : observer (fun _ => ret tt).
Proof.
  intros err c. eexists. split; [reflexivity|]. auto with trace.
Qed.

(** ** Termination of the channel *)

Lemma abort_run (self : Channel) :
  _abort self = (Returned tt, abort_state self, abort_events self).
Proof.
  unfold _abort, abort_state, abort_events, _cleanup_pending_timers,
    _stop_open_channel_watch_dog, bind, get, modify, emit, ret.
  destruct (_abort_has_been_called self); [reflexivity|].
  rewrite stop_security_token_watch_dog_run. simpl.
  destruct (truthy (_securityTokenTimeout self)); simpl;
    destruct (truthy (timeoutId self)); reflexivity.
Qed.

Lemma abort_state_aborted (self : Channel) : _abort_has_been_called (abort_state self) = true.
Proof.
  unfold abort_state. destruct (_abort_has_been_called self) eqn:E; [exact E|].
  simpl. destruct (truthy (_securityTokenTimeout self)); simpl;
    destruct (truthy (timeoutId self)); reflexivity.
Qed.

Lemma abort_state_clientCertificate (self : Channel) :
  clientCertificate (abort_state self) = clientCertificate self.
Proof.
  unfold abort_state. destruct (_abort_has_been_called self); [reflexivity|].
  simpl. destruct (truthy (_securityTokenTimeout self)); simpl;
    destruct (truthy (timeoutId self)); reflexivity.
Qed.

Lemma sendfree_abort_events (self : Channel) : sendfree (abort_events self).
Proof. unfold abort_events. destruct (_abort_has_been_called self); auto with trace. Qed.

#[local] Hint Resolve sendfree_abort_events : trace.

Lemma close_run (callback : option (M unit)) (self : Channel) (tcp : ServerTCP_transport) :
  transport self = Some tcp ->
  close callback self =
  match call callback (abort_state self) with
  | (o, c, e) => (o, c, transport_disconnect :: abort_events self ++ e)
  end.
Proof.
  intros Ht. unfold close, bind, get, emit. rewrite Ht, abort_run.
  destruct (call callback (abort_state self)) as [[o c] e]. reflexivity.
Qed.

Lemma abort_state_transport (self : Channel) : transport (abort_state self) = transport self.
Proof.
  unfold abort_state. destruct (_abort_has_been_called self); [reflexivity|].
  simpl. destruct (truthy (_securityTokenTimeout self)); simpl;
    destruct (truthy (timeoutId self)); reflexivity.
Qed.

(** ** The send path *)

Lemma chunker_calls_back_run (callback : option (M unit)) (chunks : list Buffer) (c : Channel) :
  chunker_calls_back callback chunks c =
  match call callback c with
  | (o, c', e) => (o, c', map transport_write chunks ++ emit_transaction_done :: e)
  end.
Proof.
  induction chunks as [|chunk rest IH]; simpl.
  - unfold _send_chunk, bind, emit.
    destruct (call callback c) as [[o c'] e]. reflexivity.
  - unfold bind, emit. rewrite IH.
    destruct (call callback c) as [[o c'] e]. reflexivity.
Qed.

Section SendPath.

Variable X : Externals.

Lemma getCertificateChain_pure (c : Channel) :
  getCertificateChain c =
  (match parent c with
   | Some p => Returned (certificateChain p)
   | None => Thrown (AssertionError "expecting a valid parent")
   end, c, []).
Proof.
  unfold getCertificateChain, bind, get, ret, throw. destruct (parent c); reflexivity.
Qed.

Lemma getSignatureLength_pure (c : Channel) :
  exists o, getSignatureLength X c = (o, c, []).
Proof.
  unfold getSignatureLength, bind. rewrite getCertificateChain_pure.
  destruct (parent c) as [p|]; [|eexists; reflexivity].
  unfold ret, throw.
  destruct (split_der X (certificateChain p)) as [|s ?]; [eexists; reflexivity|].
  destruct (exploreCertificate X s); eexists; reflexivity.
Qed.

Lemma security_options_for_OPN_pure (c : Channel) :
  exists o, _get_security_options_for_OPN X c = (o, c, []).
Proof.
  unfold _get_security_options_for_OPN, bind, get, ret, throw, assert.
  destruct (securityMode c); try (eexists; reflexivity);
    (destruct (cryptoFactory (messageBuilder c)); [|eexists; reflexivity];
     destruct (getSignatureLength_pure c) as [[n|e] ->]; [|eexists; reflexivity];
     destruct (0 <=? receiverPublicKeyLength c); eexists; reflexivity).
Qed.

Lemma security_options_for_MSG_pure (c : Channel) :
  exists o, _get_security_options_for_MSG c = (o, c, []).
Proof.
  unfold _get_security_options_for_MSG, bind, get, ret, throw.
  destruct (securityMode c); try (eexists; reflexivity);
    (destruct (cryptoFactory (messageBuilder c)); [|eexists; reflexivity];
     destruct (derivedKeys c); eexists; reflexivity).
Qed.

Lemma send_response_cases (t : MsgType) (response : Response) (message : Message)
    (callback : option (M unit)) (self : Channel) :
  (exists e c', send_response X t response message callback self = (Thrown e, c', [])) \/
  (exists options tcp,
      transport self = Some tcp /\
      send_response X t response message callback self =
      match call callback (counted t self) with
      | (o, c2, e) =>
          (o, c2,
           chunkSecureMessage t options (answered message response)
             :: map transport_write (chunks_of X t options (answered message response))
             ++ emit_transaction_done :: e)
      end).
Proof.
  unfold send_response, bind, assert, get, modify, emit, ret, throw.
  destruct (0 <? requestId message); [|left; do 2 eexists; reflexivity].
  cbn [securityToken set_msgType transport].
  destruct (securityToken self) as [token|]; [|left; do 2 eexists; reflexivity].
  destruct (transport self) as [tcp|]; [|left; do 2 eexists; reflexivity].
  set (c := set_msgType (Some t) self).
  assert (Hopt : exists o,
             (if MsgType_eqb t OPN then _get_security_options_for_OPN X
              else _get_security_options_for_MSG) c = (o, c, [])).
  { destruct (MsgType_eqb t OPN);
      [apply security_options_for_OPN_pure | apply security_options_for_MSG_pure]. }
  destruct Hopt as [[security|e] ->]; [|left; do 2 eexists; reflexivity].
  right. do 2 eexists. split; [reflexivity|].
  rewrite chunker_calls_back_run. unfold counted, answered. fold c.
  destruct (call callback _) as [[o c2] e2]. reflexivity.
Qed.

End SendPath.

(** ** The handshake, block by block *)

Section Handshake.

Variable X : Externals.

Lemma handle_unfold (message : Message) (callback : option string -> M unit) :
  _handle_OpenSecureChannelRequest X message callback =
  match request message with
  | OpenSecureChannelRequest_ request =>
      assert (0 <? requestId message) "requestId && requestId > 0" ;;
      modify (set_clientNonce (osc_clientNonce request)) ;;
      _set_lifetime (requestedLifetime request) ;;
      _prepare_security_token X request ;;
      self <- get ;;
      result <- nonce_block X self ;;
      after_nonce X message callback request result
  | _ => throw (AssertionError "request._schema.name === OpenSecureChannelRequest")
  end.
Proof. reflexivity. Qed.

Lemma handle_prefix (message : Message) (callback : option string -> M unit)
    (osc : OpenSecureChannelRequest) (self : Channel) :
  request message = OpenSecureChannelRequest_ osc ->
  (0 <? requestId message) = true ->
  expired X (issued_token osc self) (clock self) = false ->
  _handle_OpenSecureChannelRequest X message callback self =
  match nonce_block X (prepared osc self) (prepared osc self) with
  | (Returned result, c1, e1) =>
      match after_nonce X message callback osc result c1 with
      | (o, c, e) => (o, c, e1 ++ e)
      end
  | (Thrown e, c1, e1) => (Thrown e, c1, e1)
  end.
Proof.
  intros Hreq Hid He. rewrite handle_unfold, Hreq.
  unfold bind, assert, modify, get, ret. rewrite Hid.
  rewrite set_lifetime_run.
  match goal with
  | |- context [_prepare_security_token X osc ?c] =>
      rewrite (prepare_security_token_run X osc c _ eq_refl He)
  end.
  match goal with
  | |- context [nonce_block X ?c ?c] => change c with (prepared osc self)
  end.
  destruct (nonce_block X (prepared osc self) (prepared osc self)) as [[[result|e] c1] e1];
    [|reflexivity].
  destruct (after_nonce X message callback osc result c1) as [[o c] e]. reflexivity.
Qed.

(** The handler stops at the assertion on the new token when the token class holds
    it for expired: the token of the channel is deleted, its watchdog stopped and the
    identifier taken, and nothing has been sent. *)
Lemma handle_expired (message : Message) (callback : option string -> M unit)
    (osc : OpenSecureChannelRequest) (self : Channel) :
  request message = OpenSecureChannelRequest_ osc ->
  (0 <? requestId message) = true ->
  expired X (issued_token osc self) (clock self) = true ->
  _handle_OpenSecureChannelRequest X message callback self =
  (Thrown (AssertionError "!securityToken.expired"), unprepared osc self, []).
Proof.
  intros Hreq Hid He. rewrite handle_unfold, Hreq.
  unfold bind, assert, modify, get, ret. rewrite Hid.
  rewrite set_lifetime_run.
  match goal with
  | |- context [_prepare_security_token X osc ?c] =>
      rewrite (prepare_security_token_expired X osc c He)
  end.
  reflexivity.
Qed.

(** A request that is answered has passed the assertion on its token. *)
Lemma sent_not_expired (message : Message) (callback : option string -> M unit)
    (osc : OpenSecureChannelRequest) (self : Channel)
    (t : MsgType) (o : ChunkOptions) (response : Response) :
  request message = OpenSecureChannelRequest_ osc ->
  In (chunkSecureMessage t o response)
    (events (_handle_OpenSecureChannelRequest X message callback self)) ->
  expired X (issued_token osc self) (clock self) = false.
Proof.
  intros Hreq Hin.
  destruct (expired X (issued_token osc self) (clock self)) eqn:He; [|reflexivity].
  exfalso. destruct (0 <? requestId message) eqn:Hid.
  - rewrite (handle_expired message callback osc self Hreq Hid He) in Hin. destruct Hin.
  - rewrite handle_unfold, Hreq in Hin. unfold bind, assert in Hin. rewrite Hid in Hin.
    destruct Hin.
Qed.

Lemma server_nonce_length (factory : CryptoFactory) (self : Channel) :
  List.length (server_nonce_of X factory self) = symmetricKeyLength factory.
Proof. unfold server_nonce_of. rewrite length_map, length_seq. reflexivity. Qed.

Lemma nonce_block_without_factory (self : Channel) :
  cryptoFactory (messageBuilder self) = None ->
  nonce_block X self self = (Returned Good, self, []).
Proof. intros H. unfold nonce_block. rewrite H. reflexivity. Qed.

Lemma nonce_block_without_client_nonce (self : Channel) (factory : CryptoFactory) :
  cryptoFactory (messageBuilder self) = Some factory ->
  clientNonce self = None ->
  nonce_block X self self =
  (Thrown (TypeError "self.clientNonce.length"), with_nonce X factory self, []).
Proof.
  intros Hf Hc. unfold nonce_block, randomBytes, bind, get, modify, ret, throw.
  rewrite Hf. cbn [clientNonce set_serverNonce set_entropyCursor]. rewrite Hc. reflexivity.
Qed.

Lemma nonce_block_with_factory (self : Channel) (factory : CryptoFactory) (client : Buffer) :
  cryptoFactory (messageBuilder self) = Some factory ->
  clientNonce self = Some client ->
  nonce_block X self self =
  (Returned (if (List.length client =? symmetricKeyLength factory)%nat
             then Good else BadSecurityModeRejected),
   set_derivedKeys
     (Some (compute_derived_keys factory (server_nonce_of X factory self) client))
     (with_nonce X factory self),
   (if (List.length client =? symmetricKeyLength factory)%nat then []
    else [console_log "warning client Nonce length doesn't match server nonce length"])
   ++ [compute_derived_keys_call (server_nonce_of X factory self) client]).
Proof.
  intros Hf Hc. unfold nonce_block, randomBytes, bind, get, modify, ret, throw, emit.
  rewrite Hf. cbn [clientNonce set_serverNonce set_entropyCursor]. rewrite Hc.
  fold (server_nonce_of X factory self). rewrite server_nonce_length.
  destruct (List.length client =? symmetricKeyLength factory)%nat; reflexivity.
Qed.

Lemma nonce_block_sendfree (self : Channel) : sendfree (events (nonce_block X self self)).
Proof.
  destruct (cryptoFactory (messageBuilder self)) as [factory|] eqn:Hf.
  - destruct (clientNonce self) as [client|] eqn:Hc.
    + rewrite (nonce_block_with_factory self factory client Hf Hc). unfold events; simpl.
      destruct (List.length client =? symmetricKeyLength factory)%nat; auto with trace.
    + rewrite (nonce_block_without_client_nonce self factory Hf Hc). auto with trace.
  - rewrite (nonce_block_without_factory self Hf). auto with trace.
Qed.

Lemma nonce_block_outcome (self : Channel) :
  let r := nonce_block X self self in
  securityMode (final r) = securityMode self /\
  clientSecurityHeader (final r) = clientSecurityHeader self /\
  parent (final r) = parent self /\
  clock (final r) = clock self /\
  transport (final r) = transport self /\
  _abort_has_been_called (final r) = _abort_has_been_called self /\
  forall result, outcome r = Returned result ->
    result = Good \/ result = BadSecurityModeRejected.
Proof.
  intros r. subst r.
  destruct (cryptoFactory (messageBuilder self)) as [factory|] eqn:Hf.
  - destruct (clientNonce self) as [client|] eqn:Hc.
    + rewrite (nonce_block_with_factory self factory client Hf Hc).
      unfold final, outcome; cbn. repeat (split; [reflexivity|]).
      intros result [= <-].
      destruct (List.length client =? symmetricKeyLength factory)%nat; auto.
    + rewrite (nonce_block_without_client_nonce self factory Hf Hc).
      unfold final, outcome; cbn. repeat (split; [reflexivity|]). discriminate.
  - rewrite (nonce_block_without_factory self Hf).
    unfold final, outcome; cbn. repeat (split; [reflexivity|]).
    intros result [= <-]. auto.
Qed.

Lemma prepare_security_header_pure (osc : OpenSecureChannelRequest) (message : Message)
    (c : Channel) :
  exists o, _prepare_security_header X osc message c = (o, c, []).
Proof.
  unfold _prepare_security_header, bind, assert, get, ret, throw.
  destruct (osc_securityMode osc); try (eexists; reflexivity).
  - destruct (match msg_securityHeader message with
              | Some header => String.eqb (securityPolicyUri header) SecurityPolicy_None_uri
              | None => true
              end); eexists; reflexivity.
  - destruct (clientSecurityHeader c); [|eexists; reflexivity].
    rewrite getCertificateChain_pure. destruct (parent c); eexists; reflexivity.
  - destruct (clientSecurityHeader c); [|eexists; reflexivity].
    rewrite getCertificateChain_pure. destruct (parent c); eexists; reflexivity.
Qed.

Lemma check_receiverCertificateThumbprint_run
    (header : AsymmetricAlgorithmSecurityHeader) (c : Channel) :
  _check_receiverCertificateThumbprint X header c =
  (match receiverCertificateThumbprint header with
   | Some thumbprint =>
       match parent c with
       | Some p =>
           Returned (String.eqb
                       (toString_hex (makeSHA1Thumbprint X (certificateChain p)))
                       (toString_hex thumbprint))
       | None => Thrown (AssertionError "expecting a valid parent")
       end
   | None => Returned true
   end, c, []).
Proof.
  unfold _check_receiverCertificateThumbprint, bind, ret.
  destruct (receiverCertificateThumbprint header); [|reflexivity].
  rewrite getCertificateChain_pure. destruct (parent c); reflexivity.
Qed.

Lemma thumbprint_block_pure (self : Channel) (response : Response) (c : Channel) :
  exists o e,
    thumbprint_block X self response c = (o, c, e) /\ sendfree e /\
    forall r', o = Returned r' ->
      r' = response \/ r' = set_serviceResult BadCertificateInvalid response.
Proof.
  unfold thumbprint_block.
  destruct (negb (MessageSecurityMode_eqb (securityMode self) NONE)).
  - destruct (clientSecurityHeader self) as [client|].
    + unfold bind. rewrite check_receiverCertificateThumbprint_run.
      destruct (receiverCertificateThumbprint client) as [thumbprint|].
      * destruct (parent c) as [p|].
        -- destruct (String.eqb _ _); do 2 eexists;
             (split; [reflexivity|]; split; [auto with trace|]).
           ++ intros r' [= <-]. auto.
           ++ intros r' [= <-]. auto.
        -- do 2 eexists. split; [reflexivity|]. split; [auto with trace|]. discriminate.
      * do 2 eexists. split; [reflexivity|]. split; [auto with trace|].
        intros r' [= <-]. auto.
    + do 2 eexists. split; [reflexivity|]. split; [auto with trace|]. discriminate.
  - do 2 eexists. split; [reflexivity|]. split; [auto with trace|].
    intros r' [= <-]. auto.
Qed.

Lemma thumbprint_block_run (self : Channel) (response : Response) (c : Channel)
    (client : AsymmetricAlgorithmSecurityHeader) (thumbprint : Buffer)
    (p : OPCUAServerEndPoint) :
  securityMode self <> NONE ->
  clientSecurityHeader self = Some client ->
  receiverCertificateThumbprint client = Some thumbprint ->
  parent c = Some p ->
  thumbprint_block X self response c =
  if String.eqb (toString_hex (makeSHA1Thumbprint X (certificateChain p)))
       (toString_hex thumbprint)
  then (Returned response, c, [])
  else (Returned (set_serviceResult BadCertificateInvalid response), c, [thumbprint_log]).
Proof.
  intros Hm Hc Ht Hp. unfold thumbprint_block.
  assert (E : negb (MessageSecurityMode_eqb (securityMode self) NONE) = true)
    by (destruct (securityMode self); try reflexivity; contradiction).
  rewrite E, Hc. unfold bind. rewrite check_receiverCertificateThumbprint_run, Ht, Hp.
  destruct (String.eqb _ _); reflexivity.
Qed.

Lemma thumbprint_block_skipped (self : Channel) (response : Response) (c : Channel) :
  securityMode self = NONE ->
  thumbprint_block X self response c = (Returned response, c, []).
Proof. intros H. unfold thumbprint_block. rewrite H. reflexivity. Qed.

Lemma thumbprint_block_missing (self : Channel) (response : Response) (c : Channel)
    (client : AsymmetricAlgorithmSecurityHeader) :
  clientSecurityHeader self = Some client ->
  receiverCertificateThumbprint client = None ->
  thumbprint_block X self response c = (Returned response, c, []).
Proof.
  intros Hc Ht. unfold thumbprint_block.
  destruct (negb (MessageSecurityMode_eqb (securityMode self) NONE)); [|reflexivity].
  rewrite Hc. unfold bind. rewrite check_receiverCertificateThumbprint_run, Ht. reflexivity.
Qed.

Lemma check_certificate_validity_run (der : Buffer) (cert : Certificate) (c : Channel) :
  exploreCertificate X der = Some cert ->
  exists e, _check_certificate_validity X (Some der) c = (Returned (validity cert (clock c)), c, e)
            /\ sendfree e.
Proof.
  intros H. unfold _check_certificate_validity, validity, bind, get, emit, ret. rewrite H.
  destruct (clock c <? notBefore cert); [eexists; split; [reflexivity|auto with trace]|].
  destruct (notAfter cert <=? clock c); eexists; (split; [reflexivity|auto with trace]).
Qed.

Lemma certificate_block_absent (self : Channel) (response : Response) (c : Channel) :
  clientCertificate self = None ->
  certificate_block X self response c = (Returned response, c, []).
Proof. intros H. unfold certificate_block. rewrite H. reflexivity. Qed.

Lemma certificate_block_run (self : Channel) (response : Response) (c : Channel)
    (der : Buffer) (cert : Certificate) :
  clientCertificate self = Some der ->
  exploreCertificate X der = Some cert ->
  exists e,
    certificate_block X self response c =
    (Returned (if StatusCode_eqb Good (validity cert (clock c)) then response
               else fault (validity cert (clock c))), c, e) /\ sendfree e.
Proof.
  intros Hc He. unfold certificate_block. rewrite Hc. cbn [truthy]. unfold bind.
  destruct (check_certificate_validity_run der cert c He) as (e & -> & Hs).
  destruct (StatusCode_eqb Good (validity cert (clock c))); cbn [negb];
    unfold emit, ret; eexists; (split; [reflexivity|]); auto with trace.
Qed.

Lemma certificate_block_pure (self : Channel) (response : Response) (c : Channel) :
  exists o e,
    certificate_block X self response c = (o, c, e) /\ sendfree e /\
    forall r', o = Returned r' ->
      r' = response \/
      exists der cert,
        clientCertificate self = Some der /\
        exploreCertificate X der = Some cert /\
        validity cert (clock c) <> Good /\
        r' = fault (validity cert (clock c)).
Proof.
  destruct (clientCertificate self) as [der|] eqn:Hc.
  - destruct (exploreCertificate X der) as [cert|] eqn:He.
    + destruct (certificate_block_run self response c der cert Hc He) as (e & -> & Hs).
      do 2 eexists. split; [reflexivity|]. split; [exact Hs|].
      intros r' [= <-].
      destruct (validity cert (clock c)) eqn:Hv; cbn;
        solve [left; reflexivity
              |right; exists der, cert; rewrite Hv; repeat split; auto; discriminate].
    + unfold certificate_block, _check_certificate_validity, bind, throw.
      rewrite Hc, He. cbn. do 2 eexists. split; [reflexivity|].
      split; [auto with trace|]. discriminate.
  - rewrite (certificate_block_absent self response c Hc).
    do 2 eexists. split; [reflexivity|]. split; [auto with trace|].
    intros r' [= <-]. auto.
Qed.

Lemma closing_callback_run (callback : option string -> M unit) (response : Response)
    (c : Channel) (tcp : ServerTCP_transport) :
  observer callback ->
  transport c = Some tcp ->
  exists e,
    sendfree e /\
    closing_callback callback response c =
    (Returned tt,
     (if is_bad response then abort_state c else c),
     (if is_bad response then transport_disconnect :: abort_events c else []) ++ e).
Proof.
  intros Hobs Ht. unfold closing_callback, is_bad, bind.
  destruct (negb (StatusCode_eqb (serviceResult (responseHeader response)) Good)).
  - rewrite (close_run None c tcp Ht). cbn [call]. unfold ret.
    destruct (Hobs None (abort_state c)) as (e & -> & Hs).
    exists e. split; [exact Hs|]. cbn. rewrite app_nil_r. reflexivity.
  - unfold ret. destruct (Hobs None c) as (e & -> & Hs).
    exists e. split; [exact Hs|]. reflexivity.
Qed.

(** ** Every run of the handler *)

Lemma after_header_cases (message : Message) (callback : option string -> M unit)
    (result : StatusCode) (c1 : Channel) (header : AsymmetricAlgorithmSecurityHeader) :
  observer callback ->
  let r := after_header X message callback result c1 header (set_securityHeader (Some header) c1) in
  failed r \/
  exists options response response1 e2 e3 tcp e4,
    thumbprint_block X (settled message header c1) (opn_response result c1)
      (settled message header c1) = (Returned response1, settled message header c1, e2) /\
    certificate_block X (settled message header c1) response1 (settled message header c1)
      = (Returned response, settled message header c1, e3) /\
    transport c1 = Some tcp /\
    sendfree e2 /\ sendfree e3 /\ sendfree e4 /\
    r = (Returned tt,
         (if is_bad response then abort_state (counted OPN (settled message header c1))
          else counted OPN (settled message header c1)),
         messageChunker_update header (option_map derivedServerKeys (derivedKeys c1))
            :: e2 ++ e3
            ++ chunkSecureMessage OPN options (answered message response)
            :: map transport_write (chunks_of X OPN options (answered message response))
            ++ emit_transaction_done
            :: (if is_bad response
                then transport_disconnect
                       :: abort_events (counted OPN (settled message header c1))
                else [])
            ++ e4).
Proof.
  intros Hobs r. subst r.
  unfold after_header, bind, emit, modify, get.
  change (set_clientCertificate (sender message) (set_securityHeader (Some header) c1))
    with (settled message header c1).
  set (c2 := settled message header c1).
  destruct (thumbprint_block_pure c2 (opn_response result c1) c2)
    as (o2 & e2 & E2 & Hs2 & _).
  rewrite E2.
  destruct o2 as [response1|x];
    [|left; split; [eexists; reflexivity | unfold events; cbn; auto with trace]].
  destruct (certificate_block_pure c2 response1 c2) as (o3 & e3 & E3 & Hs3 & _).
  rewrite E3.
  destruct o3 as [response|x];
    [|left; split; [eexists; reflexivity | unfold events; cbn; auto with trace]].
  destruct (send_response_cases X OPN response message
              (Some (closing_callback callback response)) c2)
    as [(x & c' & ->)|(options & tcp & Ht & ->)].
  - left. split; [eexists; reflexivity|].
    unfold events; cbn. rewrite app_nil_r. auto with trace.
  - cbn [call].
    destruct (closing_callback_run callback response (counted OPN c2) tcp Hobs Ht)
      as (e4 & Hs4 & ->).
    right. exists options, response, response1, e2, e3, tcp, e4.
    split; [reflexivity|]. split; [exact E3|]. split; [exact Ht|].
    split; [exact Hs2|]. split; [exact Hs3|]. split; [exact Hs4|].
    cbn. reflexivity.
Qed.

Lemma handle_cases (message : Message) (callback : option string -> M unit) (self : Channel) :
  observer callback ->
  failed (_handle_OpenSecureChannelRequest X message callback self) \/
  exists options response,
    answered_run X message self (_handle_OpenSecureChannelRequest X message callback self)
      options response.
Proof.
  intros Hobs.
  destruct (request message) as [osc| |] eqn:Hreq;
    try solve [left; rewrite handle_unfold, Hreq;
               split; [eexists; reflexivity | exact sendfree_nil]].
  destruct (0 <? requestId message) eqn:Hid;
    [|left; rewrite handle_unfold, Hreq; unfold bind, assert; rewrite Hid;
      split; [eexists; reflexivity | exact sendfree_nil]].
  destruct (expired X (issued_token osc self) (clock self)) eqn:He;
    [left; rewrite (handle_expired message callback osc self Hreq Hid He);
     split; [eexists; reflexivity | exact sendfree_nil]|].
  rewrite (handle_prefix message callback osc self Hreq Hid He).
  pose proof (nonce_block_sendfree (prepared osc self)) as Hs1.
  destruct (nonce_block X (prepared osc self) (prepared osc self)) as [[[result|x] c1] e1] eqn:En;
    [|left; split; [eexists; reflexivity | exact Hs1]].
  unfold events in Hs1; cbn in Hs1.
  unfold after_nonce, bind, get, emit, modify.
  destruct (prepare_security_header_pure osc message c1) as [[[header|]|x] Eh]; rewrite Eh;
    try solve [left; split; [eexists; reflexivity | unfold events; cbn; auto 10 with trace]].
  pose proof (after_header_cases message callback result c1 header Hobs) as H.
  cbn zeta in H.
  destruct (after_header X message callback result c1 header (set_securityHeader (Some header) c1))
    as [[o c] e] eqn:Ea.
  destruct H as [((x & Hx) & H)
                |(options & response & response1 & e2 & e3 & tcp & e4 & H2 & H3 & Ht & Hs2
                    & Hs3 & Hs4 & Hr)].
  - left. unfold outcome, events in *; cbn in *. subst o.
    split; [eexists; reflexivity | unfold events; cbn; auto with trace].
  - right. exists options, response, osc, result, c1, e1, header, response1, e2, e3, tcp, e4.
    repeat (split; [solve [reflexivity | assumption]|]).
    injection Hr as -> -> ->. reflexivity.
Qed.

End Handshake.

(** ** One response for each handshake message *)

Lemma StatusCode_eqb_eq (a b : StatusCode) : StatusCode_eqb a b = true <-> a = b.
Proof. destruct a, b; simpl; split; intros H; try reflexivity; discriminate. Qed.

Lemma is_bad_spec (response : Response) :
  is_bad response = true <-> serviceResult (responseHeader response) <> Good.
Proof.
  unfold is_bad. rewrite negb_true_iff. split.
  - intros H E. apply StatusCode_eqb_eq in E. congruence.
  - intros H. destruct (StatusCode_eqb _ Good) eqn:E; [|reflexivity].
    apply StatusCode_eqb_eq in E. contradiction.
Qed.

Lemma one_response_prefix (h : Z) (o : Outcome unit) (c : Channel) (e0 e : list Event) :
  sendfree e0 -> one_response h (o, c, e) -> one_response h (o, c, e0 ++ e).
Proof.
  intros H0 (pre & t & options & response & chunks & tail & Hp & Ht & Hh & He & Hbad).
  exists (e0 ++ pre), t, options, response, chunks, tail.
  unfold events, final in *; cbn in *. subst e.
  split; [auto with trace|]. split; [exact Ht|]. split; [exact Hh|].
  split; [rewrite app_assoc; reflexivity|exact Hbad].
Qed.

Section Dispatch.

Variable X : Externals.

Lemma answered_run_one_response (message : Message) (self : Channel)
    (r : Outcome unit * Channel * list Event) (options : ChunkOptions) (response : Response) :
  answered_run X message self r options response ->
  one_response (requestHandle (request message)) r.
Proof.
  intros (osc & result & c1 & e1 & header & response1 & e2 & e3 & tcp & e4 & _ & _ & _ & _
          & _ & _ & _ & Hs1 & Hs2 & Hs3 & Hs4 & ->).
  exists (e1 ++ pushNewToken (securityToken c1)
                  (option_map derivedClientKeys (derivedKeys c1))
             :: messageChunker_update header (option_map derivedServerKeys (derivedKeys c1))
             :: e2 ++ e3),
    OPN, options, (answered message response),
    (chunks_of X OPN options (answered message response)),
    ((if is_bad response
      then transport_disconnect :: abort_events (counted OPN (settled message header c1))
      else []) ++ e4).
  split; [auto 10 with trace|].
  split; [destruct (is_bad response); cbn; auto 10 with trace|].
  split; [reflexivity|].
  split.
  - unfold events; cbn. rewrite <- !app_assoc. cbn. rewrite <- !app_assoc. reflexivity.
  - intros Hbad.
    assert (E : is_bad response = true) by (apply is_bad_spec; exact Hbad).
    unfold final; cbn. rewrite E.
    split; [eexists; reflexivity|apply abort_state_aborted].
Qed.

Lemma handle_one_response (message : Message) (callback : option string -> M unit)
    (self : Channel) :
  observer callback ->
  sendfree (events (_handle_OpenSecureChannelRequest X message callback self)) \/
  one_response (requestHandle (request message))
    (_handle_OpenSecureChannelRequest X message callback self).
Proof.
  intros Hobs.
  destruct (handle_cases X message callback self Hobs) as [(_ & H)|(options & response & H)];
    [left; exact H|right; eapply answered_run_one_response; exact H].
Qed.

Lemma send_error_cases (status : StatusCode) (description : string) (message : Message)
    (callback : option string -> M unit) (self : Channel) :
  observer callback ->
  failed (_send_error X status description message callback self) \/
  exists options tcp e4,
    transport self = Some tcp /\ sendfree e4 /\
    _send_error X status description message callback self =
    (Returned tt, abort_state (counted MSG (set_securityMode NONE self)),
     chunkSecureMessage MSG options (answered message (error_fault status description))
       :: map transport_write
            (chunks_of X MSG options (answered message (error_fault status description)))
       ++ emit_transaction_done
       :: transport_disconnect :: abort_events (counted MSG (set_securityMode NONE self)) ++ e4).
Proof.
  intros Hobs. unfold _send_error, send_error_and_abort, bind, modify, assert.
  destruct (0 <? requestId message);
    [|left; split; [eexists; reflexivity | exact sendfree_nil]].
  unfold ret.
  fold (error_fault status description).
  destruct (send_response_cases X MSG (error_fault status description) message
              (Some (close (Some (callback (Some description)))))
              (set_securityMode NONE self))
    as [(x & c' & ->)|(options & tcp & Ht & ->)].
  - left. split; [eexists; reflexivity | exact sendfree_nil].
  - cbn [call].
    rewrite (close_run (Some (callback (Some description)))
               (counted MSG (set_securityMode NONE self)) tcp Ht).
    cbn [call].
    destruct (Hobs (Some description) (abort_state (counted MSG (set_securityMode NONE self))))
      as (e4 & -> & Hs4).
    right. exists options, tcp, e4. split; [exact Ht|]. split; [exact Hs4|]. reflexivity.
Qed.

Lemma send_error_one_response (status : StatusCode) (description : string) (message : Message)
    (callback : option string -> M unit) (self : Channel) :
  observer callback ->
  sendfree (events (_send_error X status description message callback self)) \/
  one_response (requestHandle (request message))
    (_send_error X status description message callback self).
Proof.
  intros Hobs.
  destruct (send_error_cases status description message callback self Hobs)
    as [(_ & H)|(options & tcp & e4 & Ht & Hs4 & ->)]; [left; exact H|right].
  exists [], MSG, options, (answered message (error_fault status description)),
    (chunks_of X MSG options (answered message (error_fault status description))),
    (transport_disconnect :: abort_events (counted MSG (set_securityMode NONE self)) ++ e4).
  split; [auto with trace|]. split; [auto 10 with trace|].
  split; [reflexivity|]. split; [reflexivity|].
  intros _. split; [eexists; reflexivity|apply abort_state_aborted].
Qed.

Lemma process_certificates_run (message : Message) (k : M unit) (c : Channel) :
  _process_certificates X message k c = k (certificates_processed X message c).
Proof.
  unfold _process_certificates, certificates_processed, sender, bind, modify, get, ret.
  cbn [receiverCertificate set_receiverCertificate set_receiverPublicKeyLength
         set_receiverPublicKey].
  destruct (match msg_securityHeader message with
            | Some header => senderCertificate header
            | None => None
            end) as [[|b der]|]; cbn.
  - destruct (k _) as [[o c2] e2]. reflexivity.
  - destruct (extractPublicKeyFromCertificate X (b :: der)) as [key|]; cbn;
      destruct (k _) as [[o c2] e2]; reflexivity.
  - destruct (k _) as [[o c2] e2]. reflexivity.
Qed.

Lemma certificates_processed_frame (message : Message) (c : Channel) :
  securityMode (certificates_processed X message c) = securityMode c /\
  clientSecurityHeader (certificates_processed X message c) = clientSecurityHeader c /\
  parent (certificates_processed X message c) = parent c /\
  messageBuilder (certificates_processed X message c) = messageBuilder c /\
  transport (certificates_processed X message c) = transport c /\
  clock (certificates_processed X message c) = clock c /\
  _abort_has_been_called (certificates_processed X message c) = _abort_has_been_called c.
Proof.
  unfold certificates_processed.
  destruct (sender message) as [[|b der]|]; cbn; auto 10.
  destruct (extractPublicKeyFromCertificate X (b :: der)); cbn; auto 10.
Qed.

Lemma quiet_ret {A : Type} (a : A) : quiet (ret a).
Proof. intros c. exact sendfree_nil. Qed.

Lemma quiet_get : quiet get.
Proof. intros c. exact sendfree_nil. Qed.

Lemma quiet_modify (f : Channel -> Channel) : quiet (modify f).
Proof. intros c. exact sendfree_nil. Qed.

Lemma quiet_throw {A : Type} (e : Exception) : quiet (@throw A e).
Proof. intros c. exact sendfree_nil. Qed.

Lemma quiet_assert (b : bool) (what : string) : quiet (assert b what).
Proof. destruct b; intros c; exact sendfree_nil. Qed.

Lemma quiet_emit (e : Event) :
  (forall t o r, e <> chunkSecureMessage t o r) -> quiet (emit e).
Proof. intros H c. unfold events; cbn. auto with trace. Qed.

Lemma quiet_bind {A B : Type} (m : M A) (f : A -> M B) :
  quiet m -> (forall a, quiet (f a)) -> quiet (bind m f).
Proof.
  intros Hm Hf c. unfold bind. specialize (Hm c).
  destruct (m c) as [[[a|x] c1] e1]; [|exact Hm].
  specialize (Hf a c1). destruct (f a c1) as [[o c2] e2].
  unfold events in *; cbn in *. auto with trace.
Qed.

Lemma mild_of_quiet (h : Z) (m : M unit) : quiet m -> mild h m.
Proof. intros H c. left. apply H. Qed.

Lemma mild_bind {A : Type} (h : Z) (m : M A) (f : A -> M unit) :
  quiet m -> (forall a, mild h (f a)) -> mild h (bind m f).
Proof.
  intros Hm Hf c. unfold bind. specialize (Hm c).
  destruct (m c) as [[[a|x] c1] e1]; [|left; exact Hm].
  specialize (Hf a c1). destruct (f a c1) as [[o c2] e2].
  unfold events in Hm; cbn in Hm.
  destruct Hf as [H|H].
  - left. unfold events in *; cbn in *. auto with trace.
  - right. apply one_response_prefix; assumption.
Qed.

Lemma mild_handle (message : Message) (callback : option string -> M unit) :
  observer callback ->
  mild (requestHandle (request message)) (_handle_OpenSecureChannelRequest X message callback).
Proof. intros Hobs c. apply handle_one_response. exact Hobs. Qed.

Lemma mild_send_error (status : StatusCode) (description : string) (message : Message)
    (callback : option string -> M unit) :
  observer callback ->
  mild (requestHandle (request message)) (_send_error X status description message callback).
Proof. intros Hobs c. apply send_error_one_response. exact Hobs. Qed.

Lemma mild_process_certificates (h : Z) (message : Message) (k : M unit) :
  mild h k -> mild h (_process_certificates X message k).
Proof. intros Hk c. rewrite process_certificates_run. apply Hk. Qed.

Lemma quiet_has_endpoint (mode : MessageSecurityMode) (policy : SecurityPolicy) :
  quiet (has_endpoint_for_security_mode_and_policy mode policy).
Proof.
  intros c. unfold has_endpoint_for_security_mode_and_policy, bind, get, ret.
  destruct (parent c); exact sendfree_nil.
Qed.

Lemma quiet_close_None : quiet (close None).
Proof.
  intros c. unfold close, bind, get, emit, throw.
  destruct (transport c); [|exact sendfree_nil].
  rewrite abort_run. unfold events; cbn. rewrite app_nil_r. auto with trace.
Qed.

#[local] Hint Resolve quiet_ret quiet_get quiet_modify quiet_throw quiet_assert
  quiet_has_endpoint quiet_close_None : trace.
#[local] Hint Extern 1 (quiet (emit _)) => apply quiet_emit; intros; discriminate : trace.

Lemma mild_initial_OpenSecureChannelRequest (message : Message)
    (callback : option string -> M unit) :
  observer callback ->
  mild (requestHandle (request message))
    (_on_initial_OpenSecureChannelRequest X message callback).
Proof.
  intros Hobs. unfold _on_initial_OpenSecureChannelRequest.
  apply mild_bind; [auto with trace|intros _].
  pose proof (mild_handle message callback Hobs) as Hh.
  pose proof (fun s d => mild_send_error s d message callback Hobs) as He.
  remember (requestHandle (request message)) as h eqn:Ehandle. clear Ehandle.
  destruct (request message) as [osc|h'|name h'].
  - destruct (msg_securityHeader message) as [header|]; [|apply mild_of_quiet; auto with trace].
    destruct (negb _); [apply He|].
    apply mild_bind; [auto with trace|intros _].
    apply mild_bind; [auto with trace|intros _].
    apply mild_bind; [auto with trace|intros self].
    apply mild_bind; [auto with trace|intros has].
    destruct (negb has); [apply He|].
    apply mild_bind; [auto with trace|intros _].
    apply mild_process_certificates. exact Hh.
  - apply mild_bind; [auto with trace|intros _]. apply He.
  - apply mild_bind; [auto with trace|intros _]. apply He.
Qed.

Lemma mild_initial_open_secure_channel_request (callback : option string -> M unit)
    (rq : Request) (t : MsgType) :
  observer callback ->
  mild (requestHandle rq) (_on_initial_open_secure_channel_request X callback rq t).
Proof.
  intros Hobs. unfold _on_initial_open_secure_channel_request,
    _cancel_wait_for_open_secure_channel_request_timeout.
  apply mild_bind; [auto with trace|intros _].
  apply mild_bind; [auto with trace|intros self].
  apply mild_bind; [auto with trace|intros _].
  apply mild_bind; [auto with trace|intros _].
  exact (mild_initial_OpenSecureChannelRequest
           {| request := rq;
              msg_securityHeader := mb_securityHeader (messageBuilder self);
              requestId := sequenceHeader_requestId (messageBuilder self) |} callback Hobs).
Qed.

Lemma mild_common_message (rq : Request) (t : MsgType) :
  mild (requestHandle rq) (_on_common_message X rq t).
Proof.
  unfold _on_common_message.
  apply mild_bind; [auto with trace|intros self].
  pose proof (mild_handle
                {| request := rq; msg_securityHeader := None;
                   requestId := sequenceHeader_requestId (messageBuilder self) |}
                (fun _ => ret tt) observer_noop) as Hh.
  cbn [request] in Hh.
  destruct t, rq; try exact Hh; apply mild_of_quiet; auto with trace;
    apply quiet_bind; auto with trace.
Qed.

Lemma mild_messageBuilder_emits_message (i : Incoming) :
  mild (requestHandle (in_request i)) (messageBuilder_emits_message X i).
Proof.
  unfold messageBuilder_emits_message.
  apply mild_bind; [auto with trace|intros _].
  apply mild_bind; [auto with trace|intros self].
  destruct (listener (messageBuilder self)).
  - apply mild_of_quiet. auto with trace.
  - apply mild_bind; [auto with trace|intros _].
    apply mild_initial_open_secure_channel_request. exact observer_init_callback.
  - apply mild_common_message.
Qed.

(** Each handshake either stops on an exception before it sends anything or returns
    having sent its one response. *)
Lemma settles_bind {A : Type} (h : Z) (m : M A) (f : A -> M unit) :
  quiet m -> (forall a, settles h (f a)) -> settles h (bind m f).
Proof.
  intros Hm Hf c. unfold bind. specialize (Hm c).
  destruct (m c) as [[[a|x] c1] e1].
  - specialize (Hf a c1). destruct (f a c1) as [[o c2] e2].
    unfold events in Hm; cbn in Hm.
    destruct Hf as [((x & Hx) & H)|(Ho & H)].
    + left. split; [exists x; exact Hx|]. unfold events in *; cbn in *. auto with trace.
    + right. split; [exact Ho|]. apply one_response_prefix; assumption.
  - left. split; [eexists; reflexivity|exact Hm].
Qed.

Lemma settles_throw (h : Z) (x : Exception) : settles h (throw x).
Proof. intros c. left. split; [eexists; reflexivity|exact sendfree_nil]. Qed.

Lemma settles_handle (message : Message) (callback : option string -> M unit) :
  observer callback ->
  settles (requestHandle (request message))
    (_handle_OpenSecureChannelRequest X message callback).
Proof.
  intros Hobs c.
  destruct (handle_cases X message callback c Hobs) as [H|(options & response & H)];
    [left; exact H|right].
  split; [|eapply answered_run_one_response; exact H].
  destruct H as (osc & result & c1 & e1 & header & response1 & e2 & e3 & tcp & e4 & H).
  decompose [and] H. match goal with E : _ = (Returned tt, _, _) |- _ => rewrite E end.
  reflexivity.
Qed.

Lemma settles_send_error (status : StatusCode) (description : string) (message : Message)
    (callback : option string -> M unit) :
  observer callback ->
  settles (requestHandle (request message))
    (_send_error X status description message callback).
Proof.
  intros Hobs c.
  pose proof (send_error_one_response status description message callback c Hobs) as H1.
  destruct (send_error_cases status description message callback c Hobs)
    as [H|(options & tcp & e4 & Ht & Hs4 & E)]; [left; exact H|right].
  split; [rewrite E; reflexivity|].
  destruct H1 as [H1|H1]; [|exact H1].
  exfalso. rewrite E in H1. eapply H1. left. reflexivity.
Qed.

Lemma settles_initial_OpenSecureChannelRequest (message : Message)
    (callback : option string -> M unit) :
  observer callback ->
  settles (requestHandle (request message))
    (_on_initial_OpenSecureChannelRequest X message callback).
Proof.
  intros Hobs. unfold _on_initial_OpenSecureChannelRequest.
  apply settles_bind; [auto with trace|intros _].
  pose proof (settles_handle message callback Hobs) as Hh.
  pose proof (fun s d => settles_send_error s d message callback Hobs) as He.
  remember (requestHandle (request message)) as h eqn:Ehandle. clear Ehandle.
  destruct (request message) as [osc|h'|name h'].
  - destruct (msg_securityHeader message) as [header|]; [|apply settles_throw].
    destruct (negb _); [apply He|].
    apply settles_bind; [auto with trace|intros _].
    apply settles_bind; [auto with trace|intros _].
    apply settles_bind; [auto with trace|intros self].
    apply settles_bind; [auto with trace|intros has].
    destruct (negb has); [apply He|].
    apply settles_bind; [auto with trace|intros _].
    intros c. rewrite process_certificates_run. apply Hh.
  - apply settles_bind; [auto with trace|intros _]. apply He.
  - apply settles_bind; [auto with trace|intros _]. apply He.
Qed.

Lemma settles_initial_open_secure_channel_request (callback : option string -> M unit)
    (rq : Request) (t : MsgType) :
  observer callback ->
  settles (requestHandle rq) (_on_initial_open_secure_channel_request X callback rq t).
Proof.
  intros Hobs. unfold _on_initial_open_secure_channel_request,
    _cancel_wait_for_open_secure_channel_request_timeout.
  apply settles_bind; [auto with trace|intros _].
  apply settles_bind; [auto with trace|intros self].
  apply settles_bind; [auto with trace|intros _].
  apply settles_bind; [auto with trace|intros _].
  exact (settles_initial_OpenSecureChannelRequest
           {| request := rq;
              msg_securityHeader := mb_securityHeader (messageBuilder self);
              requestId := sequenceHeader_requestId (messageBuilder self) |} callback Hobs).
Qed.

Lemma settles_renewal (osc : OpenSecureChannelRequest) :
  settles (osc_requestHandle osc) (_on_common_message X (OpenSecureChannelRequest_ osc) OPN).
Proof.
  unfold _on_common_message.
  apply settles_bind; [auto with trace|intros self].
  exact (settles_handle
           {| request := OpenSecureChannelRequest_ osc; msg_securityHeader := None;
              requestId := sequenceHeader_requestId (messageBuilder self) |}
           (fun _ => ret tt) observer_noop).
Qed.

(** The first request of a channel, when it is an OpenSecureChannelRequest that passes
    the policy and endpoint checks, reaches the handler on a channel whose security
    mode is the mode of the request and whose cached client security header is the
    header the builder has read. *)
Lemma initial_request_reaches_handler (callback : option string -> M unit)
    (osc : OpenSecureChannelRequest) (mt : MsgType) (self : Channel)
    (header : AsymmetricAlgorithmSecurityHeader) :
  (0 <? sequenceHeader_requestId (messageBuilder self)) = true ->
  mb_securityHeader (messageBuilder self) = Some header ->
  isValidSecurityPolicy (fromURI X (securityPolicyUri header)) = Good ->
  (forall p, parent self = Some p ->
     getEndpointDescription p (osc_securityMode osc) (fromURI X (securityPolicyUri header))
     <> None) ->
  exists self',
    _on_initial_open_secure_channel_request X callback (OpenSecureChannelRequest_ osc) mt self
    = _handle_OpenSecureChannelRequest X
        {| request := OpenSecureChannelRequest_ osc;
           msg_securityHeader := Some header;
           requestId := sequenceHeader_requestId (messageBuilder self) |} callback self' /\
    securityMode self' = osc_securityMode osc /\
    clientSecurityHeader self' = Some header /\
    parent self' = parent self /\
    cryptoFactory (messageBuilder self') = cryptoFactory (messageBuilder self) /\
    transport self' = transport self /\
    clock self' = clock self.
Proof.
  intros Hid Hheader Hpolicy Hendpoint.
  set (message := {| request := OpenSecureChannelRequest_ osc;
                     msg_securityHeader := Some header;
                     requestId := sequenceHeader_requestId (messageBuilder self) |}).
  set (c1 := set_securityMode (osc_securityMode osc)
               (set_clientSecurityHeader (Some header) (set_timeoutId None self))).
  set (c2 := set_messageBuilder
               (set_listener common_listener
                  (set_mb_securityMode (osc_securityMode osc) (messageBuilder c1))) c1).
  exists (certificates_processed X message c2).
  split.
  - unfold _on_initial_open_secure_channel_request,
      _cancel_wait_for_open_secure_channel_request_timeout,
      _on_initial_OpenSecureChannelRequest,
      has_endpoint_for_security_mode_and_policy, bind, modify, get, assert, ret.
    cbn -[_process_certificates _handle_OpenSecureChannelRequest _send_error].
    rewrite Hid, Hheader.
    cbn -[_process_certificates _handle_OpenSecureChannelRequest _send_error].
    rewrite Hpolicy.
    cbn -[_process_certificates _handle_OpenSecureChannelRequest _send_error].
    destruct (parent self) as [p|] eqn:Hp;
      cbn -[_process_certificates _handle_OpenSecureChannelRequest _send_error].
    + specialize (Hendpoint p eq_refl).
      destruct (getEndpointDescription p (osc_securityMode osc)
                  (fromURI X (securityPolicyUri header))); [|contradiction].
      cbn -[_process_certificates _handle_OpenSecureChannelRequest _send_error].
      rewrite process_certificates_run.
      fold message. change (certificates_processed X message _)
                      with (certificates_processed X message c2).
      destruct (_handle_OpenSecureChannelRequest X message callback
                  (certificates_processed X message c2)) as [[o c3] e3]. reflexivity.
    + rewrite process_certificates_run.
      fold message. change (certificates_processed X message _)
                      with (certificates_processed X message c2).
      destruct (_handle_OpenSecureChannelRequest X message callback
                  (certificates_processed X message c2)) as [[o c3] e3]. reflexivity.
  - destruct (certificates_processed_frame message c2)
      as (Hm & Hc & Hp & Hb & Ht & Hk & _).
    rewrite Hm, Hc, Hp, Hb, Ht, Hk. cbn. auto 10.
Qed.

End Dispatch.

(** ** Request handles and termination *)

Lemma answers_of_sendfree (h : Z) (evs : list Event) :
  sendfree evs -> Forall (answers_handle h) evs.
Proof.
  intros H. apply Forall_forall. intros [] Hin; cbn; trivial.
  exfalso. eapply H. exact Hin.
Qed.

Lemma answers_of_one_response (h : Z) (r : Outcome unit * Channel * list Event) :
  one_response h r -> Forall (answers_handle h) (events r).
Proof.
  intros (pre & t & options & response & chunks & tail & Hp & Ht & Hh & -> & _).
  apply Forall_app. split; [apply answers_of_sendfree; exact Hp|].
  constructor; [exact Hh|].
  apply Forall_app. split; [apply answers_of_sendfree; apply sendfree_map_write|].
  constructor; [exact I|apply answers_of_sendfree; exact Ht].
Qed.

Lemma one_response_sent (h : Z) (r : Outcome unit * Channel * list Event)
    (t : MsgType) (o : ChunkOptions) (response : Response) :
  one_response h r ->
  In (chunkSecureMessage t o response) (events r) ->
  rh_requestHandle (responseHeader response) = h /\
  (serviceResult (responseHeader response) <> Good ->
   sent_then_closed (events r) response /\ _abort_has_been_called (final r) = true).
Proof.
  intros (pre & t' & o' & response' & chunks & tail & Hp & Ht & Hh & He & Hbad) Hin.
  rewrite He in Hin. apply in_app_or in Hin.
  destruct Hin as [Hin|[Hin|Hin]]; [exfalso; eapply Hp; exact Hin| |].
  - injection Hin as -> -> ->. split; [exact Hh|]. intros Hne.
    destruct (Hbad Hne) as ((post & ->) & Hab). split; [|exact Hab].
    exists pre, t, o, chunks, post. exact He.
  - exfalso. apply in_app_or in Hin. destruct Hin as [Hin|[Hin|Hin]].
    + eapply sendfree_map_write; exact Hin.
    + discriminate.
    + eapply Ht; exact Hin.
Qed.

Lemma sent_responses_app (a b : list Event) :
  sent_responses (a ++ b) = sent_responses a ++ sent_responses b.
Proof.
  induction a as [|[] a IH]; cbn; try exact IH; [reflexivity|].
  rewrite IH. reflexivity.
Qed.

Lemma sent_responses_sendfree (evs : list Event) : sendfree evs -> sent_responses evs = [].
Proof.
  induction evs as [|e evs IH]; intros H; [reflexivity|].
  assert (Hrest : sendfree evs) by (intros t o r Hin; eapply H; right; exact Hin).
  destruct e; cbn; auto. exfalso. eapply H. left. reflexivity.
Qed.

Lemma one_response_alone (h : Z) (r : Outcome unit * Channel * list Event) :
  one_response h r ->
  exists t o response,
    sent_responses (events r) = [response] /\
    In (chunkSecureMessage t o response) (events r).
Proof.
  intros (pre & t & o & response & chunks & tail & Hp & Ht & _ & He & _).
  exists t, o, response. rewrite He. split.
  - rewrite sent_responses_app. cbn [sent_responses]. rewrite sent_responses_app.
    cbn [sent_responses].
    rewrite (sent_responses_sendfree pre Hp), (sent_responses_sendfree tail Ht),
      (sent_responses_sendfree _ (sendfree_map_write chunks)).
    reflexivity.
  - apply in_or_app. right. left. reflexivity.
Qed.

(** C9: [send_response] hands to the chunker the response with its
    [responseHeader.requestHandle] overwritten by the [requestHeader.requestHandle] of
    the request it answers (or throws before anything is sent); hence every response the
    channel itself sends while it handles a message of the builder, be it the first
    message of the channel or a later one, carries the request handle of that message. *)
Theorem C9_request_handle :
  (forall (X : Externals) (t : MsgType) (response : Response) (message : Message)
          (callback : option (M unit)) (self : Channel),
      let sent := set_requestHandle (requestHandle (request message)) response in
      rh_requestHandle (responseHeader sent) = requestHandle (request message) /\
      ((exists e c', send_response X t response message callback self = (Thrown e, c', [])) \/
       (exists options rest,
           events (send_response X t response message callback self) =
           chunkSecureMessage t options sent
             :: map transport_write (chunks_of X t options sent)
             ++ emit_transaction_done :: rest))) /\
  (forall (X : Externals) (rq : Request) (mt : MsgType) (self : Channel),
      Forall (answers_handle (requestHandle rq))
        (events (_on_initial_open_secure_channel_request X
                   (fun err => emit (init_callback err)) rq mt self)) /\
      Forall (answers_handle (requestHandle rq)) (events (_on_common_message X rq mt self))).
Proof.
  split.
  - intros X t response message callback self sent. split; [reflexivity|].
    destruct (send_response_cases X t response message callback self)
      as [H|(options & tcp & _ & H)]; [left; exact H|right].
    rewrite H. destruct (call callback (counted t self)) as [[o c2] e].
    exists options, e. reflexivity.
  - intros X rq mt self. split.
    + destruct (mild_initial_open_secure_channel_request X _ rq mt observer_init_callback self)
        as [H|H]; [apply answers_of_sendfree | apply answers_of_one_response]; exact H.
    + destruct (mild_common_message X rq mt self) as [H|H];
        [apply answers_of_sendfree | apply answers_of_one_response]; exact H.
Qed.

(** C7: a handshake -- the first message of a channel, or a later
    OpenSecureChannelRequest of type OPN -- that runs to its end has sent exactly one
    response; and whenever the channel, handling the first message of the builder or a
    later one, sends a response whose service result is not [Good] -- an
    OpenSecureChannelResponse or a ServiceFault -- the chunks of that response are
    written and the very next action is to disconnect the transport; the channel ends
    aborted. *)
Theorem C7_closes_after_bad_result (X : Externals) (rq : Request) (mt : MsgType)
    (self : Channel) (r : Outcome unit * Channel * list Event) :
  r = _on_initial_open_secure_channel_request X (fun err => emit (init_callback err))
        rq mt self \/
  r = _on_common_message X rq mt self ->
  (r = _on_initial_open_secure_channel_request X (fun err => emit (init_callback err))
         rq mt self \/
   (mt = OPN /\ exists osc, rq = OpenSecureChannelRequest_ osc) ->
   outcome r = Returned tt ->
   exists t o response,
     sent_responses (events r) = [response] /\
     In (chunkSecureMessage t o response) (events r)) /\
  (forall t o response,
      In (chunkSecureMessage t o response) (events r) ->
      serviceResult (responseHeader response) <> Good ->
      sent_then_closed (events r) response /\
      _abort_has_been_called (final r) = true).
Proof.
  intros Hr. split.
  - intros Hshake Hret.
    assert (H : failed r \/ (outcome r = Returned tt /\ one_response (requestHandle rq) r)).
    { destruct Hshake as [-> | (-> & osc & ->)].
      - apply (settles_initial_open_secure_channel_request X _ rq mt
                 observer_init_callback).
      - destruct Hr as [-> | ->];
          [apply (settles_initial_open_secure_channel_request X _ _ OPN
                    observer_init_callback)
          |apply settles_renewal]. }
    destruct H as [((x & Hx) & _)|(_ & H)]; [congruence|].
    exact (one_response_alone (requestHandle rq) r H).
  - intros t o response Hin Hbad.
    assert (H : sendfree (events r) \/ one_response (requestHandle rq) r).
    { destruct Hr as [-> | ->];
        [apply (mild_initial_open_secure_channel_request X _ rq mt observer_init_callback)
        |apply mild_common_message]. }
    destruct H as [H|H].
    + exfalso. eapply H. exact Hin.
    + destruct (one_response_sent (requestHandle rq) r t o response H Hin) as (_ & Hc).
      exact (Hc Hbad).
Qed.

(** ** What the handshake answers *)

#[local] Hint Resolve quiet_ret quiet_get quiet_modify quiet_throw quiet_assert
  quiet_has_endpoint quiet_close_None : trace.
#[local] Hint Extern 1 (quiet (emit _)) => apply quiet_emit; intros; discriminate : trace.

Section Answers.

Variable X : Externals.

Lemma handle_sent (message : Message) (callback : option string -> M unit) (self : Channel)
    (t : MsgType) (o : ChunkOptions) (response : Response) :
  observer callback ->
  In (chunkSecureMessage t o response)
    (events (_handle_OpenSecureChannelRequest X message callback self)) ->
  exists response',
    answered_run X message self (_handle_OpenSecureChannelRequest X message callback self)
      o response' /\
    t = OPN /\ response = answered message response'.
Proof.
  intros Hobs Hin.
  destruct (handle_cases X message callback self Hobs)
    as [(_ & H)|(options & response' & H)];
    [exfalso; eapply H; exact Hin|].
  pose proof (answered_run_one_response X message self _ options response' H) as H1.
  destruct H as (osc & result & c1 & e1 & header & response1 & e2 & e3 & tcp & e4 & Hreq & Hid
                 & En & Eh & E2 & E3 & Ht & Hs1 & Hs2 & Hs3 & Hs4 & Er).
  assert (Hin' := Hin). rewrite Er in Hin'. unfold events in Hin'; cbn in Hin'.
  apply in_app_or in Hin'. destruct Hin' as [Hin'|Hin']; [exfalso; eapply Hs1; exact Hin'|].
  destruct Hin' as [Hin'|[Hin'|Hin']]; try discriminate.
  apply in_app_or in Hin'. destruct Hin' as [Hin'|Hin']; [exfalso; eapply Hs2; exact Hin'|].
  apply in_app_or in Hin'. destruct Hin' as [Hin'|Hin']; [exfalso; eapply Hs3; exact Hin'|].
  destruct Hin' as [Hin'|Hin'].
  - injection Hin' as <- <- <-. exists response'. split; [|split; reflexivity].
    exists osc, result, c1, e1, header, response1, e2, e3, tcp, e4. auto 20.
  - exfalso. apply in_app_or in Hin'. destruct Hin' as [Hin'|[Hin'|Hin']].
    + eapply sendfree_map_write; exact Hin'.
    + discriminate.
    + apply in_app_or in Hin'. destruct Hin' as [Hin'|Hin']; [|eapply Hs4; exact Hin'].
      destruct (is_bad response'); [|destruct Hin'].
      destruct Hin' as [Hin'|Hin']; [discriminate|].
      eapply sendfree_abort_events; exact Hin'.
Qed.

(** C1 (amended): when the crypto factory is present and the client nonce has not the
    length of the key, hence of the server nonce, the derived keys are computed all the
    same from the server nonce and the client nonce, once the new token has passed
    the assertion that it is not expired; the service result of the handshake starts as [BadSecurityModeRejected], so that a response that is sent is
    the OpenSecureChannelResponse with [BadSecurityModeRejected], or with
    [BadCertificateInvalid] when the thumbprint check has replaced it, or a ServiceFault
    from the certificate check; it is never [Good], the client keys derived from the two
    nonces have been pushed to the message builder, and the channel closes after it. *)
Theorem C1_nonce_length_mismatch (message : Message) (callback : option string -> M unit)
    (self : Channel) (osc : OpenSecureChannelRequest) (factory : CryptoFactory)
    (client : Buffer) :
  observer callback ->
  request message = OpenSecureChannelRequest_ osc ->
  0 < requestId message ->
  expired X (issued_token osc self) (clock self) = false ->
  cryptoFactory (messageBuilder self) = Some factory ->
  osc_clientNonce osc = Some client ->
  List.length client <> symmetricKeyLength factory ->
  let nonce := map (entropy X) (seq (entropyCursor self) (symmetricKeyLength factory)) in
  let keys := compute_derived_keys factory nonce client in
  let r := _handle_OpenSecureChannelRequest X message callback self in
  List.length nonce = symmetricKeyLength factory /\
  In (compute_derived_keys_call nonce client) (events r) /\
  forall t o response,
    In (chunkSecureMessage t o response) (events r) ->
    serviceResult (responseHeader response) <> Good /\
    ((exists version token server,
         body response = OpenSecureChannelResponse version token server /\
         (serviceResult (responseHeader response) = BadSecurityModeRejected \/
          serviceResult (responseHeader response) = BadCertificateInvalid)) \/
     (exists description, body response = ServiceFault description)) /\
    (exists token, In (pushNewToken token (Some (derivedClientKeys keys))) (events r)) /\
    sent_then_closed (events r) response /\
    _abort_has_been_called (final r) = true.
Proof.
  intros Hobs Hreq Hid He Hf Hc Hlen nonce keys r.
  assert (Hid' : (0 <? requestId message) = true) by (apply Z.ltb_lt; exact Hid).
  assert (Hne : (List.length client =? symmetricKeyLength factory)%nat = false)
    by (apply Nat.eqb_neq; exact Hlen).
  pose proof (nonce_block_with_factory X (prepared osc self) factory client Hf Hc) as Hn.
  rewrite Hne in Hn.
  change (server_nonce_of X factory (prepared osc self)) with nonce in Hn.
  fold keys in Hn.
  split; [unfold nonce; rewrite length_map, length_seq; reflexivity|].
  split.
  - unfold r. rewrite (handle_prefix X message callback osc self Hreq Hid' He), Hn.
    destruct (after_nonce X _ _ _ _ _) as [[o c] e]. unfold events; cbn. auto.
  - intros t o response Hin.
    destruct (handle_sent message callback self t o response Hobs Hin)
      as (response' & Hrun & -> & ->).
    pose proof (answered_run_one_response X message self _ o response' Hrun) as H1.
    destruct (one_response_sent _ _ OPN o (answered message response') H1 Hin) as (_ & Hclose).
    destruct Hrun as (osc' & result & c1 & e1 & header & response1 & e2 & e3 & tcp & e4
                      & Hreq' & _ & En & _ & E2 & E3 & _ & _ & _ & _ & _ & Er).
    rewrite Hreq in Hreq'. injection Hreq' as <-.
    rewrite Hn in En. injection En as <- <- <-.
    match type of E2 with
    | thumbprint_block X ?s ?a ?c = _ =>
        destruct (thumbprint_block_pure X s a c) as (o2 & e2' & E2' & _ & Hv2)
    end.
    rewrite E2' in E2. injection E2 as -> _.
    match type of E3 with
    | certificate_block X ?s ?a ?c = _ =>
        destruct (certificate_block_pure X s a c) as (o3 & e3' & E3' & _ & Hv3)
    end.
    rewrite E3' in E3. injection E3 as -> _.
    specialize (Hv2 _ eq_refl). specialize (Hv3 _ eq_refl).
    assert (Hres : serviceResult (responseHeader (answered message response')) <> Good /\
                   ((exists version token server,
                        body (answered message response')
                        = OpenSecureChannelResponse version token server /\
                        (serviceResult (responseHeader (answered message response'))
                         = BadSecurityModeRejected \/
                         serviceResult (responseHeader (answered message response'))
                         = BadCertificateInvalid)) \/
                    (exists description,
                        body (answered message response') = ServiceFault description))).
    { destruct Hv3 as [->|(der & cert & _ & _ & Hbad & ->)].
      - destruct Hv2 as [->| ->]; cbn; (split; [discriminate|]); left;
          do 3 eexists; (split; [reflexivity|]); auto.
      - cbn. split; [exact Hbad|]. right. eexists; reflexivity. }
    destruct Hres as (Hbad & Hform).
    split; [exact Hbad|]. split; [exact Hform|].
    split; [|exact (Hclose Hbad)].
    eexists. unfold r. rewrite Er. unfold events; cbn.
    right. right. left. reflexivity.
Qed.

Lemma validity_cases (cert : Certificate) (now : Z) :
  validity cert now = Good \/ validity cert now = BadCertificateTimeInvalid.
Proof.
  unfold validity. destruct (now <? notBefore cert); auto.
  destruct (notAfter cert <=? now); auto.
Qed.

(** C2 (amended): on a channel whose security mode is not [NONE], whose cached client
    security header carries a thumbprint, and whose endpoint's chain is the server
    certificate alone, the thumbprint is compared, byte for byte through the lowercase
    hexadecimal forms, with the SHA-1 digest of the server certificate; when they
    differ the service result of the OpenSecureChannelResponse is set to
    [BadCertificateInvalid], and that response is the one sent unless the client
    certificate fails its validity check, in which case a ServiceFault with the status
    of that check is sent in its place; when they are equal no response carries
    [BadCertificateInvalid]. *)
Theorem C2_thumbprint_check (message : Message) (callback : option string -> M unit)
    (self : Channel) (client : AsymmetricAlgorithmSecurityHeader) (thumbprint : Buffer)
    (p : OPCUAServerEndPoint) :
  observer callback ->
  securityMode self <> NONE ->
  clientSecurityHeader self = Some client ->
  receiverCertificateThumbprint client = Some thumbprint ->
  parent self = Some p ->
  split_der X (certificateChain p) = [certificateChain p] ->
  let serverCertificate := nth 0 (split_der X (certificateChain p)) [] in
  let expected := makeSHA1Thumbprint X serverCertificate in
  let r := _handle_OpenSecureChannelRequest X message callback self in
  _check_receiverCertificateThumbprint X client self =
    (Returned (String.eqb (toString_hex expected) (toString_hex thumbprint)), self, []) /\
  (String.eqb (toString_hex expected) (toString_hex thumbprint) = true
   <-> thumbprint = expected) /\
  forall t o response,
    In (chunkSecureMessage t o response) (events r) ->
    (thumbprint <> expected ->
     (exists version token server,
         body response = OpenSecureChannelResponse version token server /\
         serviceResult (responseHeader response) = BadCertificateInvalid) \/
     (exists der cert,
         sender message = Some der /\
         exploreCertificate X der = Some cert /\
         validity cert (clock self) <> Good /\
         response = answered message (fault (validity cert (clock self))))) /\
    (thumbprint = expected ->
     serviceResult (responseHeader response) <> BadCertificateInvalid).
Proof.
  intros Hobs Hmode Hclient Hthumb Hparent Hsingle serverCertificate expected r.
  assert (Hexp : expected = makeSHA1Thumbprint X (certificateChain p)).
  { unfold expected, serverCertificate. rewrite Hsingle. reflexivity. }
  assert (Heqb : String.eqb (toString_hex expected) (toString_hex thumbprint) = true
                 <-> thumbprint = expected).
  { rewrite toString_hex_eqb. split; intros H; symmetry; exact H. }
  split; [rewrite check_receiverCertificateThumbprint_run, Hthumb, Hparent, Hexp; reflexivity|].
  split; [exact Heqb|].
  intros t o response Hin.
  destruct (handle_sent message callback self t o response Hobs Hin)
    as (response' & Hrun & -> & ->).
  destruct Hrun as (osc & result & c1 & e1 & header & response1 & e2 & e3 & tcp & e4
                    & Hreq & _ & En & _ & E2 & E3 & _ & _ & _ & _ & _ & Er).
  pose proof (nonce_block_outcome X (prepared osc self)) as Hframe.
  cbn zeta in Hframe. rewrite En in Hframe. unfold final, outcome in Hframe; cbn in Hframe.
  destruct Hframe as (Fmode & Fclient & Fparent & Fclock & _ & _ & Fresult).
  specialize (Fresult _ eq_refl).
  assert (Hmode2 : securityMode (settled message header c1) <> NONE)
    by (cbn; rewrite Fmode; exact Hmode).
  assert (Hclient2 : clientSecurityHeader (settled message header c1) = Some client)
    by (cbn; rewrite Fclient; exact Hclient).
  assert (Hparent2 : parent (settled message header c1) = Some p)
    by (cbn; rewrite Fparent; exact Hparent).
  rewrite (thumbprint_block_run X _ _ _ client thumbprint p Hmode2 Hclient2 Hthumb Hparent2)
    in E2.
  rewrite <- Hexp in E2.
  match type of E3 with
  | certificate_block X ?s ?a ?c = _ =>
      destruct (certificate_block_pure X s a c) as (o3 & e3' & E3' & _ & Hv3)
  end.
  rewrite E3' in E3. injection E3 as -> _. specialize (Hv3 _ eq_refl).
  assert (Hclock : clock (settled message header c1) = clock self)
    by (cbn; rewrite Fclock; reflexivity).
  rewrite Hclock in Hv3. cbn [clientCertificate settled set_clientCertificate] in Hv3.
  split.
  - intros Hne.
    destruct (String.eqb (toString_hex expected) (toString_hex thumbprint)) eqn:E;
      [exfalso; apply Hne, Heqb; reflexivity|].
    injection E2 as <- _.
    destruct Hv3 as [->|(der & cert & Hder & Hcert & Hbad & ->)].
    + left. do 3 eexists. split; reflexivity.
    + right. exists der, cert. auto.
  - intros Heq.
    destruct (String.eqb (toString_hex expected) (toString_hex thumbprint)) eqn:E;
      [|apply Heqb in Heq; congruence].
    injection E2 as <- _.
    destruct Hv3 as [->|(der & cert & _ & _ & _ & ->)].
    + cbn. destruct Fresult as [-> | ->]; discriminate.
    + cbn. destruct (validity_cases cert (clock self)) as [-> | ->]; discriminate.
Qed.

(** [isOpened] returns the cached client certificate; every OpenSecureChannelRequest
    that is answered leaves there the sender certificate of the security header of
    its message, and null when the message has no header, which is the case of every
    request handled by [_on_common_message], renewals included. *)
Lemma isOpened_after_answer :
  (forall self, truthy (isOpened self) = true <-> clientCertificate self <> None) /\
  (forall (message : Message) (callback : option string -> M unit) (self : Channel),
      observer callback ->
      let r := _handle_OpenSecureChannelRequest X message callback self in
      forall t o response,
        In (chunkSecureMessage t o response) (events r) ->
        isOpened (final r) = sender message /\
        (serviceResult (responseHeader response) = Good ->
         _abort_has_been_called (final r) = _abort_has_been_called self)) /\
  (forall (rq : Request) (mt : MsgType) (self : Channel) t o response,
      In (chunkSecureMessage t o response) (events (_on_common_message X rq mt self)) ->
      isOpened (final (_on_common_message X rq mt self)) = None).
Proof.
  assert (Hhandle : forall (message : Message) (callback : option string -> M unit)
                           (self : Channel),
             observer callback ->
             forall t o response,
               In (chunkSecureMessage t o response)
                 (events (_handle_OpenSecureChannelRequest X message callback self)) ->
               isOpened (final (_handle_OpenSecureChannelRequest X message callback self))
               = sender message /\
               (serviceResult (responseHeader response) = Good ->
                _abort_has_been_called
                  (final (_handle_OpenSecureChannelRequest X message callback self))
                = _abort_has_been_called self)).
  { intros message callback self Hobs t o response Hin.
    destruct (handle_sent message callback self t o response Hobs Hin)
      as (response' & Hrun & -> & ->).
    destruct Hrun as (osc & result & c1 & e1 & header & response1 & e2 & e3 & tcp & e4
                      & Hreq & _ & En & _ & E2 & E3 & _ & _ & _ & _ & _ & Er).
    pose proof (nonce_block_outcome X (prepared osc self)) as Hframe.
    cbn zeta in Hframe. rewrite En in Hframe. unfold final in Hframe; cbn in Hframe.
    destruct Hframe as (_ & _ & _ & _ & _ & Fabort & _).
    rewrite Er. unfold final, isOpened; cbn [fst snd].
    split.
    - destruct (is_bad response'); [rewrite abort_state_clientCertificate|]; reflexivity.
    - intros Hgood.
      assert (E : is_bad response' = false).
      { destruct (is_bad response') eqn:E; [|reflexivity].
        apply is_bad_spec in E. exfalso. apply E. exact Hgood. }
      rewrite E. cbn. exact Fabort. }
  split; [|split].
  - intros self. unfold isOpened. destruct (clientCertificate self); cbn; split;
      congruence.
  - intros message callback self Hobs r. exact (Hhandle message callback self Hobs).
  - intros rq mt self t o response Hin.
    unfold _on_common_message in *.
    assert (Hb : forall f : Channel -> M unit, bind get f self = f self self).
    { intros f. unfold bind, get. destruct (f self self) as [[o0 c2] e2]. reflexivity. }
    rewrite Hb in *. clear Hb.
    assert (Hq : forall m : M unit, quiet m ->
               ~ In (chunkSecureMessage t o response) (events (m self)))
      by (intros m Hm; apply Hm).
    destruct mt, rq;
      try solve [exfalso;
                 match type of Hin with
                 | In _ (events (?m self)) => apply (Hq m); [|exact Hin]
                 end;
                 auto with trace; apply quiet_bind; auto with trace].
    match type of Hin with
    | In _ (events (_handle_OpenSecureChannelRequest X ?message _ self)) =>
        destruct (Hhandle message (fun _ => ret tt) self observer_noop t o response Hin)
          as (H1 & _)
    end.
    exact H1.
Qed.

End Answers.

(** * The scenarios *)

Import Sample.
Import Scenarios.

(** On the bench the first request reaches the handler in the state [handshaking]. *)
Lemma first_request_reaches_handler :
  run first_sign server =
    _handle_OpenSecureChannelRequest externals (message_of first_sign) init_callback_
      (handshaking SIGN first_sign server) /\
  run first_none server =
    _handle_OpenSecureChannelRequest externals (message_of first_none) init_callback_
      (handshaking NONE first_none server) /\
  run short_nonce server =
    _handle_OpenSecureChannelRequest externals (message_of short_nonce) init_callback_
      (handshaking SIGN short_nonce server) /\
  run bad_thumbprint server =
    _handle_OpenSecureChannelRequest externals (message_of bad_thumbprint) init_callback_
      (handshaking SIGN bad_thumbprint server).
Proof.
  split; [vm_compute; reflexivity|].
  split; [vm_compute; reflexivity|].
  split; vm_compute; reflexivity.
Qed.


Lemma C6_revised_lifetime_witness :
  let self := server in
  let request := {| osc_requestHandle := 1; osc_securityMode := NONE; osc_clientNonce := None;
                    requestedLifetime := 1000000; requestType := ISSUE |} in
  0 <= requestedLifetime request /\
  0 < defaultSecureTokenLifetime self /\
  expired externals (issued_token request (set_clock 100 self)) 100 = false /\
  exists revised self1 token self2,
    revised = 600000 /\
    _set_lifetime (requestedLifetime request) self = (Returned tt, self1, []) /\
    revisedLifeTime self1 = Some revised /\
    issue_or_renew externals 100 request self = (Returned (Some token), self2, []) /\
    securityToken self2 = Some token /\
    tok_revisedLifeTime token = Some revised /\
    0 < revised <= defaultSecureTokenLifetime self.
Proof.
  intros self request.
  split; [simpl; lia|].
  split; [reflexivity|].
  split; [reflexivity|].
  apply (C6_revised_lifetime externals self request 100);
    [simpl; lia | reflexivity | reflexivity].
Defined.



Lemma C7_closes_after_bad_result_witness :
  let r := _on_initial_open_secure_channel_request externals init_callback_
             (in_request short_nonce) OPN (delivered short_nonce server) in
  (r = _on_initial_open_secure_channel_request externals
         (fun err => emit (init_callback err)) (in_request short_nonce) OPN
         (delivered short_nonce server) \/
   r = _on_common_message externals (in_request short_nonce) OPN
         (delivered short_nonce server)) /\
  outcome r = Returned tt /\
  sent_responses (events r) = [degraded_response] /\
  In (chunkSecureMessage OPN degraded_options degraded_response) (events r) /\
  serviceResult (responseHeader degraded_response) <> Good /\
  sent_then_closed (events r) degraded_response /\
  _abort_has_been_called (final r) = true.
Proof.
  intros r.
  assert (Hr : r = _on_initial_open_secure_channel_request externals
                     (fun err => emit (init_callback err)) (in_request short_nonce) OPN
                     (delivered short_nonce server) \/
               r = _on_common_message externals (in_request short_nonce) OPN
                     (delivered short_nonce server))
    by (left; reflexivity).
  assert (Hret : outcome r = Returned tt) by (vm_compute; reflexivity).
  assert (Hbad : serviceResult (responseHeader degraded_response) <> Good)
    by (vm_compute; discriminate).
  destruct (C7_closes_after_bad_result externals (in_request short_nonce) OPN
              (delivered short_nonce server) r Hr) as (Hsent & Hclosed).
  destruct (Hsent (or_introl eq_refl) Hret) as (t & o & response & Hone & Hin).
  assert (Hthe : sent_responses (events r) = [degraded_response])
    by (vm_compute; reflexivity).
  assert (Hin' : In (chunkSecureMessage OPN degraded_options degraded_response) (events r))
    by (vm_compute; auto 20).
  split; [exact Hr|]. split; [exact Hret|]. split; [exact Hthe|]. split; [exact Hin'|].
  split; [exact Hbad|].
  exact (Hclosed OPN degraded_options degraded_response Hin' Hbad).
Defined.

Lemma C1_nonce_length_mismatch_witness :
  let message := message_of short_nonce in
  let self := handshaking SIGN short_nonce server in
  let r := _handle_OpenSecureChannelRequest externals message init_callback_ self in
  observer init_callback_ /\
  request message = OpenSecureChannelRequest_ (sign_request nonce8) /\
  0 < requestId message /\
  expired externals (issued_token (sign_request nonce8) self) (clock self) = false /\
  cryptoFactory (messageBuilder self) = Some factory16 /\
  osc_clientNonce (sign_request nonce8) = Some nonce8 /\
  List.length nonce8 <> symmetricKeyLength factory16 /\
  In (compute_derived_keys_call (server_nonce 0) nonce8) (events r) /\
  forall t o response,
    In (chunkSecureMessage t o response) (events r) ->
    serviceResult (responseHeader response) <> Good /\
    sent_then_closed (events r) response.
Proof.
  intros message self r.
  assert (H1 : request message = OpenSecureChannelRequest_ (sign_request nonce8))
    by reflexivity.
  assert (H2 : 0 < requestId message) by (vm_compute; reflexivity).
  assert (He : expired externals (issued_token (sign_request nonce8) self) (clock self)
               = false) by (vm_compute; reflexivity).
  assert (H3 : cryptoFactory (messageBuilder self) = Some factory16) by reflexivity.
  assert (H4 : osc_clientNonce (sign_request nonce8) = Some nonce8) by reflexivity.
  assert (H5 : List.length nonce8 <> symmetricKeyLength factory16)
    by (vm_compute; discriminate).
  pose proof (C1_nonce_length_mismatch externals message init_callback_ self
                (sign_request nonce8) factory16 nonce8 observer_init_callback
                H1 H2 He H3 H4 H5) as (_ & Hcall & Hsent).
  split; [exact observer_init_callback|].
  split; [exact H1|]. split; [exact H2|]. split; [exact He|].
  split; [exact H3|]. split; [exact H4|].
  split; [exact H5|]. split; [exact Hcall|].
  intros t o response Hin.
  destruct (Hsent t o response Hin) as (Hbad & _ & _ & Hclosed & _).
  split; [exact Hbad|exact Hclosed].
Defined.

(** Against C1 as stated: the client nonce has 8 bytes and the server nonce 16; the
    response carries [BadSecurityModeRejected], yet the derived keys have been computed
    from this very pair and are installed on the channel; and when the thumbprint is
    wrong as well the response carries [BadCertificateInvalid] instead. *)
Lemma C1_counterexample :
  let r := run short_nonce server in
  serverNonce (final r) = Some (server_nonce 0) /\
  clientNonce (final r) = Some nonce8 /\
  List.length nonce8 <> List.length (server_nonce 0) /\
  results (events r) = [BadSecurityModeRejected] /\
  In (compute_derived_keys_call (server_nonce 0) nonce8) (events r) /\
  derivedKeys (final r) = Some (compute_derived_keys factory16 (server_nonce 0) nonce8) /\
  results (events (run short_nonce_wrong_thumbprint server)) = [BadCertificateInvalid].
Proof.
  cbv zeta.
  split; [vm_compute; reflexivity|].
  split; [vm_compute; reflexivity|].
  split; [vm_compute; discriminate|].
  split; [vm_compute; reflexivity|].
  split; [vm_compute; auto 20|].
  split; vm_compute; reflexivity.
Qed.

Lemma C2_thumbprint_check_witness :
  let message := message_of bad_thumbprint in
  let self := handshaking SIGN bad_thumbprint server in
  let r := _handle_OpenSecureChannelRequest externals message init_callback_ self in
  observer init_callback_ /\
  securityMode self <> NONE /\
  clientSecurityHeader self = Some (client_header (Some wrong_thumbprint)) /\
  receiverCertificateThumbprint (client_header (Some wrong_thumbprint))
    = Some wrong_thumbprint /\
  parent self = Some (endpoint server_certificate) /\
  split_der externals (certificateChain (endpoint server_certificate))
    = [certificateChain (endpoint server_certificate)] /\
  wrong_thumbprint <> digest server_certificate /\
  forall t o response,
    In (chunkSecureMessage t o response) (events r) ->
    (exists version token server,
        body response = OpenSecureChannelResponse version token server /\
        serviceResult (responseHeader response) = BadCertificateInvalid) \/
    (exists der cert,
        sender message = Some der /\
        exploreCertificate externals der = Some cert /\
        validity cert (clock self) <> Good /\
        response = answered message (fault (validity cert (clock self)))).
Proof.
  intros message self r.
  assert (H1 : securityMode self <> NONE) by (vm_compute; discriminate).
  assert (H2 : clientSecurityHeader self = Some (client_header (Some wrong_thumbprint)))
    by (vm_compute; reflexivity).
  assert (H3 : receiverCertificateThumbprint (client_header (Some wrong_thumbprint))
               = Some wrong_thumbprint) by reflexivity.
  assert (H4 : parent self = Some (endpoint server_certificate)) by reflexivity.
  assert (H5 : split_der externals (certificateChain (endpoint server_certificate))
               = [certificateChain (endpoint server_certificate)])
    by (vm_compute; reflexivity).
  assert (H6 : wrong_thumbprint <> digest server_certificate) by (vm_compute; discriminate).
  pose proof (C2_thumbprint_check externals message init_callback_ self
                (client_header (Some wrong_thumbprint)) wrong_thumbprint
                (endpoint server_certificate) observer_init_callback H1 H2 H3 H4 H5)
    as (_ & _ & Hsent).
  split; [exact observer_init_callback|].
  split; [exact H1|]. split; [exact H2|]. split; [exact H3|]. split; [exact H4|].
  split; [exact H5|]. split; [exact H6|].
  intros t o response Hin.
  destruct (Hsent t o response Hin) as (Hne & _).
  apply Hne. rewrite H5. exact H6.
Defined.

(** Against C2 as stated: the mode is [SIGN], the thumbprint is not the digest of the
    server certificate, and the client certificate has expired; what is sent is not an
    OpenSecureChannelResponse with [BadCertificateInvalid] but a ServiceFault with
    [BadCertificateTimeInvalid]. *)
Lemma C2_counterexample :
  let r := run bad_thumbprint_expired server in
  securityMode (final r) = SIGN /\
  option_map receiverCertificateThumbprint (clientSecurityHeader (final r))
    = Some (Some wrong_thumbprint) /\
  wrong_thumbprint <> digest server_certificate /\
  sent_responses (events r)
    = [{| responseHeader := {| serviceResult := BadCertificateTimeInvalid;
                               rh_requestHandle := 77 |};
          body := ServiceFault None |}].
Proof.
  cbv zeta.
  split; [vm_compute; reflexivity|].
  split; [vm_compute; reflexivity|].
  split; [vm_compute; discriminate|].
  vm_compute; reflexivity.
Qed.

(** C3, at the failing input: [_check_receiverCertificateThumbprint] accepts a header
    without thumbprint whatever the mode; on the bench a first request in mode [SIGN]
    whose header has no [receiverCertificateThumbprint] is answered [Good] and the
    channel stays open. *)
Theorem C3_missing_thumbprint_accepted :
  (forall (X : Externals) (self : Channel) (uri : string) (certificate : option Buffer),
      _check_receiverCertificateThumbprint X
        {| securityPolicyUri := uri; senderCertificate := certificate;
           receiverCertificateThumbprint := None |} self
      = (Returned true, self, [])) /\
  let r := run no_thumbprint server in
  securityMode (final r) = SIGN /\
  option_map receiverCertificateThumbprint (clientSecurityHeader (final r)) = Some None /\
  results (events r) = [Good] /\
  _abort_has_been_called (final r) = false.
Proof.
  split; [intros X self uri certificate; reflexivity|].
  cbv zeta.
  split; [vm_compute; reflexivity|].
  split; [vm_compute; reflexivity|].
  split; vm_compute; reflexivity.
Qed.

(** C10, at the failing input: every request that [_on_common_message] answers leaves
    [isOpened] null, for that listener builds its message without security header.  On
    the bench a channel is opened in mode [SIGN] with a client certificate, which is
    cached: [isOpened] is truthy; its token is then renewed: the response is [Good],
    the channel is not aborted, the certificate is still cached as
    [receiverCertificate], and yet [isOpened] is null. *)
Theorem C10_isOpened_lost_on_renewal :
  (forall (X : Externals) (rq : Request) (mt : MsgType) (self : Channel) t o response,
      In (chunkSecureMessage t o response) (events (_on_common_message X rq mt self)) ->
      isOpened (final (_on_common_message X rq mt self)) = None) /\
  (let opened := final (run first_sign server) in
   let renewed := run renewal opened in
   truthy (isOpened opened) = true /\
   isOpened opened = Some client_certificate /\
   results (events renewed) = [Good] /\
   _abort_has_been_called (final renewed) = false /\
   receiverCertificate (final renewed) = Some client_certificate /\
   isOpened (final renewed) = None).
Proof.
  split.
  - intros X rq mt self t o response Hin.
    destruct (isOpened_after_answer X) as (_ & _ & H).
    exact (H rq mt self t o response Hin).
  - cbv zeta.
    split; [vm_compute; reflexivity|].
    split; [vm_compute; reflexivity|].
    split; [vm_compute; reflexivity|].
    split; [vm_compute; reflexivity|].
    split; vm_compute; reflexivity.
Qed.

(** * Invariants of the life of a channel *)

Section Respect.

Variable R : Relation.
Hypothesis HR : Monoidal R.

Lemma respects_ret {A : Type} (a : A) : respects R (ret a).
Proof. intros c. apply (idle R HR). Qed.

Lemma respects_get : respects R get.
Proof. intros c. apply (idle R HR). Qed.

Lemma respects_throw {A : Type} (e : Exception) : respects R (@throw A e).
Proof. intros c. apply (idle R HR). Qed.

Lemma respects_assert (b : bool) (what : string) : respects R (assert b what).
Proof. destruct b; intros c; apply (idle R HR). Qed.

Lemma respects_bind {A B : Type} (m : M A) (f : A -> M B) :
  respects R m -> (forall a, respects R (f a)) -> respects R (bind m f).
Proof.
  intros Hm Hf c. unfold bind. specialize (Hm c).
  destruct (m c) as [[[a|x] c1] e1]; [|exact Hm].
  specialize (Hf a c1). destruct (f a c1) as [[o c2] e2].
  unfold events, final in *; cbn in *. eapply (chained R HR); eassumption.
Qed.

Lemma respects_life (X : Externals) (actions : list Action) :
  (forall a, respects R (perform X a)) ->
  forall c, R c (snd (life X actions c)) (fst (life X actions c)).
Proof.
  intros Hstep. induction actions as [|a rest IH]; intros c; cbn [life].
  - apply (idle R HR).
  - specialize (IH (final (perform X a c))).
    destruct (life X rest (final (perform X a c))) as [c' e']. cbn in *.
    eapply (chained R HR); [apply Hstep|exact IH].
Qed.

Lemma respects_modify_emit {B : Type} (f : Channel -> Channel) (e : Event) (rest : M B) :
  (forall c, R c [e] (f c)) -> respects R rest ->
  respects R (modify f ;; emit e ;; rest).
Proof.
  intros Hstep Hrest c. unfold bind, modify, emit. cbn.
  specialize (Hrest (f c)). destruct (rest (f c)) as [[o c2] e2].
  unfold events, final in *; cbn in *.
  apply (chained R HR c [e] (f c) e2 c2); [apply Hstep|exact Hrest].
Qed.

Lemma respects_chunker_calls_back (callback : option (M unit)) (chunks : list Buffer) :
  (forall chunk, respects R (emit (transport_write chunk))) ->
  respects R (emit emit_transaction_done) ->
  respects R (call callback) ->
  respects R (chunker_calls_back callback chunks).
Proof.
  intros Hw Hd Hk. induction chunks as [|chunk rest IH]; cbn [chunker_calls_back];
    unfold _send_chunk; apply respects_bind; auto.
Qed.

End Respect.

(** Walks down a computation: binds, branches, primitive steps and the functions of the
    file, which it unfolds; [leaf] proves the steps that change the channel or make a
    call, [special] the functions that need an argument of their own. *)
Ltac walk H leaf special :=
  repeat first
    [ assumption
    | apply (respects_ret _ H)
    | apply (respects_get _ H)
    | apply (respects_throw _ H)
    | apply (respects_assert _ H)
    | match goal with
      | K : forall _, respects _ _ |- respects _ _ => apply K
      | |- respects _ (modify _) => solve [leaf]
      | |- respects _ (emit _) => solve [leaf]
      end
    | special
    | apply (respects_chunker_calls_back _ H); [intro| |]
    | apply (respects_bind _ H); [|intro]
    | progress cbv zeta
    | match goal with
      | |- respects _ (match ?x with _ => _ end) => destruct x
      | |- respects _ (call ?k) => first [is_var k; destruct k|idtac]; progress cbn [call]
      | |- respects _ ?m =>
          let rec head t := lazymatch t with ?g _ => head g | _ => t end in
          let h := head m in
          lazymatch h with
          | @bind => fail
          | @modify => fail
          | @emit => fail
          | _ => progress unfold h
          end
      end ].

Lemma aborts_app (a b : list Event) : aborts (a ++ b) = aborts a + aborts b.
Proof.
  induction a as [|[] a IH]; cbn [aborts app]; try exact IH; [reflexivity|].
  rewrite IH. lia.
Qed.

Lemma tallied_monoidal : Monoidal tallied.
Proof.
  split; unfold tallied.
  - intros c. cbn. lia.
  - intros c e1 c1 e2 c2 H1 H2. rewrite sent_responses_app, length_app. lia.
Qed.

Lemma abort_once_monoidal : Monoidal abort_once.
Proof.
  split; unfold abort_once.
  - intros c. cbn. lia.
  - intros c e1 c1 e2 c2 H1 H2. rewrite aborts_app. lia.
Qed.

Lemma same_configuration_monoidal : Monoidal same_configuration.
Proof.
  split; unfold same_configuration.
  - intros c. auto.
  - intros c e1 c1 e2 c2 (A1 & A2 & A3 & A4 & A5) (B1 & B2 & B3 & B4 & B5).
    repeat split; congruence.
Qed.

Lemma no_open_channel_timer_monoidal : Monoidal no_open_channel_timer.
Proof.
  split; unfold no_open_channel_timer; auto.
Qed.

Ltac step :=
  intros ?; unfold tallied, abort_once, same_configuration, no_open_channel_timer,
    events, final; cbn; auto; lia.

Ltac nothing := fail.

Section Tallied.

Variable X : Externals.

Lemma tallied_send_response (t : MsgType) (response : Response) (message : Message)
    (callback : option (M unit)) :
  respects tallied (call callback) ->
  respects tallied (send_response X t response message callback).
Proof.
  intros Hk. unfold send_response.
  walk tallied_monoidal step ltac:(apply (respects_modify_emit _ tallied_monoidal); [step|]).
Qed.

Lemma tallied_perform (a : Action) : respects tallied (perform X a).
Proof.
  destruct a; cbn [perform];
    walk tallied_monoidal step ltac:(apply tallied_send_response).
Qed.

End Tallied.

Section Invariants.

Variable X : Externals.

Lemma abort_once_abort : respects abort_once _abort.
Proof.
  intros c. rewrite abort_run. unfold abort_once, events, final; cbn [fst snd].
  pose proof (abort_state_aborted c) as H. rewrite H.
  unfold abort_events. destruct (_abort_has_been_called c); reflexivity.
Qed.

Lemma abort_once_perform (a : Action) : respects abort_once (perform X a).
Proof.
  destruct a; cbn [perform];
    walk abort_once_monoidal step ltac:(apply abort_once_abort).
Qed.

Lemma same_configuration_perform (a : Action) : respects same_configuration (perform X a).
Proof.
  destruct a; cbn [perform];
    walk same_configuration_monoidal step nothing.
Qed.

End Invariants.

(** X1: over any sequence of calls made on a channel, the ["abort"] event is emitted
    at most once, and exactly when [_abort_has_been_called] goes from false to true;
    once the flag is set it stays set and nothing more is notified. *)
Theorem abort_notified_once (X : Externals) (actions : list Action) (c : Channel) :
  let c' := fst (life X actions c) in
  let e := snd (life X actions c) in
  (_abort_has_been_called c = true ->
   _abort_has_been_called c' = true /\ aborts e = 0) /\
  (_abort_has_been_called c = false ->
   aborts e = Z.b2z (_abort_has_been_called c') /\ 0 <= aborts e <= 1).
Proof.
  intros c' e.
  pose proof (respects_life abort_once abort_once_monoidal X actions
                (abort_once_perform X) c) as H.
  fold c' e in H. unfold abort_once in H.
  assert (Hpos : forall evs, 0 <= aborts evs).
  { induction evs as [|[] evs IH]; cbn [aborts]; lia. }
  specialize (Hpos e).
  split; intros Hc; rewrite Hc in H; destruct (_abort_has_been_called c');
    cbn [Z.b2z] in *; repeat split; try reflexivity; lia.
Qed.

(** X2: over any sequence of calls made on a channel, [transactionsCount] grows by
    exactly the number of responses handed to the message chunker; on a channel fresh
    from the constructor it is that number. *)
Theorem transactions_are_counted (X : Externals) (actions : list Action) :
  (forall c,
      transactionsCount (fst (life X actions c)) =
      transactionsCount c + Z.of_nat (List.length (sent_responses (snd (life X actions c))))) /\
  (forall options id now,
      let c := fst (constructor options id now) in
      transactionsCount (fst (life X actions c)) =
      Z.of_nat (List.length (sent_responses (snd (life X actions c))))).
Proof.
  assert (H : forall c,
             transactionsCount (fst (life X actions c)) =
             transactionsCount c
             + Z.of_nat (List.length (sent_responses (snd (life X actions c)))))
    by exact (respects_life tallied tallied_monoidal X actions (tallied_perform X)).
  split; [exact H|].
  intros options id now c. rewrite H. reflexivity.
Qed.

(** X3: no call made on a channel changes its [secureChannelId], its endpoint
    [parent], its [timeout], its [defaultSecureTokenLifetime] or its
    [protocolVersion]: they are, all life long, those the constructor has set. *)
Theorem configuration_is_constant (X : Externals) (actions : list Action)
    (options : Options) (last_channel_id now : Z) :
  let c := fst (life X actions (fst (constructor options last_channel_id now))) in
  secureChannelId c = last_channel_id + 1 /\
  parent c = options_parent options /\
  timeout c = or_default (options_timeout options) 10000 /\
  defaultSecureTokenLifetime c = or_default (options_defaultSecureTokenLifetime options) 600000 /\
  protocolVersion c = 0.
Proof.
  intros c.
  pose proof (respects_life same_configuration same_configuration_monoidal X actions
                (same_configuration_perform X)
                (fst (constructor options last_channel_id now))) as H.
  fold c in H. destruct H as (H1 & H2 & H3 & H4 & H5).
  rewrite H1, H2, H3, H4, H5. cbn. auto.
Qed.

(** * The send path, in full *)

Section Sending.

Variable X : Externals.

Lemma security_of_pure (t : MsgType) (c : Channel) :
  exists o, security_of X t c = (o, c, []).
Proof.
  unfold security_of. destruct (MsgType_eqb t OPN);
    [apply security_options_for_OPN_pure | apply security_options_for_MSG_pure].
Qed.

Lemma send_response_run (t : MsgType) (response : Response) (message : Message)
    (callback : option (M unit)) (self : Channel) (token : ChannelSecurityToken)
    (tcp : ServerTCP_transport) (security : SecurityOptions) :
  (0 <? requestId message) = true ->
  securityToken self = Some token ->
  transport self = Some tcp ->
  outcome (security_of X t (set_msgType (Some t) self)) = Returned security ->
  send_response X t response message callback self =
  match call callback (counted t self) with
  | (o, c2, e) =>
      (o, c2,
       chunkSecureMessage t (chunk_options message token tcp security)
         (answered message response)
         :: map transport_write
              (chunks_of X t (chunk_options message token tcp security)
                 (answered message response))
         ++ emit_transaction_done :: e)
  end.
Proof.
  intros Hid Htoken Htcp Hsec.
  destruct (security_of_pure t (set_msgType (Some t) self)) as [o Eo].
  rewrite Eo in Hsec. unfold outcome in Hsec; cbn in Hsec. subst o.
  unfold security_of in Eo.
  unfold send_response, bind, assert, get, modify, emit, ret, throw.
  rewrite Hid. cbn [securityToken set_msgType transport]. rewrite Htoken, Htcp, Eo.
  rewrite chunker_calls_back_run. unfold counted, answered, chunk_options.
  destruct (call callback _) as [[o c2] e2]. reflexivity.
Qed.

Lemma send_response_silent (t : MsgType) (response : Response) (message : Message)
    (callback : option (M unit)) (self : Channel) :
  (0 <? requestId message) = false \/ securityToken self = None \/ transport self = None \/
  (exists x, outcome (security_of X t (set_msgType (Some t) self)) = Thrown x) ->
  exists x c, send_response X t response message callback self = (Thrown x, c, []) /\
              _transactionsCount c = _transactionsCount self.
Proof.
  intros H.
  unfold send_response, bind, assert, get, modify, emit, ret, throw.
  destruct (0 <? requestId message) eqn:Hid; [|do 2 eexists; split; reflexivity].
  cbn [securityToken set_msgType transport].
  destruct (securityToken self) as [token|] eqn:Htoken; [|do 2 eexists; split; reflexivity].
  destruct (transport self) as [tcp|] eqn:Htcp; [|do 2 eexists; split; reflexivity].
  destruct H as [H|[H|[H|(x & H)]]]; try discriminate.
  destruct (security_of_pure t (set_msgType (Some t) self)) as [o Eo].
  rewrite Eo in H. unfold outcome in H; cbn in H. subst o.
  unfold security_of in Eo. rewrite Eo. do 2 eexists; split; reflexivity.
Qed.

Lemma send_response_sent (t : MsgType) (response : Response) (message : Message)
    (callback : option (M unit)) (self : Channel)
    (t' : MsgType) (o : ChunkOptions) (r : Response) :
  quiet (call callback) ->
  In (chunkSecureMessage t' o r)
    (events (send_response X t response message callback self)) ->
  exists token tcp security,
    0 < requestId message /\
    securityToken self = Some token /\
    transport self = Some tcp /\
    outcome (security_of X t (set_msgType (Some t) self)) = Returned security /\
    t' = t /\ o = chunk_options message token tcp security /\
    r = answered message response.
Proof.
  intros Hq Hin.
  destruct (0 <? requestId message) eqn:Hid.
  2:{ destruct (send_response_silent t response message callback self (or_introl Hid))
        as (x & c & E & _). rewrite E in Hin. destruct Hin. }
  destruct (securityToken self) as [token|] eqn:Htoken.
  2:{ destruct (send_response_silent t response message callback self
                  (or_intror (or_introl Htoken))) as (x & c & E & _).
      rewrite E in Hin. destruct Hin. }
  destruct (transport self) as [tcp|] eqn:Htcp.
  2:{ destruct (send_response_silent t response message callback self
                  (or_intror (or_intror (or_introl Htcp)))) as (x & c & E & _).
      rewrite E in Hin. destruct Hin. }
  destruct (outcome (security_of X t (set_msgType (Some t) self))) as [security|x] eqn:Hsec.
  2:{ destruct (send_response_silent t response message callback self
                  (or_intror (or_intror (or_intror (ex_intro _ x Hsec))))) as (x' & c & E & _).
      rewrite E in Hin. destruct Hin. }
  rewrite (send_response_run t response message callback self token tcp security
             Hid Htoken Htcp Hsec) in Hin.
  specialize (Hq (counted t self)).
  destruct (call callback (counted t self)) as [[o' c2] e2].
  unfold events in *; cbn [snd] in *.
  destruct Hin as [Hin|Hin].
  - injection Hin as <- <- <-. exists token, tcp, security.
    apply Z.ltb_lt in Hid. auto 10.
  - exfalso. apply in_app_or in Hin. destruct Hin as [Hin|[Hin|Hin]].
    + eapply sendfree_map_write; exact Hin.
    + discriminate.
    + eapply Hq; exact Hin.
Qed.

End Sending.

(** * What the handshake answers with *)

Section Announce.

Variable X : Externals.

Lemma abort_state_frame (c : Channel) :
  securityToken (abort_state c) = securityToken c /\
  lastTokenId (abort_state c) = lastTokenId c /\
  revisedLifeTime (abort_state c) = revisedLifeTime c /\
  serverNonce (abort_state c) = serverNonce c /\
  derivedKeys (abort_state c) = derivedKeys c /\
  securityMode (abort_state c) = securityMode c /\
  messageBuilder (abort_state c) = messageBuilder c /\
  _transactionsCount (abort_state c) = _transactionsCount c /\
  securityHeader (abort_state c) = securityHeader c.
Proof.
  unfold abort_state. destruct (_abort_has_been_called c); [auto 10|].
  cbn. destruct (truthy (_securityTokenTimeout c)); cbn;
    destruct (truthy (timeoutId c)); cbn; auto 10.
Qed.

Lemma nonce_block_frame (s c1 : Channel) (result : StatusCode) (e1 : list Event) :
  nonce_block X s s = (Returned result, c1, e1) ->
  securityToken c1 = securityToken s /\
  lastTokenId c1 = lastTokenId s /\
  revisedLifeTime c1 = revisedLifeTime s /\
  secureChannelId c1 = secureChannelId s /\
  protocolVersion c1 = protocolVersion s /\
  messageBuilder c1 = messageBuilder s /\
  receiverPublicKeyLength c1 = receiverPublicKeyLength s /\
  securityMode c1 = securityMode s /\
  parent c1 = parent s /\
  clock c1 = clock s /\
  transport c1 = transport s /\
  _abort_has_been_called c1 = _abort_has_been_called s.
Proof.
  intros E.
  destruct (cryptoFactory (messageBuilder s)) as [factory|] eqn:Hf.
  - destruct (clientNonce s) as [client|] eqn:Hc.
    + rewrite (nonce_block_with_factory X s factory client Hf Hc) in E.
      injection E as _ <- _. cbn. auto 15.
    + rewrite (nonce_block_without_client_nonce X s factory Hf Hc) in E. discriminate.
  - rewrite (nonce_block_without_factory X s Hf) in E. injection E as _ <- _. auto 15.
Qed.

Lemma handle_reaches_send (message : Message) (callback : option string -> M unit)
    (self : Channel) (osc : OpenSecureChannelRequest) (result : StatusCode) (c1 : Channel)
    (e1 : list Event) (header : AsymmetricAlgorithmSecurityHeader)
    (response1 response : Response) (e2 e3 : list Event) :
  request message = OpenSecureChannelRequest_ osc ->
  (0 <? requestId message) = true ->
  expired X (issued_token osc self) (clock self) = false ->
  nonce_block X (prepared osc self) (prepared osc self) = (Returned result, c1, e1) ->
  _prepare_security_header X osc message c1 = (Returned (Some header), c1, []) ->
  thumbprint_block X (settled message header c1) (opn_response result c1)
    (settled message header c1) = (Returned response1, settled message header c1, e2) ->
  certificate_block X (settled message header c1) response1 (settled message header c1)
    = (Returned response, settled message header c1, e3) ->
  _handle_OpenSecureChannelRequest X message callback self =
  match send_response X OPN response message (Some (closing_callback callback response))
          (settled message header c1) with
  | (o, c, e) =>
      (o, c,
       e1 ++ pushNewToken (securityToken c1) (option_map derivedClientKeys (derivedKeys c1))
          :: messageChunker_update header (option_map derivedServerKeys (derivedKeys c1))
          :: e2 ++ e3 ++ e)
  end.
Proof.
  intros Hreq Hid He En Eh E2 E3.
  rewrite (handle_prefix X message callback osc self Hreq Hid He), En.
  unfold after_nonce, bind, get, emit, modify. rewrite Eh.
  unfold after_header, bind, emit, modify, get.
  change (set_clientCertificate (sender message) (set_securityHeader (Some header) c1))
    with (settled message header c1).
  rewrite E2, E3.
  destruct (send_response X OPN response message _ _) as [[o c] e].
  cbn. reflexivity.
Qed.

Lemma quiet_closing_callback (callback : option string -> M unit) (response : Response) :
  observer callback -> quiet (closing_callback callback response).
Proof.
  intros Hobs. unfold closing_callback. apply quiet_bind.
  - destruct (negb _); auto with trace.
  - intros _ c. destruct (Hobs None c) as (e & -> & Hs). exact Hs.
Qed.

(** Every response the handler sends, with what [send_response] was given. *)
Lemma handle_sent_options (message : Message) (callback : option string -> M unit)
    (self : Channel) (t : MsgType) (o : ChunkOptions) (response : Response) :
  observer callback ->
  In (chunkSecureMessage t o response)
    (events (_handle_OpenSecureChannelRequest X message callback self)) ->
  exists response' osc result c1 e1 header token tcp security,
    answered_run X message self (_handle_OpenSecureChannelRequest X message callback self)
      o response' /\
    t = OPN /\ response = answered message response' /\
    request message = OpenSecureChannelRequest_ osc /\
    nonce_block X (prepared osc self) (prepared osc self) = (Returned result, c1, e1) /\
    securityToken c1 = Some token /\
    transport c1 = Some tcp /\
    outcome (_get_security_options_for_OPN X (set_msgType (Some OPN) (settled message header c1)))
    = Returned security /\
    o = chunk_options message token tcp security /\
    final (_handle_OpenSecureChannelRequest X message callback self)
    = (if is_bad response' then abort_state (counted OPN (settled message header c1))
       else counted OPN (settled message header c1)) /\
    In (pushNewToken (securityToken c1) (option_map derivedClientKeys (derivedKeys c1)))
      (events (_handle_OpenSecureChannelRequest X message callback self)) /\
    (response' = opn_response result c1 \/
     response' = set_serviceResult BadCertificateInvalid (opn_response result c1) \/
     exists der cert,
       sender message = Some der /\ exploreCertificate X der = Some cert /\
       validity cert (clock c1) <> Good /\ response' = fault (validity cert (clock c1))) /\
    (sender message = None ->
     response' = opn_response result c1 \/
     response' = set_serviceResult BadCertificateInvalid (opn_response result c1)) /\
    (forall der cert, sender message = Some der -> exploreCertificate X der = Some cert ->
       (validity cert (clock c1) = Good ->
        response' = opn_response result c1 \/
        response' = set_serviceResult BadCertificateInvalid (opn_response result c1)) /\
       (validity cert (clock c1) <> Good -> response' = fault (validity cert (clock c1)))).
Proof.
  intros Hobs Hin.
  destruct (handle_sent X message callback self t o response Hobs Hin)
    as (response' & Hrun & -> & ->).
  assert (Hrun' := Hrun).
  destruct Hrun' as (osc & result & c1 & e1 & header & response1 & e2 & e3 & tcp & e4
                     & Hreq & Hid & En & Eh & E2 & E3 & Ht & Hs1 & Hs2 & Hs3 & Hs4 & Er).
  pose proof (handle_reaches_send message callback self osc result c1 e1 header response1
                response' e2 e3 Hreq Hid
                (sent_not_expired X message callback osc self _ _ _ Hreq Hin)
                En Eh E2 E3) as Hsend.
  assert (Hin2 : In (chunkSecureMessage OPN o (answered message response'))
                   (events (send_response X OPN response' message
                              (Some (closing_callback callback response'))
                              (settled message header c1)))).
  { rewrite Hsend in Hin.
    destruct (send_response X OPN response' message _ _) as [[o' c'] e'].
    unfold events in *; cbn [snd] in *.
    apply in_app_or in Hin. destruct Hin as [Hin|Hin]; [exfalso; eapply Hs1; exact Hin|].
    destruct Hin as [Hin|[Hin|Hin]]; try discriminate.
    apply in_app_or in Hin. destruct Hin as [Hin|Hin]; [exfalso; eapply Hs2; exact Hin|].
    apply in_app_or in Hin. destruct Hin as [Hin|Hin]; [exfalso; eapply Hs3; exact Hin|].
    exact Hin. }
  apply send_response_sent in Hin2;
    [|cbn [call]; apply quiet_closing_callback; exact Hobs].
  destruct Hin2 as (token & tcp' & security & _ & Htoken & Htcp & Hsec & _ & Ho & _).
  cbn [securityToken transport settled set_clientCertificate set_securityHeader] in Htoken, Htcp.
  exists response', osc, result, c1, e1, header, token, tcp', security.
  split; [exact Hrun|]. split; [reflexivity|]. split; [reflexivity|].
  split; [exact Hreq|]. split; [exact En|]. split; [exact Htoken|]. split; [exact Htcp|].
  split; [exact Hsec|]. split; [exact Ho|].
  split; [rewrite Er; reflexivity|].
  split; [rewrite Er; unfold events; cbn [snd]; apply in_or_app; right; left; reflexivity|].
  destruct (thumbprint_block_pure X (settled message header c1) (opn_response result c1)
              (settled message header c1)) as (o2 & e2' & E2' & _ & Hv2).
  rewrite E2' in E2. injection E2 as -> _. specialize (Hv2 _ eq_refl).
  destruct (certificate_block_pure X (settled message header c1) response1
              (settled message header c1)) as (o3 & e3' & E3' & _ & Hv3).
  rewrite E3' in E3. injection E3 as -> _. specialize (Hv3 _ eq_refl).
  cbn [clientCertificate clock settled set_clientCertificate set_securityHeader] in Hv3.
  cbn [clientCertificate settled set_clientCertificate set_securityHeader].
  split; [|split].
  - destruct Hv3 as [->|(der & cert & H1 & H2 & H3 & ->)].
    + destruct Hv2 as [-> | ->]; auto.
    + right. right. exists der, cert. auto.
  - intros Hnone. destruct Hv3 as [->|(der & cert & H1 & _)]; [exact Hv2|congruence].
  - intros der cert Hder Hcert.
    destruct (certificate_block_run X (settled message header c1) response1
                (settled message header c1) der cert Hder Hcert) as (e & Heq & _).
    rewrite Heq in E3'. injection E3' as Hresp _.
    cbn [clock settled set_clientCertificate set_securityHeader] in Hresp.
    split; intros Hval.
    + rewrite Hval in Hresp. cbn in Hresp. rewrite <- Hresp. exact Hv2.
    + destruct (validity cert (clock c1)); try (symmetry; exact Hresp).
      contradiction.
Qed.

Lemma security_options_for_OPN_returns (c : Channel) (security : SecurityOptions) :
  outcome (_get_security_options_for_OPN X c) = Returned security ->
  match securityMode c with
  | SIGN | SIGNANDENCRYPT =>
      exists factory p s rest cert,
        cryptoFactory (messageBuilder c) = Some factory /\
        parent c = Some p /\
        split_der X (certificateChain p) = s :: rest /\
        exploreCertificate X s = Some cert /\
        0 <= receiverPublicKeyLength c /\
        security = asymmetric_options (publicKeyLength cert)
                     (receiverPublicKeyLength c - blockPaddingSize factory)
                     (receiverPublicKeyLength c)
  | _ => security = no_security_options
  end.
Proof.
  unfold _get_security_options_for_OPN, bind, get.
  destruct (securityMode c); unfold outcome, ret; cbn; try (intros [= <-]; reflexivity);
    (destruct (cryptoFactory (messageBuilder c)) as [factory|]; [|discriminate];
     unfold getSignatureLength, bind; rewrite getCertificateChain_pure;
     destruct (parent c) as [p|]; [|discriminate];
     destruct (split_der X (certificateChain p)) as [|s rest] eqn:Hsplit; [discriminate|];
     destruct (exploreCertificate X s) as [cert|] eqn:Hcert; [|discriminate];
     unfold ret, assert;
     destruct (0 <=? receiverPublicKeyLength c) eqn:Hlen; cbn; [|discriminate];
     intros [= <-]; exists factory, p, s, rest, cert;
     apply Z.leb_le in Hlen; auto 10).
Qed.

(** X4: a response the handler sends to an OpenSecureChannelRequest is chunked under
    the token this very request has made the channel install: the token carries the
    channel's [secureChannelId], the next token identifier, the current time and the
    revised lifetime; it is the token the channel holds afterwards, the one pushed to
    the message builder, and the one an OpenSecureChannelResponse announces in its
    body, together with the server nonce the channel holds. *)
Theorem response_announces_installed_token (message : Message)
    (callback : option string -> M unit) (self : Channel)
    (t : MsgType) (o : ChunkOptions) (response : Response) :
  observer callback ->
  In (chunkSecureMessage t o response)
    (events (_handle_OpenSecureChannelRequest X message callback self)) ->
  let r := _handle_OpenSecureChannelRequest X message callback self in
  exists request,
    request_of message = Some request /\
    securityToken (final r) = Some (issued_token request self) /\
    securityTokenCount (final r) = securityTokenCount self + 1 /\
    (exists keys, In (pushNewToken (Some (issued_token request self)) keys) (events r)) /\
    t = OPN /\
    opt_requestId o = requestId message /\
    opt_secureChannelId o = secureChannelId self /\
    opt_tokenId o = lastTokenId self + 1 /\
    forall version announced nonce,
      body response = OpenSecureChannelResponse version announced nonce ->
      version = protocolVersion self /\
      announced = Some (issued_token request self) /\
      nonce = serverNonce (final r).
Proof.
  intros Hobs Hin r.
  destruct (handle_sent_options message callback self t o response Hobs Hin)
    as (response' & osc & result & c1 & e1 & header & token & tcp & security & _ & -> & ->
        & Hreq & En & Htoken & _ & _ & -> & Hfinal & Hpush & Hform & _).
  destruct (nonce_block_frame _ _ _ _ En)
    as (Ftoken & Flast & _ & _ & Fversion & _).
  assert (Hissued : securityToken c1 = Some (issued_token osc self))
    by (rewrite Ftoken; reflexivity).
  rewrite Hissued in Htoken. injection Htoken as <-.
  assert (Hf : securityToken (final r) = securityToken c1 /\
               lastTokenId (final r) = lastTokenId c1 /\
               serverNonce (final r) = serverNonce c1).
  { unfold r. rewrite Hfinal.
    destruct (abort_state_frame (counted OPN (settled message header c1)))
      as (A1 & A2 & _ & A4 & _).
    destruct (is_bad response'); [rewrite A1, A2, A4|]; cbn; auto. }
  destruct Hf as (Hf1 & Hf2 & Hf3).
  exists osc. unfold request_of. rewrite Hreq.
  split; [reflexivity|].
  split; [rewrite Hf1; exact Hissued|].
  split; [unfold securityTokenCount; rewrite Hf2, Flast; reflexivity|].
  split; [eexists; rewrite <- Hissued; exact Hpush|].
  split; [reflexivity|]. split; [reflexivity|]. split; [reflexivity|].
  split; [reflexivity|].
  intros version announced nonce Hbody. rewrite Hf3.
  destruct Hform as [->|[->|(der & cert & _ & _ & _ & ->)]]; cbn in Hbody;
    try discriminate; injection Hbody as <- <- <-; rewrite Hissued, Fversion; auto.
Qed.

(** X5: what protects a response of the handshake.  On a channel in mode [SIGN] or
    [SIGNANDENCRYPT] a response can only be sent when the crypto factory is there, the
    first certificate of the server's chain can be read and the cached length of the
    client's key is not negative; the signature length is then the key length of that
    server certificate, the cipher block is the length of the client's key and the
    plain block that length less the padding of the policy.  In any other mode, the
    mode [INVALID] included, the response goes out without protection. *)
Theorem handshake_response_protection (message : Message)
    (callback : option string -> M unit) (self : Channel)
    (t : MsgType) (o : ChunkOptions) (response : Response) :
  observer callback ->
  In (chunkSecureMessage t o response)
    (events (_handle_OpenSecureChannelRequest X message callback self)) ->
  match securityMode self with
  | SIGN | SIGNANDENCRYPT =>
      exists factory p s rest cert,
        cryptoFactory (messageBuilder self) = Some factory /\
        parent self = Some p /\
        split_der X (certificateChain p) = s :: rest /\
        exploreCertificate X s = Some cert /\
        0 <= receiverPublicKeyLength self /\
        security_options o =
          asymmetric_options (publicKeyLength cert)
            (receiverPublicKeyLength self - blockPaddingSize factory)
            (receiverPublicKeyLength self)
  | _ => security_options o = no_security_options
  end.
Proof.
  intros Hobs Hin.
  destruct (handle_sent_options message callback self t o response Hobs Hin)
    as (response' & osc & result & c1 & e1 & header & token & tcp & security & _ & -> & ->
        & Hreq & En & Htoken & _ & Hsec & -> & _).
  destruct (nonce_block_frame _ _ _ _ En)
    as (_ & _ & _ & _ & _ & Fmb & Flen & Fmode & Fparent & _).
  apply security_options_for_OPN_returns in Hsec.
  cbn [securityMode set_msgType settled set_clientCertificate set_securityHeader
         messageBuilder parent receiverPublicKeyLength] in Hsec.
  rewrite Fmode, Fmb, Fparent, Flen in Hsec. cbn in Hsec. exact Hsec.
Qed.

(** X6: the validity of the client certificate is checked on the sender certificate
    of the message in hand, and [_on_common_message] builds its messages without a
    security header; hence a request that reaches the channel after the first one is
    never answered with a ServiceFault: only an OpenSecureChannelRequest of message
    type OPN is answered at all, and always with an OpenSecureChannelResponse whose
    result is [Good], [BadSecurityModeRejected] or [BadCertificateInvalid], whatever
    has become of the certificate the client opened the channel with. *)
Theorem renewal_skips_certificate_validity (rq : Request) (mt : MsgType) (self : Channel)
    (t : MsgType) (o : ChunkOptions) (response : Response) :
  In (chunkSecureMessage t o response) (events (_on_common_message X rq mt self)) ->
  mt = OPN /\ t = OPN /\
  (exists request, rq = OpenSecureChannelRequest_ request) /\
  (exists version token nonce,
      body response = OpenSecureChannelResponse version token nonce) /\
  (serviceResult (responseHeader response) = Good \/
   serviceResult (responseHeader response) = BadSecurityModeRejected \/
   serviceResult (responseHeader response) = BadCertificateInvalid).
Proof.
  intros Hin. unfold _on_common_message in Hin.
  assert (Hb : forall f : Channel -> M unit, bind get f self = f self self).
  { intros f. unfold bind, get. destruct (f self self) as [[o0 c2] e2]. reflexivity. }
  rewrite Hb in Hin. clear Hb.
  assert (Hq : forall m : M unit, quiet m ->
             ~ In (chunkSecureMessage t o response) (events (m self)))
    by (intros m Hm; apply Hm).
  destruct mt, rq;
    try solve [exfalso;
               match type of Hin with
               | In _ (events (?m self)) => apply (Hq m); [|exact Hin]
               end;
               auto with trace; apply quiet_bind; auto with trace].
  destruct (handle_sent_options _ _ self t o response observer_noop Hin)
    as (response' & osc & result & c1 & e1 & header & token & tcp & security & _ & -> & ->
        & _ & En & _ & _ & _ & _ & _ & _ & _ & Hnone & _).
  pose proof (nonce_block_outcome X (prepared osc self)) as Hres.
  cbn zeta in Hres. rewrite En in Hres. unfold outcome in Hres; cbn in Hres.
  destruct Hres as (_ & _ & _ & _ & _ & _ & Hres). specialize (Hres _ eq_refl).
  split; [reflexivity|]. split; [reflexivity|]. split; [eexists; reflexivity|].
  destruct (Hnone eq_refl) as [-> | ->]; cbn.
  - split; [do 3 eexists; reflexivity|]. destruct Hres as [-> | ->]; auto.
  - split; [do 3 eexists; reflexivity|]. auto.
Qed.

(** X7: the handler checks the client certificate against the clock at the very
    moment of the request.  A certificate whose [notBefore] is the current time is
    accepted and one whose [notAfter] is the current time is refused: inside
    [notBefore, notAfter) every response is an OpenSecureChannelResponse; outside it
    the only response is a ServiceFault with [BadCertificateTimeInvalid], which
    replaces whatever the handshake had found before. *)
Theorem certificate_validity_window (message : Message)
    (callback : option string -> M unit) (self : Channel)
    (der : Buffer) (cert : Certificate)
    (t : MsgType) (o : ChunkOptions) (response : Response) :
  observer callback ->
  sender message = Some der ->
  exploreCertificate X der = Some cert ->
  In (chunkSecureMessage t o response)
    (events (_handle_OpenSecureChannelRequest X message callback self)) ->
  (notBefore cert <= clock self < notAfter cert ->
   exists version token nonce,
     body response = OpenSecureChannelResponse version token nonce) /\
  (clock self < notBefore cert \/ notAfter cert <= clock self ->
   response = {| responseHeader := {| serviceResult := BadCertificateTimeInvalid;
                                      rh_requestHandle := requestHandle (request message) |};
                 body := ServiceFault None |}).
Proof.
  intros Hobs Hder Hcert Hin.
  destruct (handle_sent_options message callback self t o response Hobs Hin)
    as (response' & osc & result & c1 & e1 & header & token & tcp & security & _ & -> & ->
        & _ & En & _ & _ & _ & _ & _ & _ & _ & _ & Hcases).
  destruct (nonce_block_frame _ _ _ _ En) as (_ & _ & _ & _ & _ & _ & _ & _ & _ & Fclock & _).
  assert (Hclock : clock c1 = clock self) by (rewrite Fclock; reflexivity).
  destruct (Hcases der cert Hder Hcert) as (Hgood & Hbad). rewrite Hclock in *.
  split.
  - intros (Hlo & Hhi).
    assert (Hv : validity cert (clock self) = Good).
    { unfold validity.
      destruct (Z.ltb_spec (clock self) (notBefore cert)); [lia|].
      destruct (Z.leb_spec (notAfter cert) (clock self)); [lia|reflexivity]. }
    destruct (Hgood Hv) as [-> | ->]; cbn; do 3 eexists; reflexivity.
  - intros Hout.
    assert (Hv : validity cert (clock self) = BadCertificateTimeInvalid).
    { unfold validity.
      destruct (Z.ltb_spec (clock self) (notBefore cert)); [reflexivity|].
      destruct (Z.leb_spec (notAfter cert) (clock self)); [reflexivity|lia]. }
    rewrite Hbad by (rewrite Hv; discriminate). rewrite Hv. reflexivity.
Qed.

End Announce.

(** * The first message of a channel *)

Section Rejections.

Variable X : Externals.

Lemma send_error_run (status : StatusCode) (description : string) (message : Message)
    (callback : option string -> M unit) (self : Channel) (token : ChannelSecurityToken)
    (tcp : ServerTCP_transport) :
  (0 <? requestId message) = true ->
  securityToken self = Some token ->
  transport self = Some tcp ->
  _send_error X status description message callback self =
  match callback (Some description) (abort_state (counted MSG (set_securityMode NONE self))) with
  | (o, c, e) =>
      (o, c,
       chunkSecureMessage MSG (chunk_options message token tcp no_security_options)
         (service_fault status description (request message))
         :: map transport_write
              (chunks_of X MSG (chunk_options message token tcp no_security_options)
                 (service_fault status description (request message)))
         ++ emit_transaction_done
         :: transport_disconnect
         :: abort_events (counted MSG (set_securityMode NONE self)) ++ e)
  end.
Proof.
  intros Hid Htoken Htcp.
  unfold _send_error, send_error_and_abort, bind, modify, assert. rewrite Hid. unfold ret.
  rewrite (send_response_run X MSG _ message _ (set_securityMode NONE self) token tcp
             no_security_options Hid Htoken Htcp eq_refl).
  cbn [call].
  rewrite (close_run _ (counted MSG (set_securityMode NONE self)) tcp Htcp).
  cbn [call].
  destruct (callback (Some description) _) as [[o c] e]. reflexivity.
Qed.

Lemma rejected_run (status : StatusCode) (description : string) (message : Message)
    (self : Channel) (token : ChannelSecurityToken) (tcp : ServerTCP_transport)
    (r : Outcome unit * Channel * list Event) :
  (0 <? requestId message) = true ->
  securityToken self = Some token ->
  transport self = Some tcp ->
  r = _send_error X status description message (fun err => emit (init_callback err)) self ->
  let fault := service_fault status description (request message) in
  let options := chunk_options message token tcp no_security_options in
  outcome r = Returned tt /\
  sent_responses (events r) = [fault] /\
  In (chunkSecureMessage MSG options fault) (events r) /\
  sent_then_closed (events r) fault /\
  In (init_callback (Some description)) (events r) /\
  tokenfree (events r) /\
  final r = abort_state (counted MSG (set_securityMode NONE self)).
Proof.
  intros Hid Htoken Htcp -> fault options.
  rewrite (send_error_run status description message _ self token tcp Hid Htoken Htcp).
  unfold emit, outcome, events, final. cbn [fst snd].
  fold fault options.
  split; [reflexivity|].
  split.
  { cbn [sent_responses]. f_equal. rewrite sent_responses_app.
    assert (Hw : forall chunks, sent_responses (map transport_write chunks) = []).
    { induction chunks as [|x chunks IH]; cbn; auto. }
    rewrite Hw. cbn. rewrite sent_responses_app.
    unfold abort_events. destruct (_abort_has_been_called _); reflexivity. }
  split; [left; reflexivity|].
  split.
  { exists [], MSG, options, (chunks_of X MSG options fault),
      (abort_events (counted MSG (set_securityMode NONE self))
       ++ [init_callback (Some description)]). reflexivity. }
  split.
  { right. apply in_or_app. right. right. right. apply in_or_app. right. left. reflexivity. }
  split; [|reflexivity].
  intros t k [H|H]; [discriminate|].
  apply in_app_or in H. destruct H as [H|[H|[H|H]]]; try discriminate.
  - apply in_map_iff in H. destruct H as (? & ? & _). discriminate.
  - apply in_app_or in H. destruct H as [H|[H|[]]]; [|discriminate].
    unfold abort_events in H. destruct (_abort_has_been_called _); [destruct H|].
    destruct H as [H|[]]. discriminate.
Qed.

Lemma abort_state_settles (c : Channel) :
  _abort_has_been_called (abort_state c) = true /\
  securityMode (abort_state c) = securityMode c /\
  lastTokenId (abort_state c) = lastTokenId c /\
  securityToken (abort_state c) = securityToken c /\
  listener (messageBuilder (abort_state c)) = listener (messageBuilder c).
Proof.
  split; [apply abort_state_aborted|].
  destruct (abort_state_frame c) as (A1 & A2 & _ & _ & _ & A6 & A7 & _).
  rewrite A1, A2, A6, A7. auto.
Qed.

Lemma initial_request_starts (callback : option string -> M unit) (rq : Request)
    (mt : MsgType) (self : Channel) :
  (0 <? sequenceHeader_requestId (messageBuilder self)) = true ->
  _on_initial_open_secure_channel_request X callback rq mt self =
  _on_initial_OpenSecureChannelRequest X (first_message rq self) callback
    (set_clientSecurityHeader (mb_securityHeader (messageBuilder self))
       (set_timeoutId None self)).
Proof.
  intros Hid.
  unfold _on_initial_open_secure_channel_request,
    _cancel_wait_for_open_secure_channel_request_timeout, bind, modify, get, assert, ret.
  cbn [messageBuilder set_timeoutId]. rewrite Hid.
  cbn [msg_securityHeader]. fold (first_message rq self).
  destruct (_on_initial_OpenSecureChannelRequest X (first_message rq self) _ _)
    as [[o c'] e'].
  reflexivity.
Qed.

(** X8: the first message of a channel must be an OpenSecureChannelRequest.  Any
    other request is answered with exactly one response, a ServiceFault
    [BadCommunicationError] that carries the handle of the request; it is sent as a
    MSG without any security option, under the token the channel holds -- on a new
    channel the placeholder with channel 0 and token 0 --; the transport is then
    disconnected, the channel aborted, and the callback of [init] is given the error.
    No token is issued and the channel ends in mode [NONE]. *)
Theorem first_message_must_open_the_channel (rq : Request) (mt : MsgType) (self : Channel)
    (token : ChannelSecurityToken) (tcp : ServerTCP_transport) :
  (forall request, rq <> OpenSecureChannelRequest_ request) ->
  0 < sequenceHeader_requestId (messageBuilder self) ->
  securityToken self = Some token ->
  transport self = Some tcp ->
  let r := _on_initial_open_secure_channel_request X (fun err => emit (init_callback err))
             rq mt self in
  let fault := service_fault BadCommunicationError "Expecting OpenSecureChannelRequest" rq in
  let options := chunk_options (first_message rq self) token tcp no_security_options in
  outcome r = Returned tt /\
  sent_responses (events r) = [fault] /\
  In (chunkSecureMessage MSG options fault) (events r) /\
  sent_then_closed (events r) fault /\
  In (init_callback (Some "Expecting OpenSecureChannelRequest")) (events r) /\
  tokenfree (events r) /\
  _abort_has_been_called (final r) = true /\
  securityMode (final r) = NONE /\
  securityTokenCount (final r) = securityTokenCount self /\
  securityToken (final r) = Some token.
Proof.
  intros Hrq Hid Htoken Htcp r fault options.
  assert (Hid' : (0 <? sequenceHeader_requestId (messageBuilder self)) = true)
    by (apply Z.ltb_lt; exact Hid).
  set (c := set_clientSecurityHeader (mb_securityHeader (messageBuilder self))
              (set_timeoutId None self)).
  set (log := console_log "BadCommunicationError: expecting a OpenChannelRequest as first communication message").
  set (r' := _send_error X BadCommunicationError "Expecting OpenSecureChannelRequest"
               (first_message rq self) (fun err => emit (init_callback err)) c).
  assert (Hr : r = (outcome r', final r', log :: events r')).
  { unfold r. rewrite (initial_request_starts _ rq mt self Hid'). fold c.
    unfold _on_initial_OpenSecureChannelRequest, bind, assert, ret.
    cbn [requestId request first_message]. rewrite Hid'.
    destruct rq as [request|h|name h]; [exfalso; eapply Hrq; reflexivity| |].
    - fold (first_message (CloseSecureChannelRequest h) self).
      unfold emit at 1. fold log. subst r'.
      destruct (_send_error X _ _ _ _ c) as [[o c'] e']. reflexivity.
    - fold (first_message (ServiceRequest name h) self).
      unfold emit at 1. fold log. subst r'.
      destruct (_send_error X _ _ _ _ c) as [[o c'] e']. reflexivity. }
  destruct (rejected_run BadCommunicationError "Expecting OpenSecureChannelRequest"
              (first_message rq self) c token tcp r' Hid' Htoken Htcp eq_refl)
    as (H1 & H2 & H3 & H4 & H5 & H6 & H7).
  destruct (abort_state_settles (counted MSG (set_securityMode NONE c)))
    as (A1 & A2 & A3 & A4 & _).
  rewrite Hr. unfold outcome, events, final in *. cbn [fst snd] in *.
  split; [exact H1|].
  split; [exact H2|].
  split; [right; exact H3|].
  split.
  { destruct H4 as (pre & t & o & chunks & post & E).
    exists (log :: pre), t, o, chunks, post. rewrite E. reflexivity. }
  split; [right; exact H5|].
  split; [intros t k [H|H]; [discriminate|eapply H6; exact H]|].
  rewrite H7. unfold securityTokenCount. rewrite A1, A2, A3, A4.
  cbn. auto.
Qed.

(** X9: an OpenSecureChannelRequest that opens a channel is rejected when the policy
    of its security header is not one of None, Basic128Rsa15 and Basic256, or when
    the endpoint has no description for the mode and the policy: the one response
    is a ServiceFault [BadSecurityPolicyRejected] sent as a MSG without any security
    option, after which the transport is disconnected and the channel aborted.  The
    request installs no token; the channel ends in mode [NONE], not in the mode the
    request asked for, and the listener of later messages is not registered. *)
Theorem unsupported_policy_is_rejected (osc : OpenSecureChannelRequest) (mt : MsgType)
    (self : Channel) (header : AsymmetricAlgorithmSecurityHeader)
    (token : ChannelSecurityToken) (tcp : ServerTCP_transport) :
  0 < sequenceHeader_requestId (messageBuilder self) ->
  mb_securityHeader (messageBuilder self) = Some header ->
  securityToken self = Some token ->
  transport self = Some tcp ->
  let policy := fromURI X (securityPolicyUri header) in
  isValidSecurityPolicy policy <> Good \/
  (exists endpoints,
      parent self = Some endpoints /\
      getEndpointDescription endpoints (osc_securityMode osc) policy = None) ->
  let rq := OpenSecureChannelRequest_ osc in
  let r := _on_initial_open_secure_channel_request X (fun err => emit (init_callback err))
             rq mt self in
  exists description,
    let fault := service_fault BadSecurityPolicyRejected description rq in
    let options := chunk_options (first_message rq self) token tcp no_security_options in
    outcome r = Returned tt /\
    events r = chunkSecureMessage MSG options fault
                 :: map transport_write (chunks_of X MSG options fault)
                 ++ emit_transaction_done :: transport_disconnect
                 :: (if _abort_has_been_called self then [] else [emit_abort])
                 ++ [init_callback (Some description)] /\
    _abort_has_been_called (final r) = true /\
    securityMode (final r) = NONE /\
    securityTokenCount (final r) = securityTokenCount self /\
    securityToken (final r) = Some token /\
    listener (messageBuilder (final r)) = listener (messageBuilder self).
Proof.
  intros Hid Hheader Htoken Htcp policy Hwhy rq r.
  assert (Hid' : (0 <? sequenceHeader_requestId (messageBuilder self)) = true)
    by (apply Z.ltb_lt; exact Hid).
  set (c := set_clientSecurityHeader (Some header) (set_timeoutId None self)).
  set (message := first_message rq self).
  assert (Hstart : r = _on_initial_OpenSecureChannelRequest X message
                         (fun err => emit (init_callback err)) c).
  { unfold r. rewrite (initial_request_starts _ rq mt self Hid'), Hheader. reflexivity. }
  assert (Hm : msg_securityHeader message = Some header) by exact Hheader.
  assert (Hmid : (0 <? requestId message) = true) by exact Hid'.
  assert (Hrun : exists description c0,
             securityToken c0 = Some token /\ transport c0 = Some tcp /\
             lastTokenId c0 = lastTokenId self /\
             _abort_has_been_called c0 = _abort_has_been_called self /\
             listener (messageBuilder c0) = listener (messageBuilder self) /\
             r = _send_error X BadSecurityPolicyRejected description message
                   (fun err => emit (init_callback err)) c0).
  { rewrite Hstart.
    unfold _on_initial_OpenSecureChannelRequest, bind, assert, ret.
    rewrite Hmid. unfold message at 1, rq at 1. cbn [request first_message]. fold rq. fold message.
    rewrite Hm. fold policy.
    destruct (isValidSecurityPolicy policy) eqn:Hpol;
      try solve [destruct policy; discriminate].
    - destruct Hwhy as [Hwhy|(endpoints & Hp & Hnone)]; [contradiction|].
      cbn [StatusCode_eqb negb].
      unfold has_endpoint_for_security_mode_and_policy, modify, get, bind, ret.
      cbn [securityMode set_securityMode messageBuilder set_messageBuilder parent c
             set_clientSecurityHeader set_timeoutId].
      rewrite Hp, Hnone. cbn [truthy negb].
      exists " This server doesn't not support",
        (set_messageBuilder
           (set_mb_securityMode (osc_securityMode osc) (messageBuilder c))
           (set_securityMode (osc_securityMode osc) c)).
      split; [exact Htoken|]. split; [exact Htcp|].
      split; [reflexivity|]. split; [reflexivity|]. split; [reflexivity|].
      destruct (_send_error X BadSecurityPolicyRejected _ _ _ _) as [[o c'] e'].
      reflexivity.
    - cbn [StatusCode_eqb negb].
      exists " Unsupported securityPolicyUri", c.
      split; [exact Htoken|]. split; [exact Htcp|].
      split; [reflexivity|]. split; [reflexivity|]. split; [reflexivity|].
      destruct (_send_error X BadSecurityPolicyRejected _ _ _ _) as [[o c'] e'].
      reflexivity. }
  destruct Hrun as (description & c0 & Htoken0 & Htcp0 & Hlast0 & Habort0 & Hlisten0 & Hr).
  exists description. cbv zeta.
  rewrite Hr.
  rewrite (send_error_run BadSecurityPolicyRejected description message _ c0 token tcp
             Hmid Htoken0 Htcp0).
  destruct (abort_state_settles (counted MSG (set_securityMode NONE c0)))
    as (A1 & A2 & A3 & A4 & A5).
  unfold emit, outcome, events, final, securityTokenCount. cbn [fst snd].
  rewrite A1, A2, A3, A4, A5.
  split; [reflexivity|].
  split; [unfold abort_events; cbn; rewrite Habort0; reflexivity|].
  cbn. auto 10.
Qed.

End Rejections.

(** * Later messages, the timers and the end of the channel *)

Section Dispatching.

Variable X : Externals.

(** X10: what [_on_common_message] does with a request that is not a renewal.  A
    CloseSecureChannelRequest is never answered: whatever the message type, the
    transport is disconnected and the channel aborted, with a warning on the console
    when the type is not CLO.  Any other request, an OpenSecureChannelRequest whose
    message type is not OPN included, is handed to the listeners of ["message"] with
    the request id of the sequence header, and the channel is left as it is. *)
Theorem common_message_dispatch :
  (forall (h : Z) (mt : MsgType) (self : Channel) (tcp : ServerTCP_transport),
      transport self = Some tcp ->
      exists log,
        _on_common_message X (CloseSecureChannelRequest h) mt self =
          (Returned tt, abort_state self, log ++ transport_disconnect :: abort_events self) /\
        (mt = CLO -> log = []) /\
        (mt <> CLO -> exists text, log = [console_log text]) /\
        _abort_has_been_called (abort_state self) = true) /\
  (forall (rq : Request) (mt : MsgType) (self : Channel),
      (forall h, rq <> CloseSecureChannelRequest h) ->
      (mt = OPN -> forall osc, rq <> OpenSecureChannelRequest_ osc) ->
      _on_common_message X rq mt self =
        (Returned tt, self,
         [emit_message {| request := rq; msg_securityHeader := None;
                          requestId := sequenceHeader_requestId (messageBuilder self) |}])).
Proof.
  split.
  - intros h mt self tcp Htcp.
    destruct mt; unfold _on_common_message, bind, get, emit;
      rewrite (close_run None _ tcp Htcp); cbn [call]; unfold ret; rewrite ?app_nil_r.
    + eexists [_]. split; [reflexivity|]. split; [discriminate|].
      split; [intros _; eexists; reflexivity|apply abort_state_aborted].
    + eexists [_]. split; [reflexivity|]. split; [discriminate|].
      split; [intros _; eexists; reflexivity|apply abort_state_aborted].
    + exists []. split; [reflexivity|]. split; [reflexivity|].
      split; [intros H; contradiction|apply abort_state_aborted].
  - intros rq mt self Hclose Hopen.
    destruct rq as [osc|h|name h]; [|exfalso; eapply Hclose; reflexivity|].
    + destruct mt; try reflexivity. exfalso. eapply Hopen; reflexivity.
    + destruct mt; reflexivity.
Qed.

(** X11: the timer armed by [init].  Once [init] has succeeded the channel waits for
    its first message under a timer whose delay is the [timeout] of the channel.  If
    the timer fires, the transport is disconnected, the channel is aborted and the
    callback of [init] receives an error; the timer is then gone, so that it cannot
    fire again.  When the transport fails to initialise, the callback receives the
    error at once, no timer is armed and no listener is registered: a message the
    builder would emit is dropped. *)
Theorem open_channel_timeout (options : Options) (id now : Z) (tcp : ServerTCP_transport) :
  let self := fst (constructor options id now) in
  (let waiting := final (init tcp None self) in
   timeoutId waiting = Some (or_default (options_timeout options) 10000) /\
   exists err closed,
     open_channel_timeout_fires waiting =
       (Returned tt, closed, [transport_disconnect; emit_abort; init_callback (Some err)]) /\
     _abort_has_been_called closed = true /\
     timeoutId closed = None /\
     open_channel_timeout_fires closed = (Returned tt, closed, [])) /\
  (forall err,
      let failed := init tcp (Some err) self in
      events failed = [init_callback (Some err)] /\
      timeoutId (final failed) = None /\
      open_channel_timeout_fires (final failed) = (Returned tt, final failed, []) /\
      forall i, events (messageBuilder_emits_message X i (final failed)) = []).
Proof.
  intros self. split.
  - cbv zeta. split; [reflexivity|].
    do 2 eexists. split; [reflexivity|]. cbn. auto.
  - intros err failed. repeat split.
Qed.

Lemma no_open_channel_timer_handle (message : Message) (callback : option string -> M unit) :
  (forall err, respects no_open_channel_timer (callback err)) ->
  respects no_open_channel_timer (_on_initial_OpenSecureChannelRequest X message callback).
Proof.
  intros Hk. walk no_open_channel_timer_monoidal step nothing.
Qed.

(** X12: the first message of a channel cancels the timer armed by [init] before
    anything else is looked at, and nothing arms it again: whatever the message and
    however its handling ends -- answered, rejected, or interrupted by an exception
    -- no timer is pending afterwards, and a late firing does nothing at all. *)
Theorem first_message_cancels_the_timeout (rq : Request) (mt : MsgType) (self : Channel) :
  let r := _on_initial_open_secure_channel_request X (fun err => emit (init_callback err))
             rq mt self in
  timeoutId (final r) = None /\
  open_channel_timeout_fires (final r) = (Returned tt, final r, []).
Proof.
  intros r.
  assert (H : timeoutId (final r) = None).
  { assert (Hrest : forall m : M unit, respects no_open_channel_timer m ->
                      timeoutId (final (m (set_timeoutId None self))) = None).
    { intros m Hm. apply (Hm (set_timeoutId None self)). reflexivity. }
    unfold r, _on_initial_open_secure_channel_request,
      _cancel_wait_for_open_secure_channel_request_timeout.
    match goal with
    | |- timeoutId (final (bind (modify ?f) ?k self)) = None =>
        specialize (Hrest (k tt));
        assert (E : bind (modify f) k self = k tt (set_timeoutId None self))
    end.
    { unfold bind at 1, modify. cbn.
      match goal with |- context [let (_, _) := ?x in _] => destruct x as [[o c] e] end.
      reflexivity. }
    rewrite E. apply Hrest.
    walk no_open_channel_timer_monoidal step
      ltac:(apply no_open_channel_timer_handle; intros; step). }
  split; [exact H|].
  unfold open_channel_timeout_fires, bind, get. rewrite H. reflexivity.
Qed.

(** X13: closing a channel that has not been aborted leaves no timer behind.  The
    transport is disconnected, ["abort"] is emitted, the flag is set, the watchdog of
    the token and the timer of the first message are cleared, and a firing of either
    afterwards changes nothing and calls nothing; closing once more disconnects the
    transport again but notifies nobody. *)
Theorem close_leaves_no_timer (self : Channel) (tcp : ServerTCP_transport) :
  transport self = Some tcp ->
  _abort_has_been_called self = false ->
  exists closed,
    close None self = (Returned tt, closed, [transport_disconnect; emit_abort]) /\
    _abort_has_been_called closed = true /\
    _securityTokenTimeout closed = None /\
    timeoutId closed = None /\
    security_token_watch_dog_fires closed = (Returned tt, closed, []) /\
    open_channel_timeout_fires closed = (Returned tt, closed, []) /\
    close None closed = (Returned tt, closed, [transport_disconnect]).
Proof.
  intros Htcp Hflag.
  exists (abort_state self).
  assert (Ht : _securityTokenTimeout (abort_state self) = None /\
               timeoutId (abort_state self) = None).
  { unfold abort_state. rewrite Hflag. cbn.
    destruct (_securityTokenTimeout self) eqn:E1; cbn;
      destruct (timeoutId self) eqn:E2; cbn; rewrite ?E1, ?E2; auto. }
  destruct Ht as (Ht1 & Ht2).
  split.
  { rewrite (close_run None self tcp Htcp). cbn [call]. unfold ret, abort_events.
    rewrite Hflag. reflexivity. }
  split; [apply abort_state_aborted|].
  split; [exact Ht1|]. split; [exact Ht2|].
  split; [unfold security_token_watch_dog_fires, bind, get; rewrite Ht1; reflexivity|].
  split; [unfold open_channel_timeout_fires, bind, get; rewrite Ht2; reflexivity|].
  rewrite (close_run None (abort_state self) tcp)
    by (rewrite abort_state_transport; exact Htcp).
  assert (E : abort_state (abort_state self) = abort_state self)
    by (unfold abort_state at 1; rewrite abort_state_aborted; reflexivity).
  cbn [call]. unfold ret, abort_events. rewrite E, abort_state_aborted. reflexivity.
Qed.

End Dispatching.

(** * Certificates, lifetimes and identifiers *)

Section Keys.

Variable X : Externals.

(** X14: [_process_certificates] caches what the message in hand says about the
    client and nothing older: the certificate kept is the sender certificate of the
    message, or none when the message has no security header or the certificate is
    empty; the key and its length are those extracted from that certificate, and
    none and 0 when there is no certificate or no key can be extracted.  In every
    case the continuation runs, once, on the channel so updated; no other field
    changes. *)
Theorem process_certificates_caches_the_sender (message : Message) (k : M unit)
    (self : Channel) :
  let certificate := match sender message with Some [] => None | s => s end in
  let key := match certificate with
             | Some der => extractPublicKeyFromCertificate X der
             | None => None
             end in
  let length := match key with Some key => rsa_length X key | None => 0 end in
  _process_certificates X message k self =
  k (set_receiverPublicKeyLength length
       (set_receiverPublicKey key (set_receiverCertificate certificate self))).
Proof.
  cbv zeta. rewrite (process_certificates_run X message k self).
  f_equal. unfold certificates_processed.
  destruct (sender message) as [[|b der]|]; cbn; try reflexivity.
  destruct (extractPublicKeyFromCertificate X (b :: der)); reflexivity.
Qed.

End Keys.

(** X15: a token the token class holds for expired at its creation is not installed.
    The handler fails on [assert(!securityToken.expired)] when it has already deleted
    the token of the channel, stopped its watchdog and taken the next identifier:
    nothing is sent and the channel is not closed, and as it holds no token, whatever
    it is asked to send next fails before anything reaches the chunker. *)
Theorem expired_token_is_not_installed (X : Externals) (message : Message)
    (callback : option string -> M unit) (self : Channel) (osc : OpenSecureChannelRequest) :
  request message = OpenSecureChannelRequest_ osc ->
  0 < requestId message ->
  expired X (issued_token osc self) (clock self) = true ->
  let r := _handle_OpenSecureChannelRequest X message callback self in
  outcome r = Thrown (AssertionError "!securityToken.expired") /\
  events r = [] /\
  securityToken (final r) = None /\
  _securityTokenTimeout (final r) = None /\
  securityTokenCount (final r) = securityTokenCount self + 1 /\
  _abort_has_been_called (final r) = _abort_has_been_called self /\
  forall t response' message' k,
    exists e c, send_response X t response' message' k (final r) = (Thrown e, c, []).
Proof.
  intros Hreq Hid He r.
  assert (Hid' : (0 <? requestId message) = true) by (apply Z.ltb_lt; exact Hid).
  unfold r. rewrite (handle_expired X message callback osc self Hreq Hid' He).
  unfold outcome, events, final; cbn [fst snd].
  repeat (split; [reflexivity|]).
  intros t response' message' k.
  unfold send_response, bind, assert, modify, get, throw.
  destruct (0 <? requestId message'); cbn; do 2 eexists; reflexivity.
Qed.

Lemma constructed_ids (calls : list (Options * Z)) :
  forall last,
    map secureChannelId (constructed calls last) =
    map (fun k => last + Z.of_nat k) (seq 1 (List.length calls)).
Proof.
  induction calls as [|[options now] rest IH]; intros last; [reflexivity|].
  cbn [constructed constructor getNextChannelId List.length seq map].
  cbn [secureChannelId]. f_equal.
  rewrite IH, <- (seq_shift (List.length rest) 1), map_map.
  apply map_ext. intros k. lia.
Qed.

Lemma sorted_NoDup (l : list Z) : StronglySorted Z.lt l -> NoDup l.
Proof.
  induction 1 as [|a l Hs IH Hall]; constructor; [|exact IH].
  intros Hin. rewrite Forall_forall in Hall. specialize (Hall a Hin). lia.
Qed.

(** X16: the identifiers of the channels a server creates.  The constructor draws
    them from one counter: the channels created one after the other carry the
    identifiers that follow the counter, in order, so that each is greater than all
    those before it and no two channels share one. *)
Theorem channel_ids_are_distinct (calls : list (Options * Z)) (last_channel_id : Z) :
  map secureChannelId (constructed calls last_channel_id) =
    map (fun k => last_channel_id + Z.of_nat k) (seq 1 (List.length calls)) /\
  StronglySorted Z.lt (map secureChannelId (constructed calls last_channel_id)) /\
  NoDup (map secureChannelId (constructed calls last_channel_id)).
Proof.
  rewrite constructed_ids.
  split; [reflexivity|]. split; [apply shifted_seq_sorted|].
  apply sorted_NoDup, shifted_seq_sorted.
Qed.

Lemma Number_toString_inj (a b : Z) : Number_toString a = Number_toString b -> a = b.
Proof.
  unfold Number_toString. intros H.
  apply DecimalZ.to_int_inj.
  assert (Hnz : forall z, Z.to_int z <> Decimal.Pos Decimal.Nil /\
                          Z.to_int z <> Decimal.Neg Decimal.Nil).
  { intros [|p|p]; cbn [Z.to_int]; split; try discriminate;
      intros E; injection E as E; revert E; apply DecimalPos.Unsigned.to_uint_nonnil. }
  destruct (Hnz a) as (Ha1 & Ha2). destruct (Hnz b) as (Hb1 & Hb2).
  pose proof (NilZero.isi _ Ha1 Ha2) as Ea. pose proof (NilZero.isi _ Hb1 Hb2) as Eb.
  rewrite H in Ea. rewrite Ea in Eb. injection Eb as Eb. exact Eb.
Qed.

Lemma handle_installs_token (X : Externals) (message : Message)
    (callback : option string -> M unit) (self : Channel)
    (t : MsgType) (o : ChunkOptions) (response : Response) :
  observer callback ->
  In (chunkSecureMessage t o response)
    (events (_handle_OpenSecureChannelRequest X message callback self)) ->
  exists osc,
    request message = OpenSecureChannelRequest_ osc /\
    securityToken (final (_handle_OpenSecureChannelRequest X message callback self))
    = Some (issued_token osc self).
Proof.
  intros Hobs Hin.
  destruct (handle_sent_options X message callback self t o response Hobs Hin)
    as (response' & osc & result & c1 & e1 & header & token & tcp & security & _ & _ & _
        & Hreq & En & _ & _ & _ & _ & Hfinal & _).
  destruct (nonce_block_frame X _ _ _ _ En) as (Ftoken & _).
  exists osc. split; [exact Hreq|]. rewrite Hfinal.
  destruct (abort_state_frame (counted OPN (settled message header c1))) as (A1 & _).
  destruct (is_bad response'); [rewrite A1|]; cbn; rewrite Ftoken; reflexivity.
Qed.

(** X17: [hashKey] is the decimal form of the channel identifier of the token the
    channel holds.  A channel fresh from the constructor holds the placeholder token,
    so every channel has the key ["0"] until it has answered its first
    OpenSecureChannelRequest; from that answer on the key is the decimal form of its
    own [secureChannelId], and two channels that have answered have the same key only
    if they have the same identifier. *)
Theorem hashKey_of_a_channel (X : Externals) :
  (forall options id now, hashKey (fst (constructor options id now)) = Returned "0") /\
  (forall message callback self t o response,
      observer callback ->
      In (chunkSecureMessage t o response)
        (events (_handle_OpenSecureChannelRequest X message callback self)) ->
      hashKey (final (_handle_OpenSecureChannelRequest X message callback self))
      = Returned (Number_toString (secureChannelId self))) /\
  (forall message1 callback1 self1 t1 o1 response1 message2 callback2 self2 t2 o2 response2,
      observer callback1 -> observer callback2 ->
      In (chunkSecureMessage t1 o1 response1)
        (events (_handle_OpenSecureChannelRequest X message1 callback1 self1)) ->
      In (chunkSecureMessage t2 o2 response2)
        (events (_handle_OpenSecureChannelRequest X message2 callback2 self2)) ->
      hashKey (final (_handle_OpenSecureChannelRequest X message1 callback1 self1))
      = hashKey (final (_handle_OpenSecureChannelRequest X message2 callback2 self2)) ->
      secureChannelId self1 = secureChannelId self2).
Proof.
  assert (Hkey : forall message callback self t o response,
             observer callback ->
             In (chunkSecureMessage t o response)
               (events (_handle_OpenSecureChannelRequest X message callback self)) ->
             hashKey (final (_handle_OpenSecureChannelRequest X message callback self))
             = Returned (Number_toString (secureChannelId self))).
  { intros message callback self t o response Hobs Hin.
    destruct (handle_installs_token X message callback self t o response Hobs Hin)
      as (osc & _ & Htoken).
    unfold hashKey. rewrite Htoken. reflexivity. }
  split; [reflexivity|]. split; [exact Hkey|].
  intros message1 callback1 self1 t1 o1 response1 message2 callback2 self2 t2 o2 response2
    Hobs1 Hobs2 Hin1 Hin2 Heq.
  rewrite (Hkey _ _ _ _ _ _ Hobs1 Hin1), (Hkey _ _ _ _ _ _ Hobs2 Hin2) in Heq.
  injection Heq as Heq. apply Number_toString_inj. exact Heq.
Qed.

(** * Statistics *)

Section Counting.

Variable Tick : Type.
Variable lap : option Tick -> option Tick -> Tick.

Lemma recorded_after (counters : list (Z * Z)) :
  forall (self : Bookkeeping Tick) (previous : Z * Z),
    _bytesRead_before self = Some (fst previous) ->
    _bytesWritten_before self = Some (snd previous) ->
    map byte_counts (recorded Tick lap counters self)
    = map (fun d => (Some (fst d), Some (snd d))) (differences previous counters).
Proof.
  induction counters as [|[r w] rest IH]; intros self previous Hr Hw; [reflexivity|].
  cbn [recorded _record_transaction_statistics last_transaction_stats differences map
         fst snd].
  rewrite (IH (_record_transaction_statistics Tick lap r w self) (r, w) eq_refl eq_refl).
  unfold byte_counts at 1. cbn [stats_bytesRead stats_bytesWritten].
  rewrite Hr, Hw. reflexivity.
Qed.

(** X18: the byte counts of [last_transaction_stats].  From the second transaction
    of a channel on, the two counts are the growth of [bytesRead] and of
    [bytesWritten] since the transaction before.  For the first transaction
    [bytesRead] is the full count, but [bytesWritten] is [NaN]: the function
    initialises a field named [_byesWritten_before], and subtracts
    [_bytesWritten_before], which has not been assigned yet. *)
Theorem statistics_of_transactions (zero : Tick) (first : Z * Z) (rest : list (Z * Z)) :
  map byte_counts (recorded Tick lap (first :: rest) (new_bookkeeping Tick zero))
  = (Some (fst first), None)
      :: map (fun d => (Some (fst d), Some (snd d))) (differences first rest).
Proof.
  destruct first as [r w].
  cbn [recorded _record_transaction_statistics last_transaction_stats map].
  rewrite (recorded_after rest
             (_record_transaction_statistics Tick lap r w (new_bookkeeping Tick zero))
             (r, w) eq_refl eq_refl).
  unfold byte_counts at 1. cbn. rewrite Z.sub_0_r. reflexivity.
Qed.

End Counting.

(** * The security mode of an open channel *)

Lemma settled_mode_monoidal : Monoidal settled_mode.
Proof.
  split; unfold settled_mode.
  - auto.
  - intros c e1 c1 e2 c2 H1 H2 Hc. destruct (H1 Hc) as (L1 & M1).
    destruct (H2 L1) as (L2 & M2). split; [exact L2|congruence].
Qed.

Ltac steady := intros ?; unfold settled_mode, events, final; cbn; auto.

Section Mode.

Variable X : Externals.

Lemma settled_mode_common_message (rq : Request) (mt : MsgType) :
  respects settled_mode (_on_common_message X rq mt).
Proof. walk settled_mode_monoidal steady nothing. Qed.

Lemma settled_mode_perform (a : Action) :
  is_init a = false -> respects settled_mode (perform X a).
Proof.
  destruct a; cbn [is_init perform]; intros Ha; try discriminate;
    try solve [walk settled_mode_monoidal steady nothing].
  intros c Hc.
  assert (E : messageBuilder_emits_message X i c =
              _on_common_message X (in_request i) (in_msgType i)
                (set_messageBuilder (messageBuilder_read i (messageBuilder c)) c)).
  { unfold messageBuilder_emits_message, bind, modify, get.
    cbn [messageBuilder set_messageBuilder listener messageBuilder_read]. rewrite Hc.
    destruct (_on_common_message X _ _ _) as [[o c'] e']. reflexivity. }
  rewrite E.
  apply (settled_mode_common_message (in_request i) (in_msgType i)
           (set_messageBuilder (messageBuilder_read i (messageBuilder c)) c)).
  exact Hc.
Qed.

(** X19: the security mode of a channel is settled by its first request.  Once that
    request has been accepted, so that the listener of later messages is registered,
    nothing that happens to the channel changes its [securityMode]: not a renewal,
    whatever mode the renewing request asks for, nor a response, an error, a timer
    or the end of the channel. *)
Theorem security_mode_is_settled (actions : list Action) (self : Channel) :
  forallb (fun a => negb (is_init a)) actions = true ->
  listener (messageBuilder self) = common_listener ->
  securityMode (fst (life X actions self)) = securityMode self /\
  listener (messageBuilder (fst (life X actions self))) = common_listener.
Proof.
  revert self. induction actions as [|a rest IH]; intros self Hall Hl; [auto|].
  cbn [forallb] in Hall. apply andb_prop in Hall. destruct Hall as (Ha & Hrest).
  apply negb_true_iff in Ha.
  destruct (settled_mode_perform a Ha self Hl) as (L1 & M1).
  cbn [life]. specialize (IH (final (perform X a self)) Hrest L1).
  destruct (life X rest (final (perform X a self))) as [c' e']. cbn [fst] in *.
  destruct IH as (M2 & L2). split; [congruence|exact L2].
Qed.

End Mode.

(** * Keys, and handshakes that do not complete *)

Section Interrupted.

Variable X : Externals.

Lemma keeps_keys_monoidal (mode : MessageSecurityMode) (factory : CryptoFactory)
    (keys : DerivedKeys) : Monoidal (keeps_keys mode factory keys).
Proof.
  split; unfold keeps_keys.
  - intros c Hc. split; [exact Hc|constructor].
  - intros c e1 c1 e2 c2 H1 H2 Hc. destruct (H1 Hc) as (K1 & P1).
    destruct (H2 K1) as (K2 & P2). split; [exact K2|].
    apply Forall_app. split; assumption.
Qed.

Ltac kept :=
  let c := fresh in
  let H := fresh in
  intros c H; unfold keeps_keys, keyed, protected, events, final in *; cbn in *;
  split; [exact H|repeat constructor].

Section Keyed.

Variable mode : MessageSecurityMode.
Variable factory : CryptoFactory.
Variable keys : DerivedKeys.
Hypothesis Hmode : mode <> NONE.

Let R := keeps_keys mode factory keys.
Let HR := keeps_keys_monoidal mode factory keys.

Lemma keeps_keys_send_response (t : MsgType) (response : Response) (message : Message)
    (callback : option (M unit)) :
  respects R (call callback) ->
  respects R (send_response X t response message callback).
Proof.
  intros Hk c Hc. unfold R, keeps_keys in *.
  assert (Hc' : keyed mode factory keys (set_msgType (Some t) c)) by exact Hc.
  unfold send_response, bind, assert, get, modify, emit, ret, throw.
  destruct (0 <? requestId message); [|split; [exact Hc|constructor]].
  cbn [securityToken set_msgType transport].
  destruct (securityToken c) as [token|]; [|split; [exact Hc'|constructor]].
  destruct (transport c) as [tcp|]; [|split; [exact Hc'|constructor]].
  set (c1 := set_msgType (Some t) c) in *.
  assert (Hopt : exists o,
             (if MsgType_eqb t OPN then _get_security_options_for_OPN X
              else _get_security_options_for_MSG) c1 = (o, c1, []) /\
             (t <> OPN ->
              o = Returned (symmetric_options mode (derivedServerKeys keys)))).
  { destruct t; cbn [MsgType_eqb].
    - destruct (security_options_for_OPN_pure X c1) as [o E]. exists o.
      split; [exact E|]. intros H. contradiction.
    - eexists. split; [|intros _; reflexivity].
      destruct Hc' as (_ & Hm & Hf & Hd).
      unfold _get_security_options_for_MSG, bind, get, ret. rewrite Hm, Hf, Hd.
      destruct mode; try reflexivity. contradiction.
    - eexists. split; [|intros _; reflexivity].
      destruct Hc' as (_ & Hm & Hf & Hd).
      unfold _get_security_options_for_MSG, bind, get, ret. rewrite Hm, Hf, Hd.
      destruct mode; try reflexivity. contradiction. }
  destruct Hopt as (o & -> & Ho).
  destruct o as [security|x]; [|split; [exact Hc'|constructor]].
  rewrite chunker_calls_back_run.
  specialize (Hk (set__transactionsCount (_transactionsCount c1 + 1) c1) Hc').
  destruct (call callback _) as [[o2 c2] e2].
  unfold events, final in *. cbn [fst snd] in *.
  destruct Hk as (K & P). split; [exact K|].
  constructor.
  - intros Ht. specialize (Ho Ht). injection Ho as ->. reflexivity.
  - apply Forall_app. split.
    + apply Forall_forall. intros e He. apply in_map_iff in He.
      destruct He as (chunk & <- & _). exact I.
    + constructor; [exact I|exact P].
Qed.

Lemma keeps_keys_common_message (rq : Request) (mt : MsgType) :
  (mt = OPN -> forall osc, rq <> OpenSecureChannelRequest_ osc) ->
  respects R (_on_common_message X rq mt).
Proof.
  intros Hrenew. unfold _on_common_message.
  apply (respects_bind _ HR); [apply (respects_get _ HR)|intros self].
  destruct mt, rq; try solve [walk HR kept nothing].
  exfalso. exact (Hrenew eq_refl _ eq_refl).
Qed.

Lemma keeps_keys_perform (a : Action) : keeping factory a -> respects R (perform X a).
Proof.
  destruct a; cbn [keeping perform]; intros Ha; try contradiction;
    try solve [walk HR kept ltac:(apply keeps_keys_send_response)].
  destruct Ha as (Hf & Hrenew).
  intros c Hc. destruct Hc as (Hl & Hm & Hc3 & Hd).
  assert (E : messageBuilder_emits_message X i c =
              _on_common_message X (in_request i) (in_msgType i)
                (set_messageBuilder (messageBuilder_read i (messageBuilder c)) c)).
  { unfold messageBuilder_emits_message, bind, modify, get.
    cbn [messageBuilder set_messageBuilder listener messageBuilder_read]. rewrite Hl.
    destruct (_on_common_message X _ _ _) as [[o c'] e']. reflexivity. }
  rewrite E.
  apply (keeps_keys_common_message (in_request i) (in_msgType i) Hrenew
           (set_messageBuilder (messageBuilder_read i (messageBuilder c)) c)).
  repeat split; cbn; assumption.
Qed.

Lemma keeps_keys_life (actions : list Action) :
  Forall (keeping factory) actions ->
  forall c, R c (snd (life X actions c)) (fst (life X actions c)).
Proof.
  induction 1 as [|a rest Ha Hrest IH]; intros c; cbn [life].
  - apply (idle _ HR).
  - specialize (IH (final (perform X a c))).
    destruct (life X rest (final (perform X a c))) as [c' e']. cbn [fst snd] in *.
    eapply (chained _ HR); [apply (keeps_keys_perform a Ha)|exact IH].
Qed.

End Keyed.

(** X20: the responses that follow a handshake are protected with the keys of that
    handshake.  When a request has been answered on a channel that listens for later
    messages, whose mode is not [NONE] and whose builder has a crypto factory, the
    server nonce the channel holds is the one drawn for this request; and as long as
    the channel is neither initialised again nor renews its token, the builder keeping
    its crypto factory, every message of a type other than OPN that the channel hands
    to the chunker -- a response of the upper layer, an error -- is given the
    symmetric options of the channel's mode with the server keys derived from that
    server nonce and the client nonce of the request. *)
Theorem responses_use_the_keys_of_the_handshake (message : Message)
    (callback : option string -> M unit) (self : Channel)
    (osc : OpenSecureChannelRequest) (factory : CryptoFactory) (client : Buffer)
    (t : MsgType) (o : ChunkOptions) (response : Response) (actions : list Action) :
  observer callback ->
  request_of message = Some osc ->
  cryptoFactory (messageBuilder self) = Some factory ->
  osc_clientNonce osc = Some client ->
  securityMode self <> NONE ->
  listener (messageBuilder self) = common_listener ->
  let r := _handle_OpenSecureChannelRequest X message callback self in
  In (chunkSecureMessage t o response) (events r) ->
  Forall (keeping factory) actions ->
  let nonce := map (entropy X) (seq (entropyCursor self) (symmetricKeyLength factory)) in
  serverNonce (final r) = Some nonce /\
  forall t' o' sent,
    In (chunkSecureMessage t' o' sent) (snd (life X actions (final r))) ->
    t' <> OPN ->
    security_options o' =
      symmetric_options (securityMode self)
        (derivedServerKeys (compute_derived_keys factory nonce client)).
Proof.
  intros Hobs Hreq Hf Hc Hmode Hl r Hin Hkeep nonce.
  destruct (handle_sent_options X message callback self t o response Hobs Hin)
    as (response0 & osc' & result & c1 & e1 & header & token & tcp & security & _ & _ & _
        & Hreq' & En & _ & _ & _ & _ & Hfinal & _).
  unfold request_of in Hreq. rewrite Hreq' in Hreq. injection Hreq as ->.
  rewrite (nonce_block_with_factory X (prepared osc self) factory client Hf Hc) in En.
  change (server_nonce_of X factory (prepared osc self)) with nonce in En.
  injection En as _ Ec1 _.
  assert (Hstate : serverNonce (final r) = Some nonce /\
                   keyed (securityMode self) factory
                     (compute_derived_keys factory nonce client) (final r)).
  { unfold r, keyed. rewrite Hfinal.
    destruct (abort_state_frame (counted OPN (settled message header c1)))
      as (_ & _ & _ & A4 & A5 & A6 & A7 & _).
    destruct (is_bad response0); [rewrite A4, A5, A6, A7|]; subst c1; cbn; auto. }
  destruct Hstate as (Hnonce & Hkeyed).
  split; [exact Hnonce|].
  intros t' o' sent Hin' Ht'.
  destruct (keeps_keys_life (securityMode self) factory
              (compute_derived_keys factory nonce client) Hmode actions Hkeep (final r)
              Hkeyed) as (_ & Hall).
  rewrite Forall_forall in Hall. exact (Hall _ Hin' Ht').
Qed.

(** X21: a request whose [securityMode] is [INVALID] interrupts the handler after the
    token has been issued, the assertion on the new token passed.  No security header can be prepared for it, the assertion
    on the header fails and nothing is sent; yet the token counter has advanced, the
    new token is the one the channel holds, its watchdog is armed and it has been
    pushed to the message builder. *)
Theorem invalid_mode_interrupts_the_handshake (message : Message)
    (callback : option string -> M unit) (self : Channel) (osc : OpenSecureChannelRequest) :
  request_of message = Some osc ->
  0 < requestId message ->
  expired X (issued_token osc self) (clock self) = false ->
  osc_securityMode osc = INVALID ->
  cryptoFactory (messageBuilder self) = None ->
  let r := _handle_OpenSecureChannelRequest X message callback self in
  outcome r = Thrown (AssertionError "self.securityHeader") /\
  events r = [pushNewToken (Some (issued_token osc self))
                (option_map derivedClientKeys (derivedKeys self))] /\
  securityToken (final r) = Some (issued_token osc self) /\
  securityTokenCount (final r) = securityTokenCount self + 1 /\
  _securityTokenTimeout (final r) <> None /\
  securityHeader (final r) = None.
Proof.
  intros Hreq Hid He Hmode Hf r.
  assert (Hreq' : request message = OpenSecureChannelRequest_ osc).
  { unfold request_of in Hreq. destruct (request message); try discriminate.
    injection Hreq as ->. reflexivity. }
  assert (Hid' : (0 <? requestId message) = true) by (apply Z.ltb_lt; exact Hid).
  unfold r. rewrite (handle_prefix X message callback osc self Hreq' Hid' He).
  rewrite (nonce_block_without_factory X (prepared osc self) Hf).
  unfold after_nonce, _prepare_security_header, bind, get, emit, modify, ret, throw.
  rewrite Hmode. unfold outcome, events, final. cbn.
  repeat split; try reflexivity. discriminate.
Qed.

(** X22: a first message whose sequence header carries no positive request id leaves
    the channel in limbo.  The listener of the first message has been consumed and
    the timer of [init] cancelled when the assertion on the request id fails:
    nothing is sent, the transport is not disconnected, the channel is not aborted;
    and afterwards the timer does nothing and any message of the builder is
    dropped. *)
Theorem first_message_without_request_id (i : Incoming) (self : Channel) :
  listener (messageBuilder self) = initial_listener ->
  in_requestId i <= 0 ->
  let r := messageBuilder_emits_message X i self in
  (exists what, outcome r = Thrown (AssertionError what)) /\
  events r = [] /\
  _abort_has_been_called (final r) = _abort_has_been_called self /\
  securityTokenCount (final r) = securityTokenCount self /\
  listener (messageBuilder (final r)) = no_listener /\
  open_channel_timeout_fires (final r) = (Returned tt, final r, []) /\
  forall i', events (messageBuilder_emits_message X i' (final r)) = [].
Proof.
  intros Hl Hid r.
  assert (Hid' : (0 <? in_requestId i) = false) by (apply Z.ltb_ge; exact Hid).
  assert (Hr : r = (Thrown (AssertionError "requestId > 0"),
                    set_timeoutId None
                      (set_messageBuilder
                         (set_listener no_listener
                            (messageBuilder_read i (messageBuilder self))) self), [])).
  { unfold r, messageBuilder_emits_message, _on_initial_open_secure_channel_request,
      _cancel_wait_for_open_secure_channel_request_timeout, bind, modify, get, assert,
      throw.
    cbn [messageBuilder set_messageBuilder listener messageBuilder_read set_listener
           sequenceHeader_requestId set_timeoutId].
    rewrite Hl. cbn [messageBuilder set_messageBuilder listener messageBuilder_read
                       set_listener sequenceHeader_requestId set_timeoutId].
    rewrite Hid'. reflexivity. }
  rewrite Hr. unfold outcome, events, final. cbn [fst snd].
  split; [eexists; reflexivity|]. repeat split.
Qed.

End Interrupted.

(** * The outcome of a handshake *)

Section Outcome.

Variable X : Externals.

Lemma nonce_block_result (s c1 : Channel) (result : StatusCode) (e1 : list Event)
    (request : OpenSecureChannelRequest) :
  clientNonce s = osc_clientNonce request ->
  nonce_block X s s = (Returned result, c1, e1) ->
  receiverCertificate c1 = receiverCertificate s /\
  clientSecurityHeader c1 = clientSecurityHeader s /\
  (result = Good \/ result = BadSecurityModeRejected) /\
  (result = Good <-> nonces_agree s request).
Proof.
  intros Hc E. unfold nonces_agree.
  destruct (cryptoFactory (messageBuilder s)) as [factory|] eqn:Hf.
  - rewrite <- Hc.
    destruct (clientNonce s) as [client|] eqn:Hn.
    + rewrite (nonce_block_with_factory X s factory client Hf Hn) in E.
      injection E as <- <- _. cbn.
      destruct (Nat.eqb_spec (List.length client) (symmetricKeyLength factory)).
      * repeat split; auto.
      * repeat split; auto; [discriminate|contradiction].
    + rewrite (nonce_block_without_client_nonce X s factory Hf Hn) in E. discriminate.
  - rewrite (nonce_block_without_factory X s Hf) in E. injection E as <- <- _.
    repeat split; auto.
Qed.

Lemma thumbprint_block_result (s : Channel) (response response1 : Response)
    (e : list Event) :
  thumbprint_block X s response s = (Returned response1, s, e) ->
  (thumbprint_agrees X s /\ response1 = response) \/
  (~ thumbprint_agrees X s /\ response1 = set_serviceResult BadCertificateInvalid response).
Proof.
  unfold thumbprint_block, thumbprint_agrees.
  destruct (securityMode s) eqn:Hm; cbn [MessageSecurityMode_eqb negb];
    try solve [unfold ret; intros [= <- _]; left; auto].
  all: destruct (clientSecurityHeader s) as [header|]; [|discriminate];
    unfold bind; rewrite check_receiverCertificateThumbprint_run;
    destruct (receiverCertificateThumbprint header) as [thumbprint|];
    [|intros [= <- _]; left; split; [right; destruct (parent s); auto|reflexivity]];
    destruct (parent s) as [p|]; [|discriminate];
    destruct (String.eqb (toString_hex (makeSHA1Thumbprint X (certificateChain p)))
                (toString_hex thumbprint)) eqn:E;
    unfold ret, emit; intros [= <- _];
    [apply toString_hex_eqb in E; left; split; [right; symmetry; exact E|reflexivity]
    |right; split; [|reflexivity];
     intros [H|H]; [discriminate|];
     assert (E' : String.eqb (toString_hex (makeSHA1Thumbprint X (certificateChain p)))
                    (toString_hex thumbprint) = true)
       by (apply toString_hex_eqb; symmetry; exact H);
     congruence].
Qed.

Lemma prepare_security_header_result (osc : OpenSecureChannelRequest) (message : Message)
    (c : Channel) (header : AsymmetricAlgorithmSecurityHeader) :
  _prepare_security_header X osc message c = (Returned (Some header), c, []) ->
  response_header X osc c = Some header.
Proof.
  unfold _prepare_security_header, response_header, bind, assert, get, ret, throw.
  destruct (osc_securityMode osc); try discriminate.
  - destruct (match msg_securityHeader message with
              | Some h => String.eqb (securityPolicyUri h) SecurityPolicy_None_uri
              | None => true
              end); [|discriminate].
    intros [= <-]. reflexivity.
  - destruct (clientSecurityHeader c); [|discriminate].
    rewrite getCertificateChain_pure. destruct (parent c); [|discriminate].
    intros [= <-]. reflexivity.
  - destruct (clientSecurityHeader c); [|discriminate].
    rewrite getCertificateChain_pure. destruct (parent c); [|discriminate].
    intros [= <-]. reflexivity.
Qed.

(** The parts of an answered handshake. *)
Lemma handle_sent_parts (message : Message) (callback : option string -> M unit)
    (self : Channel) (t : MsgType) (o : ChunkOptions) (response : Response) :
  observer callback ->
  In (chunkSecureMessage t o response)
    (events (_handle_OpenSecureChannelRequest X message callback self)) ->
  exists osc result header,
    request message = OpenSecureChannelRequest_ osc /\
    (result = Good <-> nonces_agree self osc) /\
    (result = Good \/ result = BadSecurityModeRejected) /\
    response_header X osc self = Some header /\
    securityHeader (final (_handle_OpenSecureChannelRequest X message callback self))
    = Some header /\
    (exists keys, In (messageChunker_update header keys)
                    (events (_handle_OpenSecureChannelRequest X message callback self))) /\
    ((thumbprint_agrees X self /\ certificate_in_date X message self /\
      serviceResult (responseHeader response) = result) \/
     (~ thumbprint_agrees X self /\ certificate_in_date X message self /\
      serviceResult (responseHeader response) = BadCertificateInvalid) \/
     (~ certificate_in_date X message self /\
      serviceResult (responseHeader response) = BadCertificateTimeInvalid)).
Proof.
  intros Hobs Hin.
  destruct (handle_sent_options X message callback self t o response Hobs Hin)
    as (response' & osc & result & c1 & e1 & header & token & tcp & security & Hrun & _ & ->
        & Hreq & En & _ & _ & _ & _ & Hfinal & _ & _ & Hnone & Hcases).
  destruct (nonce_block_frame X _ _ _ _ En)
    as (_ & _ & _ & _ & _ & _ & _ & Fmode & Fparent & Fclock & _).
  destruct (nonce_block_result (prepared osc self) c1 result e1 osc eq_refl En)
    as (Fcert & Fclient & Hres & Hagree).
  destruct Hrun as (osc' & result' & c1' & e1' & header' & response1 & e2 & e3 & tcp' & e4
                    & Hreq' & _ & En' & Eh & E2 & E3 & _ & _ & _ & _ & _ & Er).
  rewrite Hreq in Hreq'. injection Hreq' as <-.
  rewrite En in En'. injection En' as <- <- <-.
  exists osc, result, header'.
  split; [exact Hreq|]. split; [exact Hagree|]. split; [exact Hres|].
  assert (Hheader : response_header X osc self = Some header').
  { apply prepare_security_header_result in Eh.
    unfold response_header in *. rewrite Fclient, Fparent, Fcert in Eh. exact Eh. }
  split; [exact Hheader|].
  split.
  { rewrite Er. unfold final. cbn [fst snd].
    destruct (abort_state_frame (counted OPN (settled message header' c1)))
      as (_ & _ & _ & _ & _ & _ & _ & _ & A9).
    destruct (is_bad response'); [rewrite A9|]; reflexivity. }
  split.
  { eexists. rewrite Er. unfold events. cbn [snd].
    apply in_or_app. right. right. left. reflexivity. }
  assert (Hthumb : thumbprint_agrees X (settled message header' c1)
                   <-> thumbprint_agrees X self).
  { unfold thumbprint_agrees. cbn [securityMode clientSecurityHeader parent settled
                                     set_clientCertificate set_securityHeader].
    rewrite Fmode, Fclient, Fparent. reflexivity. }
  apply thumbprint_block_result in E2. rewrite Hthumb in E2.
  assert (Hclock : clock c1 = clock self) by (rewrite Fclock; reflexivity).
  unfold certificate_in_date.
  destruct (sender message) as [der|] eqn:Hder.
  - destruct (exploreCertificate X der) as [cert|] eqn:Hcert.
    + destruct (Hcases der cert eq_refl Hcert) as (Hgood & Hbad). rewrite Hclock in *.
      assert (Hv : validity cert (clock self) = Good
                   <-> notBefore cert <= clock self < notAfter cert).
      { unfold validity.
        destruct (Z.ltb_spec (clock self) (notBefore cert));
          [split; [discriminate|lia]|].
        destruct (Z.leb_spec (notAfter cert) (clock self));
          [split; [discriminate|lia]|].
        split; [lia|reflexivity]. }
      destruct (validity_cases cert (clock self)) as [Hval|Hval].
      * assert (Hdate := proj1 Hv Hval).
        assert (E3' := E3).
        destruct (certificate_block_run X (settled message header' c1) response1
                    (settled message header' c1) der cert Hder Hcert) as (e & Heq & _).
        rewrite Heq in E3'. injection E3' as Hresp _.
        cbn [clock settled set_clientCertificate set_securityHeader] in Hresp.
        rewrite Hclock, Hval in Hresp. cbn in Hresp. subst response'.
        destruct E2 as [(Hok & ->)|(Hno & ->)]; [left|right; left]; auto.
      * right. right. rewrite (Hbad ltac:(rewrite Hval; discriminate)), Hval.
        split; [|reflexivity]. intros Hdate. apply Hv in Hdate. congruence.
    + exfalso.
      unfold certificate_block, _check_certificate_validity, bind, throw in E3.
      cbn [clientCertificate settled set_clientCertificate set_securityHeader] in E3.
      rewrite Hder in E3. cbn [truthy] in E3. rewrite Hcert in E3. discriminate.
  - rewrite (certificate_block_absent X (settled message header' c1) response1
               (settled message header' c1) Hder) in E3.
    injection E3 as -> _.
    destruct E2 as [(Hok & ->)|(Hno & ->)]; [left|right; left]; auto.
Qed.

(** X23: a request is answered [Good] exactly when three things hold: the client
    nonce has the length of the keys of the policy, or the policy has no keys; the
    channel is in mode [NONE], or the client has sent no thumbprint, or the
    thumbprint it has sent is the digest of the endpoint's chain; and the message
    carries no sender certificate, or one that is in its validity period.  Otherwise
    the result is [BadSecurityModeRejected] for the nonce, [BadCertificateInvalid]
    for the thumbprint, which takes precedence, and [BadCertificateTimeInvalid] for
    the certificate, which takes precedence over both. *)
Theorem handshake_succeeds_exactly_when (message : Message)
    (callback : option string -> M unit) (self : Channel)
    (t : MsgType) (o : ChunkOptions) (response : Response) :
  observer callback ->
  In (chunkSecureMessage t o response)
    (events (_handle_OpenSecureChannelRequest X message callback self)) ->
  exists request,
    request_of message = Some request /\
    (serviceResult (responseHeader response) = Good <->
     nonces_agree self request /\ thumbprint_agrees X self /\
     certificate_in_date X message self) /\
    (~ certificate_in_date X message self ->
     serviceResult (responseHeader response) = BadCertificateTimeInvalid) /\
    (certificate_in_date X message self -> ~ thumbprint_agrees X self ->
     serviceResult (responseHeader response) = BadCertificateInvalid) /\
    (certificate_in_date X message self -> thumbprint_agrees X self ->
     ~ nonces_agree self request ->
     serviceResult (responseHeader response) = BadSecurityModeRejected).
Proof.
  intros Hobs Hin.
  destruct (handle_sent_parts message callback self t o response Hobs Hin)
    as (osc & result & header & Hreq & Hagree & Hres & _ & _ & _ & Hcases).
  exists osc. unfold request_of. rewrite Hreq. split; [reflexivity|].
  destruct Hcases as [(Ht & Hc & ->)|[(Ht & Hc & ->)|(Hc & ->)]].
  - split; [split; [intros H; apply Hagree in H; auto|intros (H & _); apply Hagree; exact H]|].
    split; [intros H; contradiction|]. split; [intros _ H; contradiction|].
    intros _ _ Hn. destruct Hres as [Hg|Hb]; [|exact Hb].
    exfalso. apply Hn, Hagree. exact Hg.
  - split; [split; [discriminate|intros (_ & H & _); contradiction]|].
    split; [intros H; contradiction|]. split; [reflexivity|].
    intros _ H; contradiction.
  - split; [split; [discriminate|intros (_ & _ & H); contradiction]|].
    split; [reflexivity|]. split; intros H; contradiction.
Qed.

(** X24: the security header of the response.  When a request is answered, the
    channel holds, and has given the message chunker, the header prepared for the
    mode the request asks for, which need not be the mode of the channel: for
    [NONE] the header of the policy None without certificate or thumbprint; for
    [SIGN] and [SIGNANDENCRYPT] the policy of the client's header, the whole chain of
    the endpoint as sender certificate, and the digest of the client certificate
    cached by [_process_certificates] as thumbprint.  A request in mode [INVALID] is
    never answered. *)
Theorem response_security_header (message : Message)
    (callback : option string -> M unit) (self : Channel)
    (t : MsgType) (o : ChunkOptions) (response : Response) :
  observer callback ->
  In (chunkSecureMessage t o response)
    (events (_handle_OpenSecureChannelRequest X message callback self)) ->
  let r := _handle_OpenSecureChannelRequest X message callback self in
  exists request header,
    request_of message = Some request /\
    osc_securityMode request <> INVALID /\
    response_header X request self = Some header /\
    securityHeader (final r) = Some header /\
    exists keys, In (messageChunker_update header keys) (events r).
Proof.
  intros Hobs Hin r.
  destruct (handle_sent_parts message callback self t o response Hobs Hin)
    as (osc & result & header & Hreq & _ & _ & Hheader & Hfinal & Hupdate & _).
  exists osc, header. unfold request_of. rewrite Hreq.
  split; [reflexivity|].
  split; [intros H; unfold response_header in Hheader; rewrite H in Hheader; discriminate|].
  split; [exact Hheader|]. split; [exact Hfinal|exact Hupdate].
Qed.

End Outcome.

(** * A channel from its construction to its first answer *)

Section Opening.

Variable X : Externals.

(** X25: opening a channel without security.  A channel is constructed and
    initialised, and the first message the builder emits is an
    OpenSecureChannelRequest in mode [NONE] under the policy None, with a positive
    request id, for which the endpoint, if there is one, has a description, and whose
    token the token class does not hold for expired at its creation.  The channel
    then installs token 1 of its own [secureChannelId], stamped with the
    time of the request and with the revised lifetime, pushes it to the message
    builder without keys, gives the chunker the header of the policy None, and sends
    one response: an OpenSecureChannelResponse [Good] that carries the request
    handle, the token and no server nonce, sent unprotected; the callback of [init]
    is then told of the success.  The channel is left in mode [NONE], listening for
    later messages, with the watchdog of the token armed and no other timer. *)
Theorem channel_opens_without_security (options : Options) (id now : Z)
    (tcp : ServerTCP_transport) (osc : OpenSecureChannelRequest) (mt : MsgType) (n : Z) :
  let self := fst (constructor options id now) in
  let waiting := final (init tcp None self) in
  let i := {| in_request := OpenSecureChannelRequest_ osc; in_msgType := mt;
              in_requestId := n; in_securityHeader := Some initial_securityHeader;
              in_cryptoFactory := None |} in
  osc_securityMode osc = NONE ->
  0 < n ->
  isValidSecurityPolicy (fromURI X SecurityPolicy_None_uri) = Good ->
  (forall endpoints, options_parent options = Some endpoints ->
     getEndpointDescription endpoints NONE (fromURI X SecurityPolicy_None_uri) <> None) ->
  expired X (issued_token osc self) now = false ->
  let r := messageBuilder_emits_message X i waiting in
  let token := issued_token osc self in
  let response := {| responseHeader := {| serviceResult := Good;
                                          rh_requestHandle := osc_requestHandle osc |};
                     body := OpenSecureChannelResponse 0 (Some token) None |} in
  let opts := {| opt_requestId := n; opt_secureChannelId := id + 1; opt_tokenId := 1;
                 chunkSize := receiveBufferSize tcp;
                 security_options := no_security_options |} in
  outcome r = Returned tt /\
  events r = pushNewToken (Some token) None
               :: messageChunker_update initial_securityHeader None
               :: chunkSecureMessage OPN opts response
               :: map transport_write (chunks_of X OPN opts response)
               ++ [emit_transaction_done; init_callback None] /\
  securityToken (final r) = Some token /\
  securityMode (final r) = NONE /\
  listener (messageBuilder (final r)) = common_listener /\
  timeoutId (final r) = None /\
  _securityTokenTimeout (final r) <> None /\
  _abort_has_been_called (final r) = false.
Proof.
  intros self waiting i Hmode Hn Hpolicy Hendpoint Hfresh r token response opts.
  assert (Hn' : (0 <? n) = true) by (apply Z.ltb_lt; exact Hn).
  set (message := {| request := OpenSecureChannelRequest_ osc;
                     msg_securityHeader := Some initial_securityHeader;
                     requestId := n |}).
  set (delivered := set_messageBuilder
                      (set_listener no_listener
                         (messageBuilder_read i (messageBuilder waiting))) waiting).
  set (c1 := set_securityMode NONE
               (set_clientSecurityHeader (Some initial_securityHeader)
                  (set_timeoutId None delivered))).
  set (c2 := set_messageBuilder
               (set_listener common_listener
                  (set_mb_securityMode NONE (messageBuilder c1))) c1).
  assert (Hstart : r = _handle_OpenSecureChannelRequest X message
                         (fun err => emit (init_callback err))
                         (certificates_processed X message c2)).
  { assert (E1 : r = _on_initial_open_secure_channel_request X
                       (fun err => emit (init_callback err))
                       (OpenSecureChannelRequest_ osc) mt delivered).
    { assert (Hl : listener (messageBuilder waiting) = initial_listener) by reflexivity.
      unfold r, messageBuilder_emits_message, bind at 1 2 3, modify at 1 2, get at 1.
      cbn [fst snd messageBuilder set_messageBuilder listener messageBuilder_read].
      rewrite Hl.
      match goal with
      | |- context [_on_initial_open_secure_channel_request X ?k ?rq ?t ?c] =>
          change c with delivered; change rq with (OpenSecureChannelRequest_ osc);
          change t with mt
      end.
      destruct (_on_initial_open_secure_channel_request X _ _ _ delivered) as [[o c] e].
      reflexivity. }
    rewrite E1, (initial_request_starts X _ _ mt delivered Hn').
    change (first_message (OpenSecureChannelRequest_ osc) delivered) with message.
    change (mb_securityHeader (messageBuilder delivered)) with (Some initial_securityHeader).
    unfold _on_initial_OpenSecureChannelRequest,
      has_endpoint_for_security_mode_and_policy, bind, assert, ret, modify, get.
    cbn [requestId message request msg_securityHeader]. rewrite Hn'.
    change (securityPolicyUri initial_securityHeader) with SecurityPolicy_None_uri.
    rewrite Hpolicy, Hmode. cbn [StatusCode_eqb negb fst snd].
    cbn [securityMode set_securityMode]. fold c1.
    repeat match goal with
           | |- context [parent ?c] => progress change (parent c) with (options_parent options)
           | |- context [securityMode ?c] => progress change (securityMode c) with NONE
           end.
    assert (Hrun : forall c,
               c = c2 ->
               _process_certificates X message
                 (_handle_OpenSecureChannelRequest X message
                    (fun err => emit (init_callback err))) c
               = _handle_OpenSecureChannelRequest X message
                   (fun err => emit (init_callback err))
                   (certificates_processed X message c2)).
    { intros c ->. apply process_certificates_run. }
    destruct (options_parent options) as [endpoints|] eqn:Hp.
    - specialize (Hendpoint endpoints eq_refl).
      destruct (getEndpointDescription endpoints NONE (fromURI X SecurityPolicy_None_uri));
        [|contradiction].
      cbn [truthy negb fst snd messageBuilder]. match goal with
      | |- context [_process_certificates X message ?k ?c] => rewrite (Hrun c eq_refl)
      end.
      destruct (_handle_OpenSecureChannelRequest X message _ _) as [[o c] e']. reflexivity.
    - cbn [negb fst snd messageBuilder]. match goal with
      | |- context [_process_certificates X message ?k ?c] => rewrite (Hrun c eq_refl)
      end.
      destruct (_handle_OpenSecureChannelRequest X message _ _) as [[o c] e]. reflexivity. }
  set (s := certificates_processed X message c2) in Hstart.
  set (c3 := prepared osc s).
  assert (Hnonce : nonce_block X c3 c3 = (Returned Good, c3, []))
    by (apply nonce_block_without_factory; reflexivity).
  assert (Hheader : _prepare_security_header X osc message c3
                    = (Returned (Some initial_securityHeader), c3, [])).
  { unfold _prepare_security_header. rewrite Hmode. reflexivity. }
  set (c4 := settled message initial_securityHeader c3).
  assert (Hthumb : thumbprint_block X c4 (opn_response Good c3) c4
                   = (Returned (opn_response Good c3), c4, []))
    by (apply thumbprint_block_skipped; reflexivity).
  assert (Hcert : certificate_block X c4 (opn_response Good c3) c4
                  = (Returned (opn_response Good c3), c4, []))
    by (apply certificate_block_absent; reflexivity).
  pose proof (handle_reaches_send X message (fun err => emit (init_callback err)) s osc Good
                c3 [] initial_securityHeader (opn_response Good c3) (opn_response Good c3)
                [] [] eq_refl Hn' Hfresh Hnonce Hheader Hthumb Hcert) as Hsend.
  fold c4 in Hsend. rewrite <- Hstart in Hsend.
  rewrite (send_response_run X OPN (opn_response Good c3) message _ c4
             (issued_token osc self) tcp no_security_options Hn' eq_refl eq_refl eq_refl)
    in Hsend.
  cbn [call] in Hsend. unfold closing_callback, bind, ret, emit in Hsend.
  cbn [serviceResult responseHeader opn_response StatusCode_eqb negb] in Hsend.
  rewrite Hsend. unfold outcome, events, final. cbn [fst snd app].
  split; [reflexivity|].
  split; [reflexivity|].
  split; [reflexivity|]. split; [reflexivity|]. split; [reflexivity|].
  split; [reflexivity|]. split; [discriminate|reflexivity].
Qed.

End Opening.

(** * The tokens of the inbound path *)





Section Inbound.

Variable X : Externals.








End Inbound.

(** * The properties on the test bench *)

Import Cases.

Lemma C8_token_ids_increase_witness :
  let options := {| options_parent := Some (endpoint server_certificate);
                    options_timeout := None;
                    options_defaultSecureTokenLifetime := None |} in
  let requests := [(100, none_request 0); (5000, none_request 60000);
                   (9000, none_request 0)] in
  let ids := map tokenId (issued_tokens externals requests (fst (constructor options 0 100))) in
  List.length ids = List.length requests /\
  ids = [1; 2; 3] /\
  StronglySorted Z.lt ids.
Proof.
  intros options requests ids.
  assert (Hall : List.length ids = List.length requests) by reflexivity.
  destruct (C8_token_ids_increase externals options 0 100 requests)
    as (Hsorted & _ & Hids).
  split; [exact Hall|]. split; [exact (Hids Hall)|exact Hsorted].
Defined.


Lemma response_announces_installed_token_witness :
  let message := message_of first_sign in
  let self := handshaking SIGN first_sign server in
  let r := _handle_OpenSecureChannelRequest externals message init_callback_ self in
  observer init_callback_ /\
  In (chunkSecureMessage OPN (signed_options 1) signed_response) (events r) /\
  securityToken (final r) = Some (token 1 100) /\
  securityTokenCount (final r) = 1 /\
  (exists keys, In (pushNewToken (Some (token 1 100)) keys) (events r)) /\
  opt_tokenId (signed_options 1) = lastTokenId self + 1 /\
  body signed_response = OpenSecureChannelResponse 0 (Some (token 1 100)) (serverNonce (final r)).
Proof.
  intros message self r.
  assert (Hin : In (chunkSecureMessage OPN (signed_options 1) signed_response) (events r))
    by (vm_compute; auto 20).
  destruct (response_announces_installed_token externals message init_callback_ self OPN
              (signed_options 1) signed_response observer_init_callback Hin)
    as (request & Hreq & Htoken & Hcount & Hpush & _ & _ & _ & Hid & Hbody).
  injection Hreq as <-.
  destruct (Hbody 0 (Some (token 1 100)) (Some (server_nonce 0)) eq_refl) as (_ & _ & Hnonce).
  split; [exact observer_init_callback|]. split; [exact Hin|].
  split; [exact Htoken|]. split; [exact Hcount|]. split; [exact Hpush|].
  split; [exact Hid|]. unfold r. rewrite <- Hnonce. reflexivity.
Defined.

Lemma handshake_response_protection_witness :
  let message := message_of first_sign in
  let self := handshaking SIGN first_sign server in
  let r := _handle_OpenSecureChannelRequest externals message init_callback_ self in
  observer init_callback_ /\
  In (chunkSecureMessage OPN (signed_options 1) signed_response) (events r) /\
  securityMode self = SIGN /\
  exists factory p s rest cert,
    cryptoFactory (messageBuilder self) = Some factory /\
    parent self = Some p /\
    split_der externals (certificateChain p) = s :: rest /\
    exploreCertificate externals s = Some cert /\
    0 <= receiverPublicKeyLength self /\
    security_options (signed_options 1) =
      asymmetric_options (publicKeyLength cert)
        (receiverPublicKeyLength self - blockPaddingSize factory)
        (receiverPublicKeyLength self).
Proof.
  intros message self r.
  assert (Hin : In (chunkSecureMessage OPN (signed_options 1) signed_response) (events r))
    by (vm_compute; auto 20).
  split; [exact observer_init_callback|]. split; [exact Hin|]. split; [reflexivity|].
  exact (handshake_response_protection externals message init_callback_ self OPN
           (signed_options 1) signed_response observer_init_callback Hin).
Defined.

Lemma renewal_skips_certificate_validity_witness :
  let r := _on_common_message externals (in_request renewal) OPN renewing in
  In (chunkSecureMessage OPN (signed_options 2) renewed_response) (events r) /\
  (exists version token nonce,
      body renewed_response = OpenSecureChannelResponse version token nonce) /\
  (serviceResult (responseHeader renewed_response) = Good \/
   serviceResult (responseHeader renewed_response) = BadSecurityModeRejected \/
   serviceResult (responseHeader renewed_response) = BadCertificateInvalid).
Proof.
  intros r.
  assert (Hin : In (chunkSecureMessage OPN (signed_options 2) renewed_response) (events r))
    by (vm_compute; auto 20).
  destruct (renewal_skips_certificate_validity externals (in_request renewal) OPN renewing
              OPN (signed_options 2) renewed_response Hin) as (_ & _ & _ & Hbody & Hresult).
  split; [exact Hin|]. split; [exact Hbody|exact Hresult].
Defined.

Lemma certificate_validity_window_witness :
  let message := message_of bad_thumbprint_expired in
  let self := handshaking SIGN bad_thumbprint_expired server in
  let r := _handle_OpenSecureChannelRequest externals message init_callback_ self in
  let cert := {| notBefore := 10; notAfter := 20; publicKeyLength := 64 |} in
  observer init_callback_ /\
  sender message = Some expired_client_certificate /\
  exploreCertificate externals expired_client_certificate = Some cert /\
  In (chunkSecureMessage OPN (signed_options 1) expired_fault) (events r) /\
  (clock self < notBefore cert \/ notAfter cert <= clock self) /\
  expired_fault = {| responseHeader := {| serviceResult := BadCertificateTimeInvalid;
                                          rh_requestHandle := requestHandle (request message) |};
                     body := ServiceFault None |}.
Proof.
  intros message self r cert.
  assert (Hin : In (chunkSecureMessage OPN (signed_options 1) expired_fault) (events r))
    by (vm_compute; auto 20).
  assert (Hout : clock self < notBefore cert \/ notAfter cert <= clock self)
    by (right; vm_compute; discriminate).
  destruct (certificate_validity_window externals message init_callback_ self
              expired_client_certificate cert OPN (signed_options 1) expired_fault
              observer_init_callback eq_refl eq_refl Hin) as (_ & Hfault).
  split; [exact observer_init_callback|]. split; [reflexivity|]. split; [reflexivity|].
  split; [exact Hin|]. split; [exact Hout|exact (Hfault Hout)].
Defined.

Lemma first_message_must_open_the_channel_witness :
  let rq := ServiceRequest "ReadRequest" 78 in
  let self := delivered read_request server in
  let r := _on_initial_open_secure_channel_request externals
             (fun err => emit (init_callback err)) rq MSG self in
  let fault := service_fault BadCommunicationError "Expecting OpenSecureChannelRequest" rq in
  let options := {| opt_requestId := 2; opt_secureChannelId := 0; opt_tokenId := 0;
                    chunkSize := 8192; security_options := no_security_options |} in
  (forall request, rq <> OpenSecureChannelRequest_ request) /\
  0 < sequenceHeader_requestId (messageBuilder self) /\
  securityToken self = Some placeholder /\
  transport self = Some tcp /\
  sent_responses (events r) = [fault] /\
  In (chunkSecureMessage MSG options fault) (events r) /\
  sent_then_closed (events r) fault /\
  tokenfree (events r) /\
  _abort_has_been_called (final r) = true /\
  securityTokenCount (final r) = 0.
Proof.
  intros rq self r fault options.
  assert (H1 : forall request, rq <> OpenSecureChannelRequest_ request)
    by (intros request; discriminate).
  assert (H2 : 0 < sequenceHeader_requestId (messageBuilder self))
    by (vm_compute; reflexivity).
  destruct (first_message_must_open_the_channel externals rq MSG self placeholder tcp
              H1 H2 eq_refl eq_refl)
    as (_ & Hsent & Hin & Hclosed & _ & Hfree & Habort & _ & Hcount & _).
  split; [exact H1|]. split; [exact H2|]. split; [reflexivity|]. split; [reflexivity|].
  split; [exact Hsent|]. split; [exact Hin|]. split; [exact Hclosed|].
  split; [exact Hfree|]. split; [exact Habort|exact Hcount].
Defined.

Lemma unsupported_policy_is_rejected_witness :
  let self := delivered foreign_policy server in
  let rq := OpenSecureChannelRequest_ (sign_request nonce16) in
  let r := _on_initial_open_secure_channel_request externals
             (fun err => emit (init_callback err)) rq OPN self in
  0 < sequenceHeader_requestId (messageBuilder self) /\
  mb_securityHeader (messageBuilder self) = Some foreign_header /\
  securityToken self = Some placeholder /\
  transport self = Some tcp /\
  isValidSecurityPolicy (fromURI externals (securityPolicyUri foreign_header)) <> Good /\
  results (events r) = [BadSecurityPolicyRejected] /\
  _abort_has_been_called (final r) = true /\
  securityMode (final r) = NONE /\
  securityTokenCount (final r) = 0 /\
  listener (messageBuilder (final r)) = no_listener.
Proof.
  intros self rq r.
  assert (H1 : 0 < sequenceHeader_requestId (messageBuilder self))
    by (vm_compute; reflexivity).
  assert (H5 : isValidSecurityPolicy (fromURI externals (securityPolicyUri foreign_header))
               <> Good) by (vm_compute; discriminate).
  destruct (unsupported_policy_is_rejected externals
              (sign_request nonce16) OPN self foreign_header placeholder tcp
              H1 eq_refl eq_refl eq_refl (or_introl H5))
    as (description & _ & Hevents & Habort & Hmode & Hcount & _ & Hlistener).
  split; [exact H1|]. split; [reflexivity|]. split; [reflexivity|]. split; [reflexivity|].
  split; [exact H5|].
  split; [unfold r, rq; rewrite Hevents; reflexivity|].
  split; [exact Habort|]. split; [exact Hmode|]. split; [exact Hcount|exact Hlistener].
Defined.

Lemma close_leaves_no_timer_witness :
  let self := final (run first_none server) in
  transport self = Some tcp /\
  _abort_has_been_called self = false /\
  _securityTokenTimeout self <> None /\
  exists closed,
    close None self = (Returned tt, closed, [transport_disconnect; emit_abort]) /\
    _abort_has_been_called closed = true /\
    _securityTokenTimeout closed = None /\
    timeoutId closed = None /\
    security_token_watch_dog_fires closed = (Returned tt, closed, []) /\
    open_channel_timeout_fires closed = (Returned tt, closed, []) /\
    close None closed = (Returned tt, closed, [transport_disconnect]).
Proof.
  intros self.
  split; [reflexivity|]. split; [reflexivity|]. split; [vm_compute; discriminate|].
  apply (close_leaves_no_timer self tcp); reflexivity.
Defined.

Lemma expired_token_is_not_installed_witness :
  let message := message_of first_none in
  let self := handshaking NONE first_none misconfigured in
  let r := _handle_OpenSecureChannelRequest externals message init_callback_ self in
  defaultSecureTokenLifetime self = -1000 /\
  request message = open_request NONE None 0 ISSUE /\
  expired externals (issued_token (none_request 0) self) (clock self) = true /\
  outcome r = Thrown (AssertionError "!securityToken.expired") /\
  events r = [] /\
  securityToken (final r) = None /\
  securityTokenCount (final r) = 1.
Proof.
  intros message self r.
  assert (H1 : request message = OpenSecureChannelRequest_ (none_request 0)) by reflexivity.
  assert (H2 : 0 < requestId message) by (vm_compute; reflexivity).
  assert (H3 : expired externals (issued_token (none_request 0) self) (clock self) = true)
    by (vm_compute; reflexivity).
  pose proof (expired_token_is_not_installed externals message init_callback_ self
                (none_request 0) H1 H2 H3) as (Ho & He & Ht & _ & Hc & _).
  split; [reflexivity|]. split; [reflexivity|]. split; [exact H3|].
  split; [exact Ho|]. split; [exact He|]. split; [exact Ht|]. exact Hc.
Defined.

Lemma security_mode_is_settled_witness :
  let actions := [clock_reads 5000; message_emitted renewal; security_token_timer;
                  message_emitted read_request; close_called] in
  forallb (fun a => negb (is_init a)) actions = true /\
  listener (messageBuilder opened) = common_listener /\
  securityMode opened = SIGN /\
  securityMode (fst (life externals actions opened)) = SIGN.
Proof.
  intros actions.
  destruct (security_mode_is_settled externals actions opened eq_refl eq_refl) as (H & _).
  split; [reflexivity|]. split; [reflexivity|]. split; [reflexivity|exact H].
Defined.

Lemma responses_use_the_keys_of_the_handshake_witness :
  let message := message_of first_sign in
  let self := handshaking SIGN first_sign server in
  let r := _handle_OpenSecureChannelRequest externals message init_callback_ self in
  let answer := {| responseHeader := {| serviceResult := Good; rh_requestHandle := 0 |};
                   body := ServiceResponse "ReadResponse" |} in
  let read := {| in_request := ServiceRequest "ReadRequest" 78; in_msgType := MSG;
                 in_requestId := 2; in_securityHeader := None;
                 in_cryptoFactory := Some factory16 |} in
  let actions := [clock_reads 200; message_emitted read;
                  send_response_called MSG answer (message_of read);
                  security_token_timer] in
  let options := {| opt_requestId := 2; opt_secureChannelId := 1; opt_tokenId := 1;
                    chunkSize := 8192;
                    security_options := symmetric_options SIGN (nonce16 ++ server_nonce 0) |} in
  observer init_callback_ /\
  request_of message = Some (sign_request nonce16) /\
  cryptoFactory (messageBuilder self) = Some factory16 /\
  osc_clientNonce (sign_request nonce16) = Some nonce16 /\
  securityMode self <> NONE /\
  listener (messageBuilder self) = common_listener /\
  In (chunkSecureMessage OPN (signed_options 1) signed_response) (events r) /\
  Forall (keeping factory16) actions /\
  In (chunkSecureMessage MSG options (set_requestHandle 78 answer))
    (snd (life externals actions (final r))) /\
  serverNonce (final r) = Some (server_nonce 0) /\
  security_options options =
    symmetric_options SIGN
      (derivedServerKeys (compute_derived_keys factory16 (server_nonce 0) nonce16)).
Proof.
  intros message self r answer read actions options.
  assert (H5 : securityMode self <> NONE) by (vm_compute; discriminate).
  assert (Hin : In (chunkSecureMessage OPN (signed_options 1) signed_response) (events r))
    by (vm_compute; auto 20).
  assert (Hkeep : Forall (keeping factory16) actions).
  { repeat constructor. cbn. discriminate. }
  assert (Hin' : In (chunkSecureMessage MSG options (set_requestHandle 78 answer))
                   (snd (life externals actions (final r))))
    by (vm_compute; auto 20).
  destruct (responses_use_the_keys_of_the_handshake externals message init_callback_ self
              (sign_request nonce16) factory16 nonce16 OPN (signed_options 1)
              signed_response actions
              observer_init_callback eq_refl eq_refl eq_refl H5 eq_refl Hin Hkeep)
    as (Hn & Hs).
  assert (Hmsg : MSG <> OPN) by discriminate.
  split; [exact observer_init_callback|]. split; [reflexivity|]. split; [reflexivity|].
  split; [reflexivity|]. split; [exact H5|]. split; [reflexivity|]. split; [exact Hin|].
  split; [exact Hkeep|]. split; [exact Hin'|].
  split; [exact Hn|exact (Hs MSG options (set_requestHandle 78 answer) Hin' Hmsg)].
Defined.

Lemma invalid_mode_interrupts_the_handshake_witness :
  let osc := {| osc_requestHandle := 77; osc_securityMode := INVALID;
                osc_clientNonce := None; requestedLifetime := 0; requestType := RENEW |} in
  let self := final (run first_none server) in
  let message := {| request := OpenSecureChannelRequest_ osc; msg_securityHeader := None;
                    requestId := 2 |} in
  let r := _handle_OpenSecureChannelRequest externals message (fun _ => ret tt) self in
  request_of message = Some osc /\
  0 < requestId message /\
  expired externals (issued_token osc self) (clock self) = false /\
  osc_securityMode osc = INVALID /\
  cryptoFactory (messageBuilder self) = None /\
  outcome r = Thrown (AssertionError "self.securityHeader") /\
  sent_responses (events r) = [] /\
  securityToken (final r) = Some (token 2 100) /\
  securityTokenCount (final r) = 2.
Proof.
  intros osc self message r.
  assert (H2 : 0 < requestId message) by (vm_compute; reflexivity).
  destruct (invalid_mode_interrupts_the_handshake externals message (fun _ => ret tt) self
              osc eq_refl H2 eq_refl eq_refl eq_refl) as (Ho & He & Ht & Hc & _).
  split; [reflexivity|]. split; [exact H2|]. split; [reflexivity|].
  split; [reflexivity|]. split; [reflexivity|].
  split; [exact Ho|]. split; [unfold r; rewrite He; reflexivity|].
  split; [exact Ht|exact Hc].
Defined.

Lemma first_message_without_request_id_witness :
  let i := {| in_request := in_request first_none; in_msgType := OPN; in_requestId := 0;
              in_securityHeader := Some initial_securityHeader;
              in_cryptoFactory := None |} in
  let r := messageBuilder_emits_message externals i server in
  listener (messageBuilder server) = initial_listener /\
  in_requestId i <= 0 /\
  events r = [] /\
  _abort_has_been_called (final r) = false /\
  listener (messageBuilder (final r)) = no_listener /\
  timeoutId (final r) = None /\
  events (messageBuilder_emits_message externals first_none (final r)) = [].
Proof.
  intros i r.
  assert (H2 : in_requestId i <= 0) by (vm_compute; discriminate).
  destruct (first_message_without_request_id externals i server eq_refl H2)
    as (_ & He & Ha & _ & Hl & _ & Hdrop).
  split; [reflexivity|]. split; [exact H2|]. split; [exact He|].
  split; [exact Ha|]. split; [exact Hl|]. split; [reflexivity|exact (Hdrop first_none)].
Defined.

Lemma handshake_succeeds_exactly_when_witness :
  let message := message_of first_sign in
  let self := handshaking SIGN first_sign server in
  let r := _handle_OpenSecureChannelRequest externals message init_callback_ self in
  observer init_callback_ /\
  In (chunkSecureMessage OPN (signed_options 1) signed_response) (events r) /\
  serviceResult (responseHeader signed_response) = Good /\
  nonces_agree self (sign_request nonce16) /\
  thumbprint_agrees externals self /\
  certificate_in_date externals message self.
Proof.
  intros message self r.
  assert (Hin : In (chunkSecureMessage OPN (signed_options 1) signed_response) (events r))
    by (vm_compute; auto 20).
  destruct (handshake_succeeds_exactly_when externals message init_callback_ self OPN
              (signed_options 1) signed_response observer_init_callback Hin)
    as (request & Hreq & Hiff & _).
  injection Hreq as <-.
  split; [exact observer_init_callback|]. split; [exact Hin|]. split; [reflexivity|].
  apply Hiff. reflexivity.
Defined.

Lemma response_security_header_witness :
  let message := message_of first_sign in
  let self := handshaking SIGN first_sign server in
  let r := _handle_OpenSecureChannelRequest externals message init_callback_ self in
  let header := {| securityPolicyUri := Basic128Rsa15_uri;
                   senderCertificate := Some server_certificate;
                   receiverCertificateThumbprint := Some (digest client_certificate) |} in
  observer init_callback_ /\
  In (chunkSecureMessage OPN (signed_options 1) signed_response) (events r) /\
  response_header externals (sign_request nonce16) self = Some header /\
  securityHeader (final r) = Some header /\
  exists keys, In (messageChunker_update header keys) (events r).
Proof.
  intros message self r header.
  assert (Hin : In (chunkSecureMessage OPN (signed_options 1) signed_response) (events r))
    by (vm_compute; auto 20).
  destruct (response_security_header externals message init_callback_ self OPN
              (signed_options 1) signed_response observer_init_callback Hin)
    as (request & header' & Hreq & _ & Hheader & Hfinal & Hupdate).
  injection Hreq as <-.
  assert (E : header' = header) by (vm_compute in Hheader; injection Hheader as <-; reflexivity).
  subst header'.
  split; [exact observer_init_callback|]. split; [exact Hin|].
  split; [exact Hheader|]. split; [exact Hfinal|exact Hupdate].
Defined.

Lemma channel_opens_without_security_witness :
  let options := {| options_parent := Some (endpoint server_certificate);
                    options_timeout := None;
                    options_defaultSecureTokenLifetime := None |} in
  let osc := {| osc_requestHandle := 77; osc_securityMode := NONE; osc_clientNonce := None;
                requestedLifetime := 0; requestType := ISSUE |} in
  let r := messageBuilder_emits_message externals
             {| in_request := OpenSecureChannelRequest_ osc; in_msgType := OPN;
                in_requestId := 1; in_securityHeader := Some initial_securityHeader;
                in_cryptoFactory := None |}
             (final (init tcp None (fst (constructor options 0 100)))) in
  osc_securityMode osc = NONE /\
  0 < 1 /\
  isValidSecurityPolicy (fromURI externals SecurityPolicy_None_uri) = Good /\
  (forall endpoints, options_parent options = Some endpoints ->
     getEndpointDescription endpoints NONE (fromURI externals SecurityPolicy_None_uri)
     <> None) /\
  expired externals (issued_token osc (fst (constructor options 0 100))) 100 = false /\
  results (events r) = [Good] /\
  securityToken (final r) = Some (token 1 100) /\
  listener (messageBuilder (final r)) = common_listener /\
  _abort_has_been_called (final r) = false.
Proof.
  intros options osc r.
  assert (H2 : 0 < 1) by reflexivity.
  assert (H4 : forall endpoints, options_parent options = Some endpoints ->
                 getEndpointDescription endpoints NONE
                   (fromURI externals SecurityPolicy_None_uri) <> None)
    by (intros endpoints [= <-]; discriminate).
  destruct (channel_opens_without_security externals options 0 100 tcp osc OPN 1
              eq_refl H2 eq_refl H4 eq_refl)
    as (_ & Hevents & Htoken & _ & Hlistener & _ & _ & Habort).
  split; [reflexivity|]. split; [exact H2|]. split; [reflexivity|]. split; [exact H4|].
  split; [reflexivity|].
  split; [unfold r; rewrite Hevents; reflexivity|].
  split; [exact Htoken|]. split; [exact Hlistener|exact Habort].
Defined.
